(** * media-organiser: date resolution and file placement

    A shallow embedding of [src/python/main.py]: the date-resolution cascade
    ([get_exif_date], [get_image_date]), the project-name prompt
    ([get_project_names_for_all_dates]) and the placement engine
    ([create_date_folder], [safe_copy_file], the loops of [group_files]),
    followed by the properties of the specification that concern them.

    External libraries (dateutil, Pillow, rawpy, pymediainfo, the operating
    system) are not code of the program.  What they return for a file is
    data of the model ([MediaFile]), the date parser is a parameter, and the
    file system is a finite map from paths to nodes. *)

From Stdlib Require Import Ascii String NArith ZArith.
From stdpp Require Import base option list strings gmap fin_maps fin_sets pretty sorting.

Local Open Scope N_scope.

(** ** Python strings *)

Module PyStr.

(** [bool(s)] for a [str]. *)
Definition truthy (s : string) : bool :=
  match s with "" => false | _ => true end.

(** [str.isspace] on one character (code points below 256). *)
Definition isspace (c : ascii) : bool :=
  let n := N_of_ascii c in
  ((9 <=? n) && (n <=? 13)) || ((28 <=? n) && (n <=? 32))
  || (n =? 133) || (n =? 160).

Fixpoint lstrip (s : string) : string :=
  match s with
  | "" => ""
  | String c s' => if isspace c then lstrip s' else s
  end.

(** [s.strip()] *)
Definition strip (s : string) : string :=
  String.rev (lstrip (String.rev (lstrip s))).

Definition lower_char (c : ascii) : ascii :=
  let n := N_of_ascii c in
  if (65 <=? n) && (n <=? 90) then ascii_of_N (n + 32) else c.

(** [s.lower()] on ASCII letters. *)
Fixpoint lower (s : string) : string :=
  match s with
  | "" => ""
  | String c s' => String (lower_char c) (lower s')
  end.

(** [s.replace(old, new, count)] for one-character [old] and [new]. *)
Fixpoint replace (old new : ascii) (count : nat) (s : string) : string :=
  match count, s with
  | O, _ => s
  | _, "" => ""
  | S n, String c s' =>
      if Ascii.eqb c old then String new (replace old new n s')
      else String c (replace old new count s')
  end.

(** [s.rfind('.')] *)
Fixpoint rfind_dot (s : string) : option nat :=
  match s with
  | "" => None
  | String c s' =>
      match rfind_dot s' with
      | Some i => Some (S i)
      | None => if Ascii.eqb c "."%char then Some O else None
      end
  end.

(** [s in l] for a list of strings. *)
Definition mem (s : string) (l : list string) : bool :=
  existsb (String.eqb s) l.

End PyStr.

(** ** Dates *)

(** [datetime.datetime], without microseconds.  [tzinfo] is [d.utcoffset()]
    in seconds for an aware value and [None] for a naive one. *)
Record datetime : Type := mkDatetime {
  year : N; month : N; day : N;
  hour : N; minute : N; second : N;
  tzinfo : option Z
}.

(** A naive value. *)
Abbreviation mkDate y mo d h mi s := (mkDatetime y mo d h mi s None).

Global Instance datetime_eq_dec : EqDecision datetime.
Proof. solve_decision. Defined.

(** [d.replace(hour=0, minute=0, second=0, microsecond=0)]: the time zone
    stays. *)
Definition replace_midnight (d : datetime) : datetime :=
  {| year := year d; month := month d; day := day d;
     hour := 0; minute := 0; second := 0; tzinfo := tzinfo d |}.

(** The calendar of [datetime]: [_is_leap], [_days_in_month],
    [_days_before_year], [_days_before_month] and [toordinal]. *)
Definition is_leap (y : Z) : bool :=
  ((y mod 4 =? 0) && negb (y mod 100 =? 0) || (y mod 400 =? 0))%Z.

Definition days_in_month (y m : Z) : Z :=
  if (m =? 2)%Z then (if is_leap y then 29 else 28)%Z
  else if ((m =? 4) || (m =? 6) || (m =? 9) || (m =? 11))%Z then 30%Z
  else 31%Z.

Definition days_before_year (y : Z) : Z :=
  let y1 := (y - 1)%Z in (y1 * 365 + y1 / 4 - y1 / 100 + y1 / 400)%Z.

Definition days_before_month (y m : Z) : Z :=
  foldr Z.add 0%Z (days_in_month y <$> seqZ 1 (m - 1)).

Definition toordinal (d : datetime) : Z :=
  (days_before_year (Z.of_N (year d))
   + days_before_month (Z.of_N (year d)) (Z.of_N (month d))
   + Z.of_N (day d))%Z.

(** The seconds from the start of the calendar to [d], read at the offset
    [offset] from UTC. *)
Definition utc_seconds (d : datetime) (offset : Z) : Z :=
  (((toordinal d * 24 + Z.of_N (hour d)) * 60 + Z.of_N (minute d)) * 60
   + Z.of_N (second d) - offset)%Z.

Fixpoint zeros (n : nat) : string :=
  match n with O => "" | S n' => String "0"%char (zeros n') end.

(** A number printed in decimal, zero-padded to [width] characters. *)
Definition zpad (width : nat) (n : N) : string :=
  let s := pretty n in zeros (width - String.length s) +:+ s.

(** [d.strftime('%Y%m%d')]: the DateKey. *)
Definition strftime_Ymd (d : datetime) : string :=
  zpad 4 (year d) +:+ zpad 2 (month d) +:+ zpad 2 (day d).

(** The outcome of [dateutil.parser.parse].  The source tells two classes
    of failure apart: [except (ValueError, TypeError)] in [get_exif_date]
    catches the first only (dateutil's [ParserError] is a [ValueError]);
    every other exception, such as the [OverflowError] that dateutil
    documents for dates beyond the C integer range, is the second. *)
Inductive parse_result : Type :=
  | Parsed (d : datetime)
  | ParseValueError
  | ParseOtherError.

(** ** What the metadata libraries return *)

(** An EXIF value as Pillow hands it over: text or a number. *)
Inductive exif_value : Type :=
  | ExifStr (s : string)
  | ExifInt (n : Z).

Definition exif_truthy (v : exif_value) : bool :=
  match v with
  | ExifStr s => PyStr.truthy s
  | ExifInt n => negb (Z.eqb n 0)
  end.

(** [str(value)] *)
Definition exif_str (v : exif_value) : string :=
  match v with
  | ExifStr s => s
  | ExifInt n => pretty n
  end.

(** An opened image: [img.getexif()] raises ([None]) or yields the items of
    the EXIF directory, tag number and value, in order. *)
Record image : Type := mkImage {
  getexif : option (list (Z * exif_value))
}.

(** An attribute of a pymediainfo track: text, an integer (pymediainfo
    converts all-digit text), or a list of texts ([other_...] attributes). *)
Inductive mi_value : Type :=
  | MiStr (s : string)
  | MiInt (n : Z)
  | MiList (l : list string).

Definition mi_truthy (v : mi_value) : bool :=
  match v with
  | MiStr s => PyStr.truthy s
  | MiInt n => negb (Z.eqb n 0)
  | MiList l => match l with [] => false | _ => true end
  end.

(** [value = value[0]] when the value is a list, then [str(value)]. *)
Definition mi_first_str (v : mi_value) : string :=
  match v with
  | MiStr s => s
  | MiInt n => pretty n
  | MiList l => match l with s :: _ => s | [] => "" end
  end.

Record track : Type := mkTrack {
  track_type : string;
  track_attrs : gmap string mi_value   (* getattr(track, field, None) *)
}.

(** A path: its components from the root. *)
Abbreviation Path := (list string).

Module PyPath.

(** [p.name] *)
Definition name (p : Path) : string := List.last p "".

(** [p.parent] *)
Definition parent (p : Path) : Path := List.removelast p.

(** [p / s] for a string [s] that is one component. *)
Definition child (p : Path) (s : string) : Path := p ++ [s].

Definition dot_inside (nm : string) (i : nat) : bool :=
  (Nat.ltb 0 i) && (Nat.ltb i (String.length nm - 1)).

(** [p.suffix]: from the last dot of the name, when that dot is neither
    the first nor the last character. *)
Definition suffix_of (nm : string) : string :=
  match PyStr.rfind_dot nm with
  | Some i =>
      if dot_inside nm i
      then String.substring i (String.length nm - i) nm else ""
  | None => ""
  end.

(** [p.stem] *)
Definition stem_of (nm : string) : string :=
  match PyStr.rfind_dot nm with
  | Some i => if dot_inside nm i then String.substring 0 i nm else nm
  | None => nm
  end.

Definition suffix (p : Path) : string := suffix_of (name p).
Definition stem (p : Path) : string := stem_of (name p).

Fixpoint join (sep : string) (l : list string) : string :=
  match l with
  | [] => ""
  | x :: l' => sep +:+ x +:+ join sep l'
  end.

(** [str(p)] *)
Definition to_string (p : Path) : string :=
  match p with [] => "/" | _ => join "/" p end.

(** The components of a string joined to a path with [/]: split at the
    separators, empty and [.] components dropped. *)
Fixpoint parts_go (cur : string) (s : string) : list string :=
  let flush (cur : string) : list string :=
    let c := String.rev cur in
    if String.eqb c "" || String.eqb c "." then [] else [c] in
  match s with
  | "" => flush cur
  | String a s' =>
      if Ascii.eqb a "/"%char then flush cur ++ parts_go "" s'
      else parts_go (String a cur) s'
  end.

Definition parts (s : string) : list string := parts_go "" s.

(** [p / s] for a relative string [s]. *)
Definition div (p : Path) (s : string) : Path := p ++ parts s.

End PyPath.

(** A discovered file, with what each library returns when it reads it. *)
Record MediaFile : Type := mkMediaFile {
  mf_path : Path;
  (** [rawpy.imread]: [None] when reading raises; otherwise
      [raw.metadata.datetime_original] when the chain of attributes is there. *)
  mf_raw : option (option string);
  (** [Image.open]: [None] when it raises. *)
  mf_image : option image;
  (** [MediaInfo.parse(...).tracks]: [None] when parsing raises. *)
  mf_video : option (list track);
  (** [image_path.stat().st_birthtime]: [None] when the call or the
      attribute is unavailable. *)
  mf_birthtime : option datetime
}.

(** An outcome of a call that may raise. *)
Inductive result (A : Type) : Type :=
  | Returns (a : A)
  | Raises.
Arguments Returns {A} a.
Arguments Raises {A}.

(** ** The date resolver *)

Section Resolver.

(** [dateutil.parser.parse] *)
Variable parse : string → parse_result.
(** [PIL.ExifTags.TAGS]: tag number to tag name. *)
Variable TAGS : Z → option string.
(** [datetime.now()] *)
Variable now : datetime.

(** [ExifTags.TAGS.get(tag, tag)]: a key of [exif_tags] is the name of the
    tag, or its number when the table has no name for it. *)
Definition exif_key (tag : Z) : string + Z :=
  match TAGS tag with
  | Some nm => inl nm
  | None => inr tag
  end.

(** [{ExifTags.TAGS.get(tag, tag): value for tag, value in exif.items()}] *)
Definition exif_tags_of (items : list (Z * exif_value))
  : gmap (string + Z) exif_value :=
  foldl (λ m tv, <[exif_key tv.1 := tv.2]> m) ∅ items.

Definition date_fields : list string :=
  ["DateTimeOriginal"; "DateTimeDigitized"; "DateTime"].

(** [if value and str(value).strip()] *)
Definition exif_usable (value : exif_value) : bool :=
  exif_truthy value && PyStr.truthy (PyStr.strip (exif_str value)).

(** [str(value).replace(':', ' ', 2)] *)
Definition exif_date_str (value : exif_value) : string :=
  PyStr.replace ":"%char " "%char 2 (exif_str value).

(** The loop [for field in date_fields] of [get_exif_date].  A
    [ValueError] or [TypeError] of the parser continues with the next
    field; any other exception leaves the loop for the outer handler, and
    the function returns [None]. *)
Fixpoint exif_fields_loop (exif_tags : gmap (string + Z) exif_value)
    (fields : list string) : option datetime :=
  match fields with
  | [] => None
  | field :: rest =>
      match exif_tags !! inl field with
      | Some value =>
          if exif_usable value then
            match parse (exif_date_str value) with
            | Parsed d => Some d
            | ParseValueError => exif_fields_loop exif_tags rest
            | ParseOtherError => None
            end
          else exif_fields_loop exif_tags rest
      | None => exif_fields_loop exif_tags rest
      end
  end.

Definition get_exif_date (img : image) : option datetime :=
  match getexif img with
  | None => None                         (* except Exception *)
  | Some [] => None                      (* if not exif *)
  | Some items => exif_fields_loop (exif_tags_of items) date_fields
  end.

Definition raw_extensions : list string :=
  [".raf"; ".gpr"; ".raw"; ".cr2"; ".nef"; ".arw"].
Definition jpeg_extensions : list string := [".jpg"; ".jpeg"].
Definition video_extensions : list string :=
  [".mp4"; ".mov"; ".avi"; ".mkv"; ".wmv"; ".flv"; ".webm"; ".m4v"].

(** The inner [try] of the RAW branch: [None] when it ends without
    [return], by an exception or not. *)
Definition raw_date (f : MediaFile) : option datetime :=
  match mf_raw f with
  | Some (Some s) =>
      if PyStr.truthy s then
        match parse s with
        | Parsed d => Some d
        | _ => None
        end
      else None
  | _ => None
  end.

Definition video_fields : list string :=
  ["encoded_date"; "tagged_date"; "file_last_modification_date";
   "file_creation_date"; "file_last_modification_date__local";
   "file_creation_date__local"; "other_file_creation_date";
   "other_file_last_modification_date"].

(** The loop over the fields of one track: [except Exception: continue]. *)
Fixpoint video_fields_loop (t : track) (fields : list string)
    : option datetime :=
  match fields with
  | [] => None
  | field :: rest =>
      match track_attrs t !! field with
      | Some value =>
          if mi_truthy value then
            match parse (mi_first_str value) with
            | Parsed d => Some d
            | _ => video_fields_loop t rest
            end
          else video_fields_loop t rest
      | None => video_fields_loop t rest
      end
  end.

(** [for track in media_info.tracks: if track.track_type == 'General'] *)
Fixpoint video_tracks_loop (tracks : list track) : option datetime :=
  match tracks with
  | [] => None
  | t :: rest =>
      if String.eqb (track_type t) "General" then
        match video_fields_loop t video_fields with
        | Some d => Some d
        | None => video_tracks_loop rest
        end
      else video_tracks_loop rest
  end.

(** The inner [try] of the video branch. *)
Definition video_date (f : MediaFile) : option datetime :=
  match mf_video f with
  | Some tracks => video_tracks_loop tracks
  | None => None
  end.

(** [datetime.fromtimestamp(image_path.stat().st_birthtime)] *)
Definition creation_date (f : MediaFile) : result datetime :=
  match mf_birthtime f with
  | Some d => Returns d
  | None => Raises
  end.

(** The body of the outer [try] of [get_image_date]. *)
Definition get_image_date_body (f : MediaFile) : result datetime :=
  let ext := PyStr.lower (PyPath.suffix (mf_path f)) in
  if PyStr.mem ext raw_extensions then
    match raw_date f with
    | Some d => Returns d
    | None => creation_date f
    end
  else if PyStr.mem ext jpeg_extensions then
    match mf_image f with
    | None => Raises                     (* Image.open, outside any inner try *)
    | Some img =>
        match get_exif_date img with
        | Some d => Returns d
        | None => creation_date f
        end
    end
  else if PyStr.mem ext video_extensions then
    match video_date f with
    | Some d => Returns d
    | None => creation_date f
    end
  else creation_date f.

Definition get_image_date (f : MediaFile) : result datetime :=
  match get_image_date_body f with
  | Returns d => Returns d
  | Raises => Returns now                (* except Exception: return datetime.now() *)
  end.

(** What one EXIF field contributes when the loop looks at it: nothing
    ([None], the loop goes on) or the outcome of the parser. *)
Definition exif_field_date (exif_tags : gmap (string + Z) exif_value)
    (field : string) : option parse_result :=
  match exif_tags !! inl field with
  | Some value =>
      if exif_usable value then Some (parse (exif_date_str value)) else None
  | None => None
  end.

(** What one field contributes to a cascade, when it is looked at. *)
Definition video_field_date (t : track) (field : string) : option datetime :=
  match track_attrs t !! field with
  | Some value =>
      if mi_truthy value then
        match parse (mi_first_str value) with
        | Parsed d => Some d
        | _ => None
        end
      else None
  | None => None
  end.

End Resolver.

(** ** The file system, the log and the exceptions *)

Inductive node : Type :=
  | File (data : string)
  | Dir.

Record FS : Type := mkFS {
  fs_nodes : gmap Path node;
  (** Free bytes on the destination volume. *)
  fs_free : Z;
  (** Directories in which no entry may be created or removed. *)
  fs_readonly : gset Path
}.

Inductive log_entry : Type :=
  | LogInfo (msg : string)      (* logging.info *)
  | LogError (msg : string)     (* logging.error *)
  | Echo (msg : string).        (* click.echo on standard output *)

Record world : Type := mkWorld {
  w_fs : FS;
  w_log : list log_entry        (* oldest first *)
}.

Inductive exn : Type :=
  | DiskSpaceError (msg : string)
  | PermissionError (msg : string)   (* the program's own class *)
  | OSError (msg : string).          (* raised by the operating system calls *)

(** [str(e)] *)
Definition exn_msg (e : exn) : string :=
  match e with
  | DiskSpaceError m | PermissionError m | OSError m => m
  end.

Module OS.

Definition set_nodes (fs : FS) (m : gmap Path node) : FS :=
  {| fs_nodes := m; fs_free := fs_free fs; fs_readonly := fs_readonly fs |}.

(** [p.exists()] *)
Definition exists_ (fs : FS) (p : Path) : bool :=
  match fs_nodes fs !! p with Some _ => true | None => false end.

Definition is_dir (fs : FS) (p : Path) : bool :=
  match fs_nodes fs !! p with Some Dir => true | _ => false end.

(** Entries can be created in and removed from [d]. *)
Definition writable_dir (fs : FS) (d : Path) : bool :=
  is_dir fs d && bool_decide (d ∉ fs_readonly fs).

Definition size_of (data : string) : Z := Z.of_nat (String.length data).

(** [p.stat().st_size]; a directory counts for nothing. *)
Definition st_size (fs : FS) (p : Path) : option Z :=
  match fs_nodes fs !! p with
  | Some (File data) => Some (size_of data)
  | Some Dir => Some 0%Z
  | None => None
  end.

(** [shutil.disk_usage(p).free] *)
Definition disk_free (fs : FS) (p : Path) : option Z :=
  if exists_ fs p then Some (fs_free fs) else None.

(** [p.touch()]: an existing entry only has its times updated. *)
Definition touch (fs : FS) (p : Path) : option FS :=
  match fs_nodes fs !! p with
  | Some _ => Some fs
  | None =>
      if writable_dir fs (PyPath.parent p)
      then Some (set_nodes fs (<[p := File ""]> (fs_nodes fs)))
      else None
  end.

(** [p.unlink()] *)
Definition unlink (fs : FS) (p : Path) : option FS :=
  match fs_nodes fs !! p with
  | Some (File _) =>
      if writable_dir fs (PyPath.parent p)
      then Some (set_nodes fs (delete p (fs_nodes fs)))
      else None
  | _ => None
  end.

(** [p.mkdir(exist_ok=True)] *)
Definition mkdir (fs : FS) (p : Path) : option FS :=
  match fs_nodes fs !! p with
  | Some Dir => Some fs
  | Some (File _) => None
  | None =>
      if writable_dir fs (PyPath.parent p)
      then Some (set_nodes fs (<[p := Dir]> (fs_nodes fs)))
      else None
  end.

(** [p.mkdir(parents=True, exist_ok=True)], on the reversed path: pathlib
    first tries the directory itself and creates the parent only when it
    is missing. *)
Fixpoint mkdir_parents_go (fs : FS) (rp : list string) : option FS :=
  match fs_nodes fs !! rev rp with
  | Some Dir => Some fs
  | Some (File _) => None
  | None =>
      match rp with
      | [] => None
      | _ :: rparent =>
          if exists_ fs (rev rparent) then mkdir fs (rev rp)
          else
            match mkdir_parents_go fs rparent with
            | Some fs' => mkdir fs' (rev rp)
            | None => None
            end
      end
  end.

Definition mkdir_parents (fs : FS) (p : Path) : option FS :=
  mkdir_parents_go fs (rev p).

(** Writing [data] to [p], replacing what a file there held. *)
Definition write_file (fs : FS) (p : Path) (data : string) : option FS :=
  let store (old : Z) : option FS :=
    let free := (fs_free fs + old - size_of data)%Z in
    if (free <? 0)%Z then None
    else Some {| fs_nodes := <[p := File data]> (fs_nodes fs);
                 fs_free := free; fs_readonly := fs_readonly fs |} in
  match fs_nodes fs !! p with
  | Some Dir => None
  | Some (File old) => store (size_of old)
  | None => if writable_dir fs (PyPath.parent p) then store 0%Z else None
  end.

(** Into a directory, [copy2] and [move] write under the name of the
    source. *)
Definition target (fs : FS) (src dst : Path) : Path :=
  if is_dir fs dst then PyPath.child dst (PyPath.name src) else dst.

(** [shutil.copy2(src, dst)] for a regular file. *)
Definition copy2 (fs : FS) (src dst : Path) : option FS :=
  match fs_nodes fs !! src with
  | Some (File data) => write_file fs (target fs src dst) data
  | _ => None
  end.

(** [os.rename(src, dst)] for a regular file. *)
Definition rename (fs : FS) (src dst : Path) (data : string) : option FS :=
  if bool_decide (src = dst) then Some fs
  else if is_dir fs dst then None
  else if writable_dir fs (PyPath.parent src)
          && writable_dir fs (PyPath.parent dst)
  then Some (set_nodes fs (delete src (<[dst := File data]> (fs_nodes fs))))
  else None.

(** [shutil.move(src, dst)] for a regular file, by renaming. *)
Definition move (fs : FS) (src dst : Path) : option FS :=
  match fs_nodes fs !! src with
  | Some (File data) =>
      if is_dir fs dst then
        let real_dst := PyPath.child dst (PyPath.name src) in
        if exists_ fs real_dst then None else rename fs src real_dst data
      else rename fs src dst data
  | _ => None
  end.

End OS.

(** ** Computations: a state of the world, an exception or a result *)

Inductive outcome (A : Type) : Type :=
  | Done (a : A)
  | Raised (e : exn)
  | OutOfFuel.                  (* a loop that was cut short by the model *)
Arguments Done {A} a.
Arguments Raised {A} e.
Arguments OutOfFuel {A}.

Definition M (A : Type) : Type := world → outcome A * world.

Global Instance M_ret : MRet M := λ A a w, (Done a, w).

Global Instance M_bind : MBind M := λ A B f m w,
  match m w with
  | (Done a, w') => f a w'
  | (Raised e, w') => (Raised e, w')
  | (OutOfFuel, w') => (OutOfFuel, w')
  end.

Definition raise {A : Type} (e : exn) : M A := λ w, (Raised e, w).

(** [try: m except Exception as e: h e] *)
Definition try_except {A : Type} (m : M A) (h : exn → M A) : M A := λ w,
  match m w with
  | (Raised e, w') => h e w'
  | r => r
  end.

Definition emit (entry : log_entry) : M unit := λ w,
  (Done (), {| w_fs := w_fs w; w_log := w_log w ++ [entry] |}).

Definition logging_info (msg : string) : M unit := emit (LogInfo msg).
Definition logging_error (msg : string) : M unit := emit (LogError msg).
Definition click_echo (msg : string) : M unit := emit (Echo msg).

(** An operating system call: it changes the file system or raises. *)
Definition os_call (op : FS → option FS) (msg : string) : M unit := λ w,
  match op (w_fs w) with
  | Some fs' => (Done (), {| w_fs := fs'; w_log := w_log w |})
  | None => (Raised (OSError msg), w)
  end.

(** ** Configuration and the mapping file *)

Record Config : Type := mkConfig {
  image_extensions : list string;
  max_project_name_length : nat;
  dry_run : bool;
  move_files : bool;
  name : option string;
  source_folder : option string;
  destination_folder : option string
}.

(** [Config.default()] *)
Definition Config_default : Config :=
  {| image_extensions :=
       [".jpg"; ".jpeg"; ".raf"; ".raw"; ".cr2"; ".nef"; ".arw"; ".gpr";
        ".mp4"; ".mov"; ".avi"; ".mkv"; ".wmv"; ".flv"; ".webm"; ".m4v"];
     max_project_name_length := 50;
     dry_run := false;
     move_files := false;
     name := None;
     source_folder := None;
     destination_folder := None |}.

(** [config_obj.move_files = move] *)
Definition set_move_files (c : Config) (move : bool) : Config :=
  {| image_extensions := image_extensions c;
     max_project_name_length := max_project_name_length c;
     dry_run := dry_run c;
     move_files := move;
     name := name c;
     source_folder := source_folder c;
     destination_folder := destination_folder c |}.

(** A value of the mapping file as [json.load] returns it.  The file maps
    dates to labels; arrays and objects as values are left out. *)
Inductive json : Type :=
  | JNull
  | JBool (b : bool)
  | JNum (n : Z)
  | JStr (s : string).

(** [bool(v)] *)
Definition json_truthy (v : json) : bool :=
  match v with
  | JNull => false
  | JBool b => b
  | JNum n => negb (Z.eqb n 0)
  | JStr s => PyStr.truthy s
  end.

(** [str(v)], as an f-string formats it. *)
Definition json_str (v : json) : string :=
  match v with
  | JNull => "None"
  | JBool true => "True"
  | JBool false => "False"
  | JNum n => pretty n
  | JStr s => s
  end.

(** ** The placement engine *)

Definition has_enough_disk_space (src dst : Path) : M bool := λ w,
  match OS.st_size (w_fs w) src, OS.disk_free (w_fs w) (PyPath.parent dst) with
  | Some src_size, Some dst_free => (Done (bool_decide (src_size < dst_free)%Z), w)
  | _, _ =>
      (logging_error ("Error checking disk space: " +:+ PyPath.to_string src);;
       mret false) w
  end.

Definition can_write_to_directory (directory : Path) : M bool := λ w,
  let test_file := PyPath.child directory ".write_test" in
  match OS.touch (w_fs w) test_file with
  | Some fs1 =>
      match OS.unlink fs1 test_file with
      | Some fs2 => (Done true, {| w_fs := fs2; w_log := w_log w |})
      | None => (Done false, {| w_fs := fs1; w_log := w_log w |})
      end
  | None => (Done false, w)
  end.

Definition safe_copy_file (src dst : Path) (config : Config) : M unit :=
  if dry_run config then
    logging_info ("Would " +:+ (if move_files config then "move" else "copy")
                  +:+ " " +:+ PyPath.to_string src
                  +:+ " to " +:+ PyPath.to_string dst)
  else
    try_except
      (enough ← has_enough_disk_space src dst;
       if negb enough then
         raise (DiskSpaceError
                  ("Not enough disk space to copy " +:+ PyPath.to_string src))
       else
       writable ← can_write_to_directory (PyPath.parent dst);
       if negb writable then
         raise (PermissionError
                  ("Cannot write to " +:+ PyPath.to_string (PyPath.parent dst)))
       else
       os_call (λ fs, OS.mkdir_parents fs (PyPath.parent dst))
               (PyPath.to_string (PyPath.parent dst));;
       if move_files config then
         os_call (λ fs, OS.move fs src dst) (PyPath.to_string src);;
         logging_info ("Moved " +:+ PyPath.to_string src
                       +:+ " to " +:+ PyPath.to_string dst)
       else
         os_call (λ fs, OS.copy2 fs src dst) (PyPath.to_string src);;
         logging_info ("Copied " +:+ PyPath.to_string src
                       +:+ " to " +:+ PyPath.to_string dst))
      (λ e,
         logging_error ("Error processing " +:+ PyPath.to_string src
                        +:+ ": " +:+ exn_msg e);;
         raise e).

(** The line that the handler of [safe_copy_file] logs. *)
Definition error_line (src : Path) (e : exn) : log_entry :=
  LogError ("Error processing " +:+ PyPath.to_string src
            +:+ ": " +:+ exn_msg e).

(** [base_dir / f"{date.strftime('%Y%m%d')}_{project_name}"] *)
Definition date_folder_path (base_dir : Path) (date : datetime)
    (project_name : json) : Path :=
  PyPath.div base_dir (strftime_Ymd date +:+ "_" +:+ json_str project_name).

Definition create_date_folder (base_dir : Path) (date : datetime)
    (project_name : json) (config : Config) : M Path :=
  let date_folder := date_folder_path base_dir date project_name in
  try_except
    ((if negb (dry_run config)
      then os_call (λ fs, OS.mkdir fs date_folder) (PyPath.to_string date_folder)
      else mret ());;
     logging_info ("Created/accessed folder: " +:+ PyPath.to_string date_folder);;
     mret date_folder)
    (λ e,
       logging_error ("Error creating folder " +:+ PyPath.to_string date_folder
                      +:+ ": " +:+ exn_msg e);;
       raise e).

(** [f"{date_folder.name}_{image_file.name}"] *)
Definition new_filename (date_folder image_file : Path) : string :=
  PyPath.name date_folder +:+ "_" +:+ PyPath.name image_file.

(** [f"{date_folder.name}_{image_file.stem}_{counter}{image_file.suffix}"] *)
Definition numbered_filename (date_folder image_file : Path) (counter : nat)
  : string :=
  PyPath.name date_folder +:+ "_" +:+ PyPath.stem image_file +:+ "_"
  +:+ pretty counter +:+ PyPath.suffix image_file.

(** The path that the loop tries when the counter is [counter]. *)
Definition numbered (date_folder image_file : Path) (counter : nat) : Path :=
  PyPath.child date_folder (numbered_filename date_folder image_file counter).

(** [while dest_file.exists(): ...; counter += 1], cut after [fuel] rounds.
    Both file names are built from path names, which hold no separator, so
    [date_folder / name] adds one component. *)
Fixpoint dest_loop (fuel : nat) (fs : FS) (date_folder image_file : Path)
    (dest_file : Path) (counter : nat) : option Path :=
  if OS.exists_ fs dest_file then
    match fuel with
    | O => None
    | S fuel' =>
        dest_loop fuel' fs date_folder image_file
          (numbered date_folder image_file counter) (S counter)
    end
  else Some dest_file.

(** Lines 358 to 363 of [group_files].  One more round than the file system
    has entries is always enough ([find_dest_terminates]). *)
Definition find_dest (date_folder image_file : Path) : M Path := λ w,
  let dest_file :=
    PyPath.child date_folder (new_filename date_folder image_file) in
  match dest_loop (S (size (fs_nodes (w_fs w)))) (w_fs w)
          date_folder image_file dest_file 1 with
  | Some p => (Done p, w)
  | None => (OutOfFuel, w)
  end.

(** The part of the second loop of [group_files] after the mapping was
    consulted: lines 357 to 364. *)
Definition place_file (config_obj : Config) (dest_path : Path)
    (image_file : Path) (image_date : datetime) (project_name : json)
  : M unit :=
  date_folder ← create_date_folder dest_path image_date project_name config_obj;
  dest_file ← find_dest date_folder image_file;
  safe_copy_file image_file dest_file config_obj.

(** One round of the second loop of [group_files]. *)
Definition group_step (config_obj : Config) (project_names : gmap string json)
    (dest_path : Path) (item : Path * datetime) : M unit :=
  let date_only := replace_midnight item.2 in
  let date_str := strftime_Ymd date_only in
  match project_names !! date_str with
  | Some project_name =>
      if negb (json_truthy project_name) then mret ()   (* continue *)
      else place_file config_obj dest_path item.1 item.2 project_name
  | None => mret ()                                      (* continue *)
  end.

(** [for image_file, image_date in file_date_mapping.items()] *)
Fixpoint group_loop (config_obj : Config) (project_names : gmap string json)
    (dest_path : Path) (items : list (Path * datetime)) : M unit :=
  match items with
  | [] => mret ()
  | item :: rest =>
      group_step config_obj project_names dest_path item;;
      group_loop config_obj project_names dest_path rest
  end.

(** [d[k] = v] on a dictionary kept as the list of its items, in insertion
    order. *)
Fixpoint dict_set {K V : Type} `{EqDecision K} (k : K) (v : V)
    (d : list (K * V)) : list (K * V) :=
  match d with
  | [] => [(k, v)]
  | (k', v') :: rest =>
      if decide (k = k') then (k, v) :: rest
      else (k', v') :: dict_set k v rest
  end.

Section Group.

Variable parse : string → parse_result.
Variable TAGS : Z → option string.
Variable now : datetime.

(** The first loop of [group_files]: the date of every discovered file. *)
Definition file_dates (image_files : list MediaFile)
  : list (Path * datetime) :=
  foldl (λ file_date_mapping image_file,
           match get_image_date parse TAGS now image_file with
           | Returns image_date =>
               dict_set (mf_path image_file) image_date file_date_mapping
           | Raises => file_date_mapping        (* except Exception: continue *)
           end) [] image_files.

(** The [group] command, from the files that [get_image_files] found (in
    the order of iteration) and the mapping that [json.load] read. *)
Definition group_files (image_files : list MediaFile)
    (destination_folder : Path) (move : bool)
    (project_names : gmap string json) : M unit :=
  let config_obj := set_move_files Config_default move in
  let file_date_mapping := file_dates image_files in
  group_loop config_obj project_names destination_folder file_date_mapping;;
  click_echo "Processing completed".

End Group.

(** ** Project names asked at the console *)

(** The order of [datetime] values. *)
Definition date_fields_of (d : datetime) : list N :=
  [year d; month d; day d; hour d; minute d; second d].

Fixpoint lex_leb (l1 l2 : list N) : bool :=
  match l1, l2 with
  | [], _ => true
  | _ :: _, [] => false
  | a :: l1', b :: l2' =>
      if a <? b then true else if b <? a then false else lex_leb l1' l2'
  end.

(** [d1 <= d2] where Python answers: two naive values, or two aware values
    with the same offset, compare by their fields; two aware values with
    different offsets compare as instants.  A naive and an aware value do
    not compare, Python raises [TypeError]; the answer given here for them
    (naive first) is never used, [sorted_dates] raises before. *)
Definition date_leb (d1 d2 : datetime) : bool :=
  match tzinfo d1, tzinfo d2 with
  | None, None => lex_leb (date_fields_of d1) (date_fields_of d2)
  | Some o1, Some o2 =>
      if (o1 =? o2)%Z
      then lex_leb (date_fields_of d1) (date_fields_of d2)
      else (utc_seconds d1 o1 <=? utc_seconds d2 o2)%Z
  | None, Some _ => true
  | Some _, None => false
  end.

Definition date_le (d1 d2 : datetime) : Prop := Is_true (date_leb d1 d2).

Global Instance date_le_dec : RelDecision date_le.
Proof. intros d1 d2. unfold date_le. apply _. Defined.

Definition aware (d : datetime) : bool :=
  match tzinfo d with Some _ => true | None => false end.

(** The list holds a naive and an aware value. *)
Definition mixed (dates : list datetime) : bool :=
  existsb aware dates && existsb (λ d, negb (aware d)) dates.

(** [sorted(dates)]: [None] stands for the [TypeError] that the first
    comparison of a naive with an aware value raises. *)
Definition sorted_dates (dates : list datetime) : option (list datetime) :=
  if mixed dates then None else Some (merge_sort date_le dates).

(** The loop [while True] around [click.prompt], on the lines that the user
    types; at the end of the input the prompt raises ([None]). *)
Fixpoint prompt_loop (config : Config) (input : list string)
    : option (string * list string) :=
  match input with
  | [] => None
  | project_name :: rest =>
      if Nat.ltb (max_project_name_length config) (String.length project_name)
      then prompt_loop config rest                          (* too long *)
      else if negb (PyStr.truthy (PyStr.strip project_name))
      then prompt_loop config rest                          (* empty *)
      else Some (project_name, rest)
  end.

(** [for date in sorted_dates] *)
Fixpoint names_loop (config : Config) (dates : list datetime)
    (project_names : gmap string string) (input : list string)
    : option (gmap string string * list string) :=
  match dates with
  | [] => Some (project_names, input)
  | date :: rest =>
      match prompt_loop config input with
      | Some (project_name, input') =>
          names_loop config rest
            (<[strftime_Ymd date := project_name]> project_names) input'
      | None => None
      end
  end.

(** [dates] lists the elements of the set in the order of iteration.
    [None] stands for an exception: the [TypeError] of [sorted], or the one
    of the prompt at the end of the input. *)
Definition get_project_names_for_all_dates (dates : list datetime)
    (config : Config) (input : list string)
    : option (gmap string string * list string) :=
  let uniform (nm : string) :=
    foldl (λ m date, <[strftime_Ymd date := nm]> m) ∅ dates in
  let prompted :=
    sorted ← sorted_dates dates;
    names_loop config sorted ∅ input in
  match name config with
  | Some nm =>
      if PyStr.truthy nm then Some (uniform nm, input) else prompted
  | None => prompted
  end.

(** ** The priority order of the video fields in the words of the
    specification *)

(** Follows the specification, not the source: encoded date, tagged date,
    file-modification date (UTC then local), file-creation date (UTC then
    local). *)
Definition spec_video_fields : list string :=
  ["encoded_date"; "tagged_date";
   "file_last_modification_date"; "file_last_modification_date__local";
   "file_creation_date"; "file_creation_date__local"].

(** The first field of [fields] that yields a date. *)
Fixpoint first_field_date (parse : string → parse_result) (t : track)
    (fields : list string) : option datetime :=
  match fields with
  | [] => None
  | field :: rest =>
      match video_field_date parse t field with
      | Some d => Some d
      | None => first_field_date parse t rest
      end
  end.

(** ** The group operation in the words of the specification *)

(** The key under which the mapping is consulted for a file. *)
Definition date_key (item : Path * datetime) : string :=
  strftime_Ymd (replace_midnight item.2).

(** Follows the specification, not the source: the files are taken in turn;
    a file whose date has a label is placed by the placement engine, which
    completes; a file whose date has none (no entry, or a falsy one) is
    skipped and leaves the world as it is. *)
Inductive places_all (config_obj : Config) (project_names : gmap string json)
    (dest_path : Path) : list (Path * datetime) → world → world → Prop :=
  | places_nil (w : world) :
      places_all config_obj project_names dest_path [] w w
  | places_skip (item : Path * datetime) (rest : list (Path * datetime))
      (w w' : world) :
      (project_names !! date_key item = None ∨
       ∃ project_name, project_names !! date_key item = Some project_name ∧
                       json_truthy project_name = false) →
      places_all config_obj project_names dest_path rest w w' →
      places_all config_obj project_names dest_path (item :: rest) w w'
  | places_file (item : Path * datetime) (project_name : json)
      (rest : list (Path * datetime)) (w w1 w' : world) :
      project_names !! date_key item = Some project_name →
      json_truthy project_name = true →
      place_file config_obj dest_path item.1 item.2 project_name w
        = (Done (), w1) →
      places_all config_obj project_names dest_path rest w1 w' →
      places_all config_obj project_names dest_path (item :: rest) w w'.

(** ** Instances for the examples *)

Module Sample.

Definition is_digit (c : ascii) : bool :=
  let n := N_of_ascii c in (48 <=? n) && (n <=? 57).

(** The numbers written in a string, in order. *)
Fixpoint numbers_go (cur : option N) (s : string) : list N :=
  match s with
  | "" => option_list cur
  | String c s' =>
      if is_digit c
      then numbers_go (Some (10 * default 0 cur + (N_of_ascii c - 48))) s'
      else option_list cur ++ numbers_go None s'
  end.

Definition numbers (s : string) : list N := numbers_go None s.

(** What a run of [n] digits contributes to the shape of a text. *)
Definition run_shape (n : nat) : string :=
  match n with
  | 0%nat => ""
  | 2%nat => "2"
  | 4%nat => "4"
  | _ => if Nat.leb 11 n then "L" else "?"
  end.

(** The shape of a text: every run of digits replaced by [2] or [4], its
    length, by [L] when it has eleven digits or more, and by [?]
    otherwise. *)
Fixpoint shape_go (run : nat) (s : string) : string :=
  match s with
  | "" => run_shape run
  | String c s' =>
      if is_digit c then shape_go (S run) s'
      else run_shape run +:+ String c (shape_go 0 s')
  end.

Definition shape (s : string) : string := shape_go 0 s.

(** A date parser for the examples: [dateutil.parser.parse] on the texts
    [YYYY-MM-DD] and [YYYY MM DD], alone or followed by [ hh:mm:ss], which
    give a naive date, and on [YYYY-MM-DD hh:mm:ss UTC], which gives an
    aware date of offset 0.  A date that does not exist is a [ValueError];
    a year of eleven digits, beyond the C [int] range, is an
    [OverflowError].  Every other text is answered with [ValueError], as
    dateutil answers a text that begins with [UTC]; the examples use no
    other. *)
Definition parse (s : string) : parse_result :=
  let long :=
    match shape s with String c _ => Ascii.eqb c "L" | "" => false end in
  let sh :=
    match shape s with
    | String c rest => if Ascii.eqb c "L" then String "4" rest else shape s
    | "" => ""
    end in
  let build y m d hh mm ss tz :=
    if 2147483647 <? y then ParseOtherError
    else if negb long && (1 <=? y) && (y <=? 9999) && (1 <=? m) && (m <=? 12)
            && (1 <=? d)
            && (Z.of_N d <=? days_in_month (Z.of_N y) (Z.of_N m))%Z
            && (hh <? 24) && (mm <? 60) && (ss <? 60)
    then Parsed (mkDatetime y m d hh mm ss tz)
    else ParseValueError in
  match numbers s with
  | [y; m; d] =>
      if PyStr.mem sh ["4-2-2"; "4 2 2"] then build y m d 0 0 0 None
      else ParseValueError
  | [y; m; d; hh; mm; ss] =>
      if PyStr.mem sh ["4-2-2 2:2:2"; "4 2 2 2:2:2"]
      then build y m d hh mm ss None
      else if PyStr.mem sh ["4-2-2 2:2:2 UTC"]
      then build y m d hh mm ss (Some 0%Z)
      else ParseValueError
  | _ => ParseValueError
  end.

(** The entries of [PIL.ExifTags.TAGS] for a few tags. *)
Definition TAGS (tag : Z) : option string :=
  if (tag =? 271)%Z then Some "Make"
  else if (tag =? 272)%Z then Some "Model"
  else if (tag =? 306)%Z then Some "DateTime"
  else if (tag =? 36867)%Z then Some "DateTimeOriginal"
  else if (tag =? 36868)%Z then Some "DateTimeDigitized"
  else None.

Definition now : datetime := mkDate 2026 11 4 12 0 0.

Definition no_metadata (p : Path) (birth : option datetime) : MediaFile :=
  {| mf_path := p; mf_raw := None; mf_image := None; mf_video := None;
     mf_birthtime := birth |}.

(** A file named [.jpg] that Pillow cannot open, created on 1 May 2023. *)
Definition broken_jpeg : MediaFile :=
  no_metadata ["src"; "broken.jpg"] (Some (mkDate 2023 5 1 9 30 0)).

(** A JPEG whose original-capture tag holds a year beyond the C [int]
    range and whose digitization tag is well formed. *)
Definition overflow_image : image :=
  {| getexif := Some [ (271%Z, ExifStr "ACME");
                       (36867%Z, ExifStr "99999999999:01:01 00:00:00");
                       (36868%Z, ExifStr "2023:05:01 10:00:00") ] |}.

(** A JPEG with both tags well formed. *)
Definition two_tag_image : image :=
  {| getexif := Some [ (36868%Z, ExifStr "2023:05:02 11:00:00");
                       (36867%Z, ExifStr "2023:05:01 10:00:00") ] |}.

(** A general track with a local modification date and a creation date,
    as MediaInfo writes them. *)
Definition local_and_creation : track :=
  {| track_type := "General";
     track_attrs :=
       {[ "file_last_modification_date__local" := MiStr "2023-05-02 10:00:00";
          "file_creation_date" := MiStr "2023-05-01 08:00:00 UTC" ]} |}.

(** A general track with an encoded date and a creation date. *)
Definition encoded_and_creation : track :=
  {| track_type := "General";
     track_attrs :=
       {[ "encoded_date" := MiList ["2023-04-30 07:00:00 UTC"];
          "file_creation_date" := MiStr "2023-05-01 08:00:00 UTC" ]} |}.

(** A destination root [/dest] and two photographs of 1 May 2023 under
    [/src], [a.jpg] of ten bytes and [b.jpg] of one byte. *)
Definition nodes : gmap Path node :=
  {[ [] := Dir;
     ["dest"] := Dir;
     ["src"] := Dir;
     ["src"; "a.jpg"] := File "0123456789";
     ["src"; "b.jpg"] := File "x" ]}.

Definition fs (free : Z) : FS :=
  {| fs_nodes := nodes; fs_free := free; fs_readonly := ∅ |}.

Definition start (free : Z) : world := {| w_fs := fs free; w_log := [] |}.

Definition photo (nm : string) (d : datetime) : MediaFile :=
  {| mf_path := ["src"; nm]; mf_raw := None;
     mf_image := Some {| getexif := Some [] |};
     mf_video := None; mf_birthtime := Some d |}.

Definition may1 : datetime := mkDate 2023 5 1 9 30 0.

Definition photos : list MediaFile := [photo "a.jpg" may1; photo "b.jpg" may1].

Definition wedding : gmap string json := {[ "20230501" := JStr "Wedding" ]}.

(** A mapping file whose entry for 1 May 2023 is the empty string. *)
Definition empty_label : gmap string json := {[ "20230501" := JStr "" ]}.

(** A mapping file whose entry for 1 May 2023 is three spaces. *)
Definition blank_label : gmap string json := {[ "20230501" := JStr "   " ]}.

(** A mapping file whose entry for 1 May 2023 has fifty-one characters. *)
Definition long_label : gmap string json :=
  {[ "20230501" := JStr "xxxxxxxxxxxxxxxxxxxxxxxxxxxxxxxxxxxxxxxxxxxxxxxxxxx" ]}.

(** The default configuration with three spaces as the uniform name. *)
Definition blank_name_config : Config :=
  {| image_extensions := image_extensions Config_default;
     max_project_name_length := 50;
     dry_run := false;
     move_files := false;
     name := Some "   ";
     source_folder := None;
     destination_folder := None |}.

(** The two photographs with their dates, as the second loop meets them. *)
Definition items : list (Path * datetime) :=
  [(["src"; "a.jpg"], may1); (["src"; "b.jpg"], may1)].

(** The default configuration with the dry-run flag set. *)
Definition dry_config : Config :=
  {| image_extensions := image_extensions Config_default;
     max_project_name_length := 50;
     dry_run := true;
     move_files := false;
     name := None;
     source_folder := None;
     destination_folder := None |}.

End Sample.

(** ** Discovery and the [extract-dates] command *)

(** [p] without the leading components [pre], when it starts with them. *)
Fixpoint strip_prefix (pre p : Path) : option Path :=
  match pre, p with
  | [], _ => Some p
  | _ :: _, [] => None
  | a :: pre', b :: p' =>
      if String.eqb a b then strip_prefix pre' p' else None
  end.

(** The walk of [rglob('*')] from [dir] comes to the entry [dir / rest]:
    [dir] and every directory on the way exist.  The start itself is not an
    entry of the walk. *)
Fixpoint reaches (fs : FS) (dir : Path) (rest : list string) : bool :=
  match rest with
  | [] => false
  | c :: rest' =>
      OS.is_dir fs dir
      && match rest' with
         | [] => true
         | _ :: _ => reaches fs (dir ++ [c]) rest'
         end
  end.

(** [f.is_file()] *)
Definition is_file (fs : FS) (p : Path) : bool :=
  match fs_nodes fs !! p with Some (File _) => true | _ => false end.

(** The condition of the comprehension of [get_image_files] on an entry of
    the walk: [f.is_file() and f.suffix.lower() in config.image_extensions]. *)
Definition is_image_file (fs : FS) (config : Config) (f : Path) : bool :=
  is_file fs f
  && PyStr.mem (PyStr.lower (PyPath.suffix f)) (image_extensions config).

(** [f] is yielded by [source_dir.rglob('*')]. *)
Definition in_rglob (fs : FS) (source_dir f : Path) : bool :=
  match strip_prefix source_dir f with
  | Some rest => reaches fs source_dir rest
  | None => false
  end.

(** [get_image_files].  Reading a directory cannot fail in this file system,
    so the handler that logs and raises again is never entered. *)
Definition get_image_files (fs : FS) (source_dir : Path) (config : Config)
  : gset Path :=
  dom (filter (λ kv : Path * node,
                 in_rglob fs source_dir kv.1 && is_image_file fs config kv.1
                 = true)
              (fs_nodes fs)).

Section ExtractDates.

Variable parse : string → parse_result.
Variable TAGS : Z → option string.
Variable now : datetime.
(** [json.dumps] on a list of strings. *)
Variable json_dumps : list string → string.

(** The loop of [extract_dates]: the set [unique_dates]. *)
Definition unique_dates (image_files : list MediaFile) : gset string :=
  foldl (λ (dates : gset string) image_file,
           match get_image_date parse TAGS now image_file with
           | Returns image_date =>
               let date_only := replace_midnight image_date in
               {[ strftime_Ymd date_only ]} ∪ dates
           | Raises => dates                    (* except Exception: continue *)
           end) ∅ image_files.

(** [sorted(unique_dates)] *)
Definition sorted_unique_dates (image_files : list MediaFile) : list string :=
  merge_sort String.le (elements (unique_dates image_files)).

(** The [extract-dates] command, from the files that [get_image_files]
    found. *)
Definition extract_dates (image_files : list MediaFile) : M unit :=
  click_echo (json_dumps (sorted_unique_dates image_files)).

End ExtractDates.

(** A string holds no path separator. *)
Fixpoint no_separator (s : string) : bool :=
  match s with
  | "" => true
  | String c s' => negb (Ascii.eqb c "/"%char) && no_separator s'
  end.

(** A line that the prompt of [get_project_names_for_all_dates] accepts. *)
Definition valid_project_name (config : Config) (project_name : string)
  : bool :=
  negb (Nat.ltb (max_project_name_length config) (String.length project_name))
  && PyStr.truthy (PyStr.strip project_name).

(** The sample file system with the date folder of 1 May 2023 in place,
    and in it a file [.write_test] of the user. *)
Definition world_with_probe : world :=
  {| w_fs :=
       {| fs_nodes :=
            <[ ["dest"; "20230501_Wedding"] := Dir ]>
              (<[ ["dest"; "20230501_Wedding"; ".write_test"] := File "mine" ]>
                 Sample.nodes);
          fs_free := 100;
          fs_readonly := ∅ |};
     w_log := [] |}.

(** The sample file system with the date folder of 1 May 2023 in place,
    and in it two files under the names that a placement of [a.jpg] tries
    first. *)
Definition world_with_collision : world :=
  {| w_fs :=
       {| fs_nodes :=
            <[ ["dest"; "20230501_Wedding"] := Dir ]>
              (<[ ["dest"; "20230501_Wedding"; "20230501_Wedding_a.jpg"]
                  := File "first" ]>
                 (<[ ["dest"; "20230501_Wedding"; "20230501_Wedding_a_1.jpg"]
                     := File "second" ]>
                    Sample.nodes));
          fs_free := 100;
          fs_readonly := ∅ |};
     w_log := [] |}.

(** Unfolds the operations of [M]. *)
Ltac unfold_M :=
  unfold mbind, M_bind, mret, M_ret, raise, try_except, os_call,
    logging_info, logging_error, click_echo, emit in *.

(** * Properties *)

(** ** The date resolver *)

Section ResolverFacts.

Variable parse : string → parse_result.
Variable TAGS : Z → option string.
Variable now : datetime.

(** The resolver returns a date for every file: whatever the body of the
    outer [try] does, the handler returns the current time. *)
Lemma get_image_date_total (f : MediaFile) :
  ∃ d, get_image_date parse TAGS now f = Returns d.
Proof.
  unfold get_image_date.
  destruct (get_image_date_body parse TAGS f) as [d|]; eauto.
Qed.

(** A still image that cannot be opened resolves to the current time,
    whatever its creation timestamp. *)
Lemma jpeg_open_failure (f : MediaFile) :
  PyStr.mem (PyStr.lower (PyPath.suffix (mf_path f))) raw_extensions = false →
  PyStr.mem (PyStr.lower (PyPath.suffix (mf_path f))) jpeg_extensions = true →
  mf_image f = None →
  get_image_date parse TAGS now f = Returns now.
Proof.
  intros Hraw Hjpeg Himg.
  unfold get_image_date, get_image_date_body.
  by rewrite Hraw, Hjpeg, Himg.
Qed.

(** With no usable metadata, the RAW and video families do reach the
    creation timestamp. *)
Lemma video_falls_back_to_creation (f : MediaFile) (d : datetime) :
  PyStr.mem (PyStr.lower (PyPath.suffix (mf_path f))) raw_extensions = false →
  PyStr.mem (PyStr.lower (PyPath.suffix (mf_path f))) jpeg_extensions = false →
  video_date parse f = None →
  mf_birthtime f = Some d →
  get_image_date parse TAGS now f = Returns d.
Proof.
  intros Hraw Hjpeg Hvid Hbirth.
  unfold get_image_date, get_image_date_body, creation_date.
  rewrite Hraw, Hjpeg, Hvid, Hbirth.
  by destruct (PyStr.mem _ video_extensions).
Qed.

(** Apart from a still image that cannot be opened, the cascade ends as the
    docstring says: a date of the metadata, else the creation timestamp,
    else the current time. *)
Lemma get_image_date_fallback (f : MediaFile) (d : datetime) :
  (PyStr.mem (PyStr.lower (PyPath.suffix (mf_path f))) raw_extensions = false →
   PyStr.mem (PyStr.lower (PyPath.suffix (mf_path f))) jpeg_extensions = true →
   is_Some (mf_image f)) →
  get_image_date parse TAGS now f = Returns d →
  (raw_date parse f = Some d
   ∨ (∃ img, mf_image f = Some img ∧ get_exif_date parse TAGS img = Some d)
   ∨ video_date parse f = Some d)
  ∨ mf_birthtime f = Some d
  ∨ (mf_birthtime f = None ∧ d = now).
Proof.
  intros Hopen. unfold get_image_date, get_image_date_body, creation_date.
  assert (Hbirth :
    match match mf_birthtime f with Some d0 => Returns d0 | None => Raises end
    with Returns d0 => Returns d0 | Raises => Returns now end = Returns d →
    mf_birthtime f = Some d ∨ (mf_birthtime f = None ∧ d = now)).
  { destruct (mf_birthtime f); intros [= <-]; auto. }
  destruct (PyStr.mem _ raw_extensions).
  { destruct (raw_date parse f) as [d'|] eqn:Hraw.
    - intros [= <-]. auto.
    - intros ?%Hbirth. auto. }
  destruct (PyStr.mem _ jpeg_extensions).
  { destruct (Hopen eq_refl eq_refl) as [img ->].
    destruct (get_exif_date parse TAGS img) as [d'|] eqn:Hexif.
    - intros [= <-]. left. right. left. eauto.
    - intros ?%Hbirth. auto. }
  destruct (PyStr.mem _ video_extensions).
  { destruct (video_date parse f) as [d'|] eqn:Hvid.
    - intros [= <-]. auto.
    - intros ?%Hbirth. auto. }
  intros ?%Hbirth. auto.
Qed.

(** The loop over the video fields is the search for the first field that
    yields a date. *)
Lemma video_fields_loop_first (t : track) (fields : list string) :
  video_fields_loop parse t fields = first_field_date parse t fields.
Proof.
  induction fields as [|field rest IH]; [done|].
  simpl. unfold video_field_date.
  destruct (track_attrs t !! field) as [value|]; [|done].
  destruct (mi_truthy value); [|done].
  by destruct (parse (mi_first_str value)).
Qed.

Lemma first_field_date_Some (t : track) (fields : list string) (d : datetime) :
  first_field_date parse t fields = Some d ↔
  ∃ (i : nat) (field : string),
    fields !! i = Some field ∧ video_field_date parse t field = Some d ∧
    ∀ (j : nat) (g : string),
      (j < i)%nat → fields !! j = Some g → video_field_date parse t g = None.
Proof.
  induction fields as [|field rest IH]; simpl.
  - split; [done|]. intros (i & g & Hi & _). by destruct i.
  - destruct (video_field_date parse t field) as [d'|] eqn:Hfield.
    + split.
      * intros [= ->]. exists 0%nat, field. split_and!; [done..|]. lia.
      * intros (i & g & Hi & Hg & Hbefore). destruct i as [|i].
        -- simpl in Hi. congruence.
        -- specialize (Hbefore 0%nat field). simpl in Hbefore.
           rewrite Hbefore in Hfield; [done|lia|done].
    + rewrite IH. split.
      * intros (i & g & Hi & Hg & Hbefore). exists (S i), g.
        split_and!; [done..|].
        intros [|j] g' Hj Hg'; simpl in Hg'; [congruence|].
        apply (Hbefore j); [lia|done].
      * intros (i & g & Hi & Hg & Hbefore). destruct i as [|i].
        -- simpl in Hi. congruence.
        -- exists i, g. split_and!; [done..|].
           intros j g' Hj Hg'. apply (Hbefore (S j)); [lia|done].
Qed.

(** C4 (as amended).  The fields of a general track are tried in the order
    of the source: encoded date, tagged date, file-modification date,
    file-creation date, then the local variants of the two, then the two
    [other_] lists.  The cascade yields the date of the first field of that
    order whose value is truthy and parses, a list standing for its first
    element; a track whose encoded date parses resolves to it. *)
Theorem video_cascade_order (t : track) (d : datetime) :
  video_fields =
    ["encoded_date"; "tagged_date"; "file_last_modification_date";
     "file_creation_date"; "file_last_modification_date__local";
     "file_creation_date__local"; "other_file_creation_date";
     "other_file_last_modification_date"]
  ∧ (video_fields_loop parse t video_fields = Some d ↔
     ∃ (i : nat) (field : string),
       video_fields !! i = Some field ∧
       video_field_date parse t field = Some d ∧
       ∀ (j : nat) (g : string),
         (j < i)%nat → video_fields !! j = Some g →
         video_field_date parse t g = None)
  ∧ (∀ (field s : string) (l : list string),
       track_attrs t !! field = Some (MiList (s :: l)) →
       video_field_date parse t field =
         match parse s with Parsed d' => Some d' | _ => None end)
  ∧ (video_field_date parse t "encoded_date" = Some d →
     video_fields_loop parse t video_fields = Some d).
Proof.
  split_and!.
  - reflexivity.
  - rewrite video_fields_loop_first. apply first_field_date_Some.
  - intros field s l Hfield. unfold video_field_date. by rewrite Hfield.
  - intros Henc. rewrite video_fields_loop_first.
    unfold video_fields. simpl. by rewrite Henc.
Qed.

(** The EXIF loop, for a parser that fails with [ValueError] or
    [TypeError] only: the date of the first field, in the order original
    capture, digitization, modification, that is present, usable and
    parses. *)
Lemma exif_fields_loop_first (exif_tags : gmap (string + Z) exif_value)
    (fields : list string) (d : datetime) :
  (∀ s, parse s ≠ ParseOtherError) →
  exif_fields_loop parse exif_tags fields = Some d ↔
  ∃ (i : nat) (field : string),
    fields !! i = Some field ∧
    exif_field_date parse exif_tags field = Some (Parsed d) ∧
    ∀ (j : nat) (g : string),
      (j < i)%nat → fields !! j = Some g →
      exif_field_date parse exif_tags g = None ∨
      exif_field_date parse exif_tags g = Some ParseValueError.
Proof.
  intros Hparse.
  induction fields as [|field rest IH]; simpl.
  - split; [done|]. intros (i & g & Hi & _). by destruct i.
  - assert (Hstep : ∀ o : option parse_result,
      exif_field_date parse exif_tags field = o →
      o = None ∨ o = Some ParseValueError →
      (exif_fields_loop parse exif_tags rest = Some d ↔
       ∃ (i : nat) (field0 : string),
         (field :: rest) !! i = Some field0 ∧
         exif_field_date parse exif_tags field0 = Some (Parsed d) ∧
         ∀ (j : nat) (g : string),
           (j < i)%nat → (field :: rest) !! j = Some g →
           exif_field_date parse exif_tags g = None ∨
           exif_field_date parse exif_tags g = Some ParseValueError)).
    { intros o Ho Hskip. rewrite IH. split.
      - intros (i & g & Hi & Hg & Hbefore). exists (S i), g.
        split_and!; [done..|].
        intros [|j] g' Hj Hg'; simpl in Hg'.
        + injection Hg' as <-. rewrite Ho. done.
        + apply (Hbefore j); [lia|done].
      - intros (i & g & Hi & Hg & Hbefore). destruct i as [|i].
        + simpl in Hi. injection Hi as <-. rewrite Ho in Hg.
          destruct Hskip; congruence.
        + exists i, g. split_and!; [done..|].
          intros j g' Hj Hg'. apply (Hbefore (S j)); [lia|done]. }
    unfold exif_field_date in Hstep |- * at 1.
    destruct (exif_tags !! inl field) as [value|] eqn:Hlook.
    2:{ apply (Hstep None); auto. }
    destruct (exif_usable value) eqn:Huse.
    2:{ apply (Hstep None); auto. }
    destruct (parse (exif_date_str value)) as [d'| |] eqn:Hp.
    + split.
      * intros [= ->]. exists 0%nat, field. split_and!; [done| |intros; lia].
        unfold exif_field_date. by rewrite Hlook, Huse, Hp.
      * intros (i & g & Hi & Hg & Hbefore). destruct i as [|i].
        -- simpl in Hi. injection Hi as <-.
           unfold exif_field_date in Hg. rewrite Hlook, Huse, Hp in Hg.
           congruence.
        -- specialize (Hbefore 0%nat field).
           unfold exif_field_date in Hbefore.
           rewrite Hlook, Huse, Hp in Hbefore.
           destruct Hbefore; [lia|done|congruence..].
    + apply (Hstep (Some ParseValueError)); auto.
    + by destruct (Hparse (exif_date_str value)).
Qed.

End ResolverFacts.

(** C3 (the source departs from it).  A [.jpg] file that Pillow cannot open
    has a creation timestamp, 1 May 2023, and yet resolves to the current
    time: [Image.open] is outside any inner [try], so its failure reaches the
    outer handler without passing by the creation timestamp. *)
Theorem broken_jpeg_resolves_to_now :
  get_image_date Sample.parse Sample.TAGS Sample.now Sample.broken_jpeg
    = Returns Sample.now
  ∧ creation_date Sample.broken_jpeg = Returns (mkDate 2023 5 1 9 30 0)
  ∧ Sample.now ≠ mkDate 2023 5 1 9 30 0.
Proof. split_and!; [reflexivity..|discriminate]. Qed.

(** C4 (as stated, refuted).  A general track with a local modification date
    of 2 May, [2023-05-02 10:00:00], and a creation date of 1 May,
    [2023-05-01 08:00:00 UTC]; the parser accepts both texts.  The order of
    the specification picks the modification date, the source picks the
    creation date. *)
Lemma video_order_differs_from_spec :
  video_fields_loop Sample.parse Sample.local_and_creation video_fields
    = Some (mkDatetime 2023 5 1 8 0 0 (Some 0%Z))
  ∧ first_field_date Sample.parse Sample.local_and_creation spec_video_fields
    = Some (mkDate 2023 5 2 10 0 0)
  ∧ video_fields ≠ spec_video_fields.
Proof. split_and!; [vm_compute; reflexivity..|discriminate]. Qed.

(** With an original-capture tag and a digitization tag that both parse,
    the original-capture value is chosen, whatever their order in the file. *)
Example two_tags_original_wins :
  get_exif_date Sample.parse Sample.TAGS Sample.two_tag_image
    = Some (mkDate 2023 5 1 10 0 0).
Proof. vm_compute. reflexivity. Qed.

(** With an encoded date (a list) and a creation date, the encoded date is
    chosen. *)
Example encoded_date_wins :
  video_fields_loop Sample.parse Sample.encoded_and_creation video_fields
    = Some (mkDatetime 2023 4 30 7 0 0 (Some 0%Z)).
Proof. vm_compute. reflexivity. Qed.

(** C5 (the source departs from it).  The original-capture tag makes the
    parser raise an [OverflowError], which the inner handler of
    [get_exif_date] does not catch: no EXIF date is returned, although the
    digitization tag is present, usable and parses. *)
Theorem exif_overflow_hides_digitized :
  get_exif_date Sample.parse Sample.TAGS Sample.overflow_image = None
  ∧ ∃ items value,
      getexif Sample.overflow_image = Some items ∧
      exif_tags_of Sample.TAGS items !! inl "DateTimeDigitized" = Some value ∧
      exif_usable value = true ∧
      Sample.parse (exif_date_str value) = Parsed (mkDate 2023 5 1 10 0 0).
Proof.
  split; [vm_compute; reflexivity|].
  eexists _, _. split_and!; [reflexivity|vm_compute; reflexivity..].
Qed.

(** ** Strings and paths *)

Lemma string_length_app (s1 s2 : string) :
  String.length (s1 +:+ s2) = (String.length s1 + String.length s2)%nat.
Proof. induction s1 as [|c s1 IH]; simpl; [done|]. by rewrite IH. Qed.

Lemma string_app_inj_r (s1 s2 t : string) : s1 +:+ t = s2 +:+ t → s1 = s2.
Proof.
  revert s2. induction s1 as [|c s1 IH]; intros [|c2 s2] Heq; simpl in Heq.
  - done.
  - apply (f_equal String.length) in Heq.
    rewrite !string_length_app in Heq. simpl in Heq. lia.
  - apply (f_equal String.length) in Heq.
    rewrite !string_length_app in Heq. simpl in Heq. lia.
  - change (String c s1 +:+ t) with (String c (s1 +:+ t)) in Heq.
    change (String c2 s2 +:+ t) with (String c2 (s2 +:+ t)) in Heq.
    injection Heq as -> Heq. f_equal. by apply IH.
Qed.

Lemma numbered_filename_inj (date_folder image_file : Path) :
  Inj (=) (=) (numbered_filename date_folder image_file).
Proof.
  intros k1 k2 Heq. unfold numbered_filename in Heq.
  do 4 apply String.app_inj in Heq.
  apply string_app_inj_r in Heq.
  by apply (inj pretty) in Heq.
Qed.

Lemma parent_child (p : Path) (s : string) :
  PyPath.parent (PyPath.child p s) = p.
Proof. apply removelast_last. Qed.

Lemma child_inj (p : Path) : Inj (=) (=) (PyPath.child p).
Proof. intros s1 s2 Heq. unfold PyPath.child in Heq. by simplify_list_eq. Qed.

Lemma child_ne (p : Path) (s : string) : PyPath.child p s ≠ p.
Proof.
  intros Heq. apply (f_equal length) in Heq.
  unfold PyPath.child in Heq. rewrite length_app in Heq. simpl in Heq. lia.
Qed.

(** ** The search for a free destination *)

Section FindDest.

Variables (fs : FS) (date_folder image_file : Path).

Lemma numbered_inj : Inj (=) (=) (numbered date_folder image_file).
Proof.
  intros k1 k2 Heq. apply child_inj in Heq.
  by apply numbered_filename_inj in Heq.
Qed.

(** Paths that all exist are no more than the entries of the file
    system. *)
Lemma existing_numbered_bound (c n : nat) :
  (∀ j, (c ≤ j < c + n)%nat → OS.exists_ fs (numbered date_folder image_file j) = true) →
  (n ≤ size (fs_nodes fs))%nat.
Proof.
  intros Hall.
  set (l := numbered date_folder image_file <$> seq c n).
  assert (Hnd : NoDup l).
  { pose proof numbered_inj as Hinj. apply (NoDup_fmap_2 _). apply NoDup_seq. }
  assert (Hsub : (list_to_set l : gset Path) ⊆ dom (fs_nodes fs)).
  { intros p Hp. apply elem_of_list_to_set in Hp.
    apply list_elem_of_fmap in Hp as (j & -> & Hj).
    apply elem_of_seq in Hj. apply elem_of_dom.
    assert (Hex : OS.exists_ fs (numbered date_folder image_file j) = true) by (apply Hall; lia).
    unfold OS.exists_ in Hex.
    destruct (fs_nodes fs !! numbered date_folder image_file j); [eauto|done]. }
  apply subseteq_size in Hsub.
  rewrite size_list_to_set in Hsub by done.
  rewrite size_dom in Hsub. unfold l in Hsub.
  by rewrite length_fmap, length_seq in Hsub.
Qed.

Lemma dest_loop_None (fuel : nat) (dest_file : Path) (c : nat) :
  dest_loop fuel fs date_folder image_file dest_file c = None →
  OS.exists_ fs dest_file = true ∧
  ∀ j, (c ≤ j < c + fuel)%nat → OS.exists_ fs (numbered date_folder image_file j) = true.
Proof.
  revert dest_file c. induction fuel as [|fuel IH]; intros dest_file c; simpl.
  - destruct (OS.exists_ fs dest_file); [|done]. intros _. split; [done|lia].
  - destruct (OS.exists_ fs dest_file); [|done]. intros Hloop.
    apply IH in Hloop as [Hc Hrest]. split; [done|].
    intros j Hj. destruct (decide (j = c)) as [->|]; [done|].
    apply Hrest. lia.
Qed.

Lemma dest_loop_Some (fuel : nat) (dest_file : Path) (c : nat) (p : Path) :
  dest_loop fuel fs date_folder image_file dest_file c = Some p →
  OS.exists_ fs p = false ∧
  (p = dest_file ∨
   OS.exists_ fs dest_file = true ∧
   ∃ k, (c ≤ k)%nat ∧ p = numbered date_folder image_file k ∧
        ∀ j, (c ≤ j < k)%nat → OS.exists_ fs (numbered date_folder image_file j) = true).
Proof.
  revert dest_file c. induction fuel as [|fuel IH]; intros dest_file c; simpl.
  - destruct (OS.exists_ fs dest_file) eqn:He; [done|].
    intros [= <-]. auto.
  - destruct (OS.exists_ fs dest_file) eqn:He.
    2:{ intros [= <-]. auto. }
    intros Hloop. apply IH in Hloop as [Hfree Hwhich].
    split; [done|]. right. split; [done|].
    destruct Hwhich as [->|(Hc & k & Hk & -> & Hbelow)].
    + exists c. split_and!; [lia|done|lia].
    + exists k. split_and!; [lia|done|].
      intros j Hj. destruct (decide (j = c)) as [->|]; [done|].
      apply Hbelow. lia.
Qed.

(** The loop always ends within the rounds that [find_dest] allows. *)
Lemma find_dest_terminates (dest_file : Path) (c : nat) :
  is_Some (dest_loop (S (size (fs_nodes fs))) fs date_folder image_file
             dest_file c).
Proof.
  destruct (dest_loop _ _ _ _ _ _) as [p|] eqn:Hloop; [eauto|].
  apply dest_loop_None in Hloop as [_ Hall].
  apply existing_numbered_bound in Hall. lia.
Qed.

End FindDest.

(** ** The pre-flight checks and the transfer *)

Lemma world_eta (w : world) : {| w_fs := w_fs w; w_log := w_log w |} = w.
Proof. by destruct w. Qed.

(** The space check always answers, and changes no file. *)
Lemma has_enough_disk_space_spec (src dst : Path) (w : world) :
  ∃ (enough : bool) (w1 : world),
    has_enough_disk_space src dst w = (Done enough, w1) ∧
    w_fs w1 = w_fs w ∧
    (enough = true →
       w1 = w ∧
       ∃ src_size,
         OS.st_size (w_fs w) src = Some src_size ∧
         OS.disk_free (w_fs w) (PyPath.parent dst) = Some (fs_free (w_fs w)) ∧
         (src_size < fs_free (w_fs w))%Z).
Proof.
  unfold has_enough_disk_space, OS.disk_free.
  destruct (OS.st_size (w_fs w) src) as [src_size|];
    [destruct (OS.exists_ (w_fs w) (PyPath.parent dst))|].
  - eexists _, _. split_and!; [done..|].
    intros Hlt%bool_decide_eq_true. split; [done|]. eauto.
  - unfold_M. eexists _, _. split_and!; [done..|]. done.
  - unfold_M. eexists _, _. split_and!; [done..|]. done.
Qed.

(** The probe always answers.  It leaves the file system as it was, or
    without an entry [.write_test] that was there before. *)
Lemma can_write_to_directory_spec (directory : Path) (w : world) :
  ∃ (writable : bool) (w2 : world),
    can_write_to_directory directory w = (Done writable, w2) ∧
    w_log w2 = w_log w ∧
    fs_free (w_fs w2) = fs_free (w_fs w) ∧
    fs_readonly (w_fs w2) = fs_readonly (w_fs w) ∧
    (fs_nodes (w_fs w2) = fs_nodes (w_fs w) ∨
     fs_nodes (w_fs w2)
       = delete (PyPath.child directory ".write_test") (fs_nodes (w_fs w))) ∧
    (writable = false → w2 = w) ∧
    (writable = true → OS.is_dir (w_fs w2) directory = true).
Proof.
  unfold can_write_to_directory.
  set (probe := PyPath.child directory ".write_test").
  assert (Hne : directory ≠ probe) by (symmetry; apply child_ne).
  assert (Hpar : PyPath.parent probe = directory) by apply parent_child.
  unfold OS.touch, OS.unlink. rewrite Hpar.
  destruct (fs_nodes (w_fs w) !! probe) as [[data|]|] eqn:Hprobe.
  - (* an old probe file: only its times change, then it is removed *)
    rewrite Hprobe.
    destruct (OS.writable_dir (w_fs w) directory) eqn:Hw.
    + eexists _, _. split_and!; [done..|by right|done|].
      intros _. apply andb_true_iff in Hw as [Hd _].
      unfold OS.is_dir in *. simpl. by rewrite lookup_delete_ne.
    + eexists _, _. split_and!; [done..|by left| |done].
      intros _. apply world_eta.
  - rewrite Hprobe. eexists _, _. split_and!; [done..|by left| |done].
    intros _. apply world_eta.
  - destruct (OS.writable_dir (w_fs w) directory) eqn:Hw.
    + simpl. rewrite lookup_insert_eq.
      assert (Hw' : OS.writable_dir
                (OS.set_nodes (w_fs w) (<[probe:=File ""]> (fs_nodes (w_fs w))))
                directory = true).
      { unfold OS.writable_dir, OS.is_dir in *. simpl.
        by rewrite lookup_insert_ne. }
      rewrite Hw'. simpl.
      rewrite delete_insert_eq, delete_id by done.
      eexists _, _. split_and!; [done..|by left|done|].
      intros _. simpl. apply andb_true_iff in Hw as [Hd _]. done.
    + eexists _, _. split_and!; [done..|by left|done|done].
Qed.

Lemma mkdir_parents_existing (fs : FS) (p : Path) :
  OS.is_dir fs p = true → OS.mkdir_parents fs p = Some fs.
Proof.
  unfold OS.mkdir_parents. rewrite <- (rev_involutive p) at 1.
  generalize (rev p) as rp. intros rp. unfold OS.is_dir.
  destruct rp as [|c rp]; simpl;
    by destruct (fs_nodes fs !! _) as [[]|].
Qed.

Lemma mkdir_effect (fs fs' : FS) (p : Path) :
  OS.mkdir fs p = Some fs' →
  fs' = fs ∨
  fs_nodes fs !! p = None ∧ fs' = OS.set_nodes fs (<[p := Dir]> (fs_nodes fs)).
Proof.
  unfold OS.mkdir. intros Hmk.
  destruct (fs_nodes fs !! p) as [[]|]; [done|left; congruence|].
  destruct (OS.writable_dir fs (PyPath.parent p)); [|done].
  right. split; congruence.
Qed.

Lemma copy2_fresh (fs fs' : FS) (src dst : Path) :
  fs_nodes fs !! dst = None →
  OS.copy2 fs src dst = Some fs' →
  ∃ data, fs_nodes fs !! src = Some (File data) ∧
          fs_nodes fs' = <[dst := File data]> (fs_nodes fs).
Proof.
  unfold OS.copy2, OS.target, OS.is_dir, OS.write_file. intros Hdst Hcopy.
  destruct (fs_nodes fs !! src) as [[data|]|]; [|done..].
  repeat (rewrite Hdst in Hcopy; cbn beta iota in Hcopy).
  destruct (OS.writable_dir fs (PyPath.parent dst)); [|done].
  destruct (_ <? _)%Z; [done|]. injection Hcopy as <-. eauto.
Qed.

Lemma move_fresh (fs fs' : FS) (src dst : Path) :
  fs_nodes fs !! dst = None →
  OS.move fs src dst = Some fs' →
  ∃ data, fs_nodes fs !! src = Some (File data) ∧ src ≠ dst ∧
          fs_nodes fs' = delete src (<[dst := File data]> (fs_nodes fs)).
Proof.
  unfold OS.move, OS.rename, OS.is_dir. intros Hdst Hmove.
  destruct (fs_nodes fs !! src) as [[data|]|] eqn:Hsrc; [|done..].
  assert (Hne : src ≠ dst) by congruence.
  rewrite Hdst in Hmove. cbn beta iota in Hmove.
  rewrite bool_decide_eq_false_2 in Hmove by done.
  destruct (_ && _); [|done]. injection Hmove as <-. eauto.
Qed.

Section SafeCopy.

Variables (src dst : Path) (config : Config).
Hypothesis Hwet : dry_run config = false.

Lemma safe_copy_file_no_space (w w1 : world) :
  has_enough_disk_space src dst w = (Done false, w1) →
  let e := DiskSpaceError
             ("Not enough disk space to copy " +:+ PyPath.to_string src) in
  safe_copy_file src dst config w
    = (Raised e, {| w_fs := w_fs w1; w_log := w_log w1 ++ [error_line src e] |}).
Proof.
  intros Hcheck. unfold safe_copy_file. rewrite Hwet.
  unfold_M. by rewrite Hcheck.
Qed.

Lemma safe_copy_file_not_writable (w w2 : world) :
  has_enough_disk_space src dst w = (Done true, w) →
  can_write_to_directory (PyPath.parent dst) w = (Done false, w2) →
  let e := PermissionError
             ("Cannot write to " +:+ PyPath.to_string (PyPath.parent dst)) in
  safe_copy_file src dst config w
    = (Raised e, {| w_fs := w_fs w2; w_log := w_log w2 ++ [error_line src e] |}).
Proof.
  intros Hspace Hprobe. unfold safe_copy_file. rewrite Hwet.
  unfold_M. rewrite Hspace. cbn beta iota delta [negb].
  by rewrite Hprobe.
Qed.

Lemma safe_copy_file_transfer (w w2 : world) :
  has_enough_disk_space src dst w = (Done true, w) →
  can_write_to_directory (PyPath.parent dst) w = (Done true, w2) →
  safe_copy_file src dst config w =
    match (if move_files config then OS.move (w_fs w2) src dst
           else OS.copy2 (w_fs w2) src dst) with
    | Some fs' =>
        (Done (),
         {| w_fs := fs';
            w_log := w_log w2 ++
              [LogInfo ((if move_files config then "Moved " else "Copied ")
                        +:+ PyPath.to_string src
                        +:+ " to " +:+ PyPath.to_string dst)] |})
    | None =>
        let e := OSError (PyPath.to_string src) in
        (Raised e, {| w_fs := w_fs w2; w_log := w_log w2 ++ [error_line src e] |})
    end.
Proof.
  intros Hspace Hprobe.
  destruct (can_write_to_directory_spec (PyPath.parent dst) w)
    as (b & w2' & Hprobe' & _ & _ & _ & _ & _ & Hdir).
  rewrite Hprobe in Hprobe'. injection Hprobe' as <- <-.
  specialize (Hdir eq_refl).
  unfold safe_copy_file. rewrite Hwet.
  unfold_M. rewrite Hspace. cbn beta iota delta [negb].
  rewrite Hprobe. cbn beta iota delta [negb].
  rewrite (mkdir_parents_existing _ _ Hdir).
  destruct (move_files config); simpl.
  - by destruct (OS.move (w_fs w2) src dst).
  - by destruct (OS.copy2 (w_fs w2) src dst).
Qed.

End SafeCopy.

Lemma has_enough_disk_space_true (src dst : Path) (w w1 : world) (enough : bool) :
  has_enough_disk_space src dst w = (Done enough, w1) →
  enough = true ↔
  ∃ src_size dst_free,
    OS.st_size (w_fs w) src = Some src_size ∧
    OS.disk_free (w_fs w) (PyPath.parent dst) = Some dst_free ∧
    (src_size < dst_free)%Z.
Proof.
  unfold has_enough_disk_space.
  destruct (OS.st_size (w_fs w) src) as [src_size|];
    [destruct (OS.disk_free (w_fs w) (PyPath.parent dst)) as [dst_free|]|].
  - intros [= <- <-]. rewrite bool_decide_eq_true. split.
    + intros Hlt. by exists src_size, dst_free.
    + by intros (? & ? & [= <-] & [= <-] & Hlt).
  - unfold_M. intros [= <- <-]. split; [done|]. by intros (? & ? & _ & ? & _).
  - unfold_M. intros [= <- <-]. split; [done|]. by intros (? & ? & ? & _).
Qed.

Lemma can_write_to_directory_true (directory : Path) (w w2 : world)
    (writable : bool) :
  can_write_to_directory directory w = (Done writable, w2) →
  writable = true ↔
  ∃ fs1 fs2,
    OS.touch (w_fs w) (PyPath.child directory ".write_test") = Some fs1 ∧
    OS.unlink fs1 (PyPath.child directory ".write_test") = Some fs2.
Proof.
  unfold can_write_to_directory.
  destruct (OS.touch _ _) as [fs1|] eqn:Htouch;
    [destruct (OS.unlink fs1 _) as [fs2|] eqn:Hunlink|].
  - intros [= <- <-]. split; [|done]. intros _. by exists fs1, fs2.
  - intros [= <- <-]. split; [done|]. intros (? & ? & [= <-] & Hun). congruence.
  - intros [= <- <-]. split; [done|]. by intros (? & ? & ? & _).
Qed.

(** When [safe_copy_file] raises, the last line of the log reports it. *)
Lemma safe_copy_file_logs_error (src dst : Path) (config : Config)
    (w w' : world) (e : exn) :
  dry_run config = false →
  safe_copy_file src dst config w = (Raised e, w') →
  last (w_log w') = Some (error_line src e).
Proof.
  intros Hwet Hrun.
  destruct (has_enough_disk_space_spec src dst w)
    as (enough & w1 & Hspace & _ & Hpass).
  destruct enough.
  2:{ rewrite (safe_copy_file_no_space _ _ _ Hwet _ _ Hspace) in Hrun.
      injection Hrun as <- <-. apply last_snoc. }
  destruct (Hpass eq_refl) as [-> _].
  destruct (can_write_to_directory_spec (PyPath.parent dst) w)
    as (writable & w2 & Hprobe & _).
  destruct writable.
  - rewrite (safe_copy_file_transfer _ _ _ Hwet _ _ Hspace Hprobe) in Hrun.
    destruct (if move_files config then _ else _); [done|].
    injection Hrun as <- <-. apply last_snoc.
  - rewrite (safe_copy_file_not_writable _ _ _ Hwet _ _ Hspace Hprobe) in Hrun.
    injection Hrun as <- <-. apply last_snoc.
Qed.

(** C6.  In a placement that is not a dry run, the space check (the free
    space of the volume strictly above the size of the source) and the probe
    of the destination directory (a file [.write_test] created, then removed)
    both come before the transfer.  When the first fails a [DiskSpaceError]
    is raised, when the second fails a [PermissionError]; in both cases the
    file system is left as it was and the error is logged.  A placement that
    completes has passed both checks. *)
Theorem preflight_checks (src dst : Path) (config : Config) (w w' : world)
    (r : outcome ()) :
  dry_run config = false →
  safe_copy_file src dst config w = (r, w') →
  ∃ (enough writable : bool) (w1 w2 : world),
    has_enough_disk_space src dst w = (Done enough, w1) ∧
    can_write_to_directory (PyPath.parent dst) w = (Done writable, w2) ∧
    (enough = true ↔
       ∃ src_size dst_free,
         OS.st_size (w_fs w) src = Some src_size ∧
         OS.disk_free (w_fs w) (PyPath.parent dst) = Some dst_free ∧
         (src_size < dst_free)%Z) ∧
    (writable = true ↔
       ∃ fs1 fs2,
         OS.touch (w_fs w) (PyPath.child (PyPath.parent dst) ".write_test")
           = Some fs1 ∧
         OS.unlink fs1 (PyPath.child (PyPath.parent dst) ".write_test")
           = Some fs2) ∧
    (enough = false →
       r = Raised (DiskSpaceError
                     ("Not enough disk space to copy " +:+ PyPath.to_string src))
       ∧ w_fs w' = w_fs w) ∧
    (enough = true → writable = false →
       r = Raised (PermissionError
                     ("Cannot write to "
                      +:+ PyPath.to_string (PyPath.parent dst)))
       ∧ w_fs w' = w_fs w) ∧
    (r = Done () → enough = true ∧ writable = true) ∧
    (∀ e, r = Raised e → last (w_log w') = Some (error_line src e)).
Proof.
  intros Hwet Hrun.
  destruct (has_enough_disk_space_spec src dst w)
    as (enough & w1 & Hspace & Hfs1 & Hpass).
  destruct (can_write_to_directory_spec (PyPath.parent dst) w)
    as (writable & w2 & Hprobe & _ & _ & _ & _ & Hsame & _).
  exists enough, writable, w1, w2.
  split; [done|]. split; [done|].
  split; [by eapply has_enough_disk_space_true|].
  split; [by eapply can_write_to_directory_true|].
  destruct enough.
  - destruct (Hpass eq_refl) as [-> _].
    destruct writable.
    + rewrite (safe_copy_file_transfer _ _ _ Hwet _ _ Hspace Hprobe) in Hrun.
      split_and!; [done..| |]; destruct (if move_files config then _ else _);
        injection Hrun as <- <-; try done.
      intros e [= <-]. apply last_snoc.
    + rewrite (safe_copy_file_not_writable _ _ _ Hwet _ _ Hspace Hprobe) in Hrun.
      injection Hrun as <- <-. rewrite (Hsame eq_refl).
      split_and!; [done..|].
      intros e [= <-]. apply last_snoc.
  - rewrite (safe_copy_file_no_space _ _ _ Hwet _ _ Hspace) in Hrun.
    injection Hrun as <- <-.
    split_and!; [done..|].
    intros e [= <-]. apply last_snoc.
Qed.

Lemma preflight_checks_witness :
  dry_run Config_default = false
  ∧ ∃ w',
      safe_copy_file ["src"; "a.jpg"] ["dest"; "a.jpg"] Config_default
        (Sample.start 5)
      = (Raised (DiskSpaceError "Not enough disk space to copy /src/a.jpg"), w')
      ∧ w_fs w' = Sample.fs 5
      ∧ last (w_log w')
        = Some (LogError "Error processing /src/a.jpg: Not enough disk space to copy /src/a.jpg").
Proof.
  split; [reflexivity|].
  destruct (safe_copy_file ["src"; "a.jpg"] ["dest"; "a.jpg"] Config_default
              (Sample.start 5)) as [r w'] eqn:Hrun.
  destruct (preflight_checks ["src"; "a.jpg"] ["dest"; "a.jpg"] Config_default
              (Sample.start 5) w' r eq_refl Hrun)
    as (enough & writable & w1 & w2 & Hspace & _ & _ & _ & Hfail & _ & _ & Hlog).
  assert (enough = false) as ->.
  { vm_compute in Hspace. congruence. }
  destruct (Hfail eq_refl) as [-> Hfs].
  exists w'. split_and!; [done|done|].
  rewrite (Hlog _ eq_refl). reflexivity.
Defined.

(** ** A dry run *)

Section DryRun.

Variable config : Config.
Hypothesis Hdry : dry_run config = true.

Lemma safe_copy_file_dry (src dst : Path) (w : world) :
  safe_copy_file src dst config w =
    (Done (),
     {| w_fs := w_fs w;
        w_log := w_log w ++
          [LogInfo ("Would " +:+ (if move_files config then "move" else "copy")
                    +:+ " " +:+ PyPath.to_string src
                    +:+ " to " +:+ PyPath.to_string dst)] |}).
Proof. unfold safe_copy_file. by rewrite Hdry. Qed.

Lemma create_date_folder_dry (base_dir : Path) (date : datetime)
    (project_name : json) (w : world) :
  create_date_folder base_dir date project_name config w =
    (Done (date_folder_path base_dir date project_name),
     {| w_fs := w_fs w;
        w_log := w_log w ++
          [LogInfo ("Created/accessed folder: " +:+ PyPath.to_string
                      (date_folder_path base_dir date project_name))] |}).
Proof. unfold create_date_folder. by rewrite Hdry. Qed.

Lemma place_file_dry (dest_path image_file : Path) (image_date : datetime)
    (project_name : json) (w : world) :
  ∃ dest_file,
    place_file config dest_path image_file image_date project_name w =
      (Done (),
       {| w_fs := w_fs w;
          w_log := w_log w ++
            [LogInfo ("Created/accessed folder: " +:+ PyPath.to_string
                        (date_folder_path dest_path image_date project_name));
             LogInfo ("Would "
                      +:+ (if move_files config then "move" else "copy")
                      +:+ " " +:+ PyPath.to_string image_file
                      +:+ " to " +:+ PyPath.to_string dest_file)] |}).
Proof.
  unfold place_file. unfold mbind at 1, M_bind.
  rewrite create_date_folder_dry.
  unfold mbind, M_bind, find_dest. cbn [w_fs].
  set (date_folder := date_folder_path dest_path image_date project_name).
  destruct (find_dest_terminates (w_fs w) date_folder image_file
              (PyPath.child date_folder (new_filename date_folder image_file))
              1) as [dest_file ->].
  exists dest_file. rewrite safe_copy_file_dry. cbn [w_fs w_log].
  by rewrite <- app_assoc.
Qed.

End DryRun.

(** C7.  With the dry-run flag set, the loop of the group operation ends
    normally with the file system as it was: [create_date_folder] makes no
    directory, [safe_copy_file] runs neither check nor transfer.  All that the
    run adds are information lines of the log, among them, for every file
    with a label, the line that tells the transfer that would take place. *)
Theorem dry_run_changes_nothing (config : Config)
    (project_names : gmap string json) (dest_path : Path)
    (items : list (Path * datetime)) (w : world) :
  dry_run config = true →
  ∃ entries : list log_entry,
    group_loop config project_names dest_path items w
      = (Done (), {| w_fs := w_fs w; w_log := w_log w ++ entries |})
    ∧ (∀ entry, entry ∈ entries → ∃ msg, entry = LogInfo msg)
    ∧ (∀ image_file image_date project_name,
         (image_file, image_date) ∈ items →
         project_names !! strftime_Ymd (replace_midnight image_date)
           = Some project_name →
         json_truthy project_name = true →
         ∃ dest_file,
           LogInfo ("Would " +:+ (if move_files config then "move" else "copy")
                    +:+ " " +:+ PyPath.to_string image_file
                    +:+ " to " +:+ PyPath.to_string dest_file) ∈ entries)
    ∧ (∀ src dst w0, w_fs (safe_copy_file src dst config w0).2 = w_fs w0)
    ∧ (∀ base_dir date project_name w0,
         w_fs (create_date_folder base_dir date project_name config w0).2
           = w_fs w0).
Proof.
  intros Hdry.
  cut (∃ entries : list log_entry,
    group_loop config project_names dest_path items w
      = (Done (), {| w_fs := w_fs w; w_log := w_log w ++ entries |})
    ∧ (∀ entry, entry ∈ entries → ∃ msg, entry = LogInfo msg)
    ∧ (∀ image_file image_date project_name,
         (image_file, image_date) ∈ items →
         project_names !! strftime_Ymd (replace_midnight image_date)
           = Some project_name →
         json_truthy project_name = true →
         ∃ dest_file,
           LogInfo ("Would " +:+ (if move_files config then "move" else "copy")
                    +:+ " " +:+ PyPath.to_string image_file
                    +:+ " to " +:+ PyPath.to_string dest_file) ∈ entries)).
  { intros (entries & Hrun & Hinfo & Hwould). exists entries.
    split_and!; [done..| |].
    - intros src dst w0. by rewrite safe_copy_file_dry.
    - intros base_dir date project_name w0.
      by rewrite create_date_folder_dry. }
  revert w. induction items as [|[image_file image_date] rest IH]; intros w.
  - exists []. split_and!.
    + simpl. unfold mret, M_ret. by rewrite app_nil_r, world_eta.
    + intros entry Hin. by apply elem_of_nil in Hin.
    + intros ? ? ? Hin. by apply elem_of_nil in Hin.
  - simpl. unfold mbind at 1, M_bind. unfold group_step. cbn [fst snd].
    destruct (project_names !! strftime_Ymd (replace_midnight image_date))
      as [project_name|] eqn:Hname;
      [destruct (json_truthy project_name) eqn:Htruthy|].
    + cbn [negb].
      destruct (place_file_dry config Hdry dest_path image_file image_date
                  project_name w) as [dest_file ->].
      destruct (IH {| w_fs := w_fs w;
                      w_log := w_log w ++
                        [LogInfo ("Created/accessed folder: "
                           +:+ PyPath.to_string
                                 (date_folder_path dest_path image_date
                                    project_name));
                         LogInfo ("Would "
                           +:+ (if move_files config then "move" else "copy")
                           +:+ " " +:+ PyPath.to_string image_file
                           +:+ " to " +:+ PyPath.to_string dest_file)] |})
        as (entries & -> & Hinfo & Hwould).
      eexists (_ :: _ :: entries). cbn [w_fs w_log]. split_and!.
      * by rewrite <- app_assoc.
      * intros entry [->|[->|Hin]%elem_of_cons]%elem_of_cons; eauto.
      * intros f d l [[= -> ->]|Hin]%elem_of_cons Hl Ht.
        -- exists dest_file. set_solver.
        -- destruct (Hwould f d l Hin Hl Ht) as [p Hp]. exists p. set_solver.
    + cbn [negb]. unfold mret, M_ret.
      destruct (IH w) as (entries & -> & Hinfo & Hwould).
      exists entries. split_and!; [done..|].
      intros f d l [[= -> ->]|Hin]%elem_of_cons Hl Ht; [congruence|eauto].
    + unfold mret, M_ret.
      destruct (IH w) as (entries & -> & Hinfo & Hwould).
      exists entries. split_and!; [done..|].
      intros f d l [[= -> ->]|Hin]%elem_of_cons Hl Ht; [congruence|eauto].
Qed.

Lemma dry_run_changes_nothing_witness :
  dry_run Sample.dry_config = true
  ∧ ∃ entries,
      group_loop Sample.dry_config Sample.wedding ["dest"] Sample.items
        (Sample.start 100)
      = (Done (), {| w_fs := Sample.fs 100; w_log := entries |}).
Proof.
  split; [reflexivity|].
  destruct (dry_run_changes_nothing Sample.dry_config Sample.wedding ["dest"]
              Sample.items (Sample.start 100) eq_refl)
    as (entries & Hrun & _).
  exists entries. exact Hrun.
Defined.

(** ** One placement *)

Lemma create_date_folder_wet (base_dir : Path) (date : datetime)
    (project_name : json) (config : Config) (w : world) :
  dry_run config = false →
  let date_folder := date_folder_path base_dir date project_name in
  create_date_folder base_dir date project_name config w =
    match OS.mkdir (w_fs w) date_folder with
    | Some fs' =>
        (Done date_folder,
         {| w_fs := fs';
            w_log := w_log w ++
              [LogInfo ("Created/accessed folder: "
                        +:+ PyPath.to_string date_folder)] |})
    | None =>
        (Raised (OSError (PyPath.to_string date_folder)),
         {| w_fs := w_fs w;
            w_log := w_log w ++
              [LogError ("Error creating folder "
                         +:+ PyPath.to_string date_folder +:+ ": "
                         +:+ PyPath.to_string date_folder)] |})
    end.
Proof.
  intros Hwet date_folder. unfold create_date_folder. rewrite Hwet.
  fold date_folder. unfold_M. cbn [negb].
  by destruct (OS.mkdir (w_fs w) date_folder).
Qed.

(** What [safe_copy_file] does to the entries of the file system when the
    destination is free: the destination receives the data of the source,
    the source of a move and an old probe file may go, nothing else
    changes. *)
Lemma safe_copy_file_effect (src dst : Path) (config : Config) (w w' : world)
    (r : outcome ()) :
  fs_nodes (w_fs w) !! dst = None →
  safe_copy_file src dst config w = (r, w') →
  r ≠ OutOfFuel ∧
  (∀ p, p ≠ dst →
     fs_nodes (w_fs w') !! p = fs_nodes (w_fs w) !! p ∨
     fs_nodes (w_fs w') !! p = None) ∧
  (r = Done () → dry_run config = false →
     ∃ data, fs_nodes (w_fs w) !! src = Some (File data) ∧
             fs_nodes (w_fs w') !! dst = Some (File data)).
Proof.
  intros Hfree Hrun.
  destruct (dry_run config) eqn:Hmode.
  { rewrite (safe_copy_file_dry _ Hmode) in Hrun. injection Hrun as <- <-.
    split_and!; [done|auto|done]. }
  destruct (has_enough_disk_space_spec src dst w)
    as (enough & w1 & Hspace & Hfs1 & Hpass).
  destruct enough.
  2:{ rewrite (safe_copy_file_no_space _ _ _ Hmode _ _ Hspace) in Hrun.
      injection Hrun as <- <-. cbn [w_fs]. rewrite Hfs1.
      split_and!; [done|auto|done]. }
  destruct (Hpass eq_refl) as [-> _].
  destruct (can_write_to_directory_spec (PyPath.parent dst) w)
    as (writable & w2 & Hprobe & _ & _ & _ & Hnodes & Hsame & _).
  destruct writable.
  2:{ rewrite (safe_copy_file_not_writable _ _ _ Hmode _ _ Hspace Hprobe) in Hrun.
      injection Hrun as <- <-. cbn [w_fs]. rewrite (Hsame eq_refl).
      split_and!; [done|auto|done]. }
  rewrite (safe_copy_file_transfer _ _ _ Hmode _ _ Hspace Hprobe) in Hrun.
  assert (Hfree2 : fs_nodes (w_fs w2) !! dst = None).
  { destruct Hnodes as [->| ->]; [done|]. by apply lookup_delete_None; right. }
  assert (Hold : ∀ p, fs_nodes (w_fs w2) !! p = fs_nodes (w_fs w) !! p ∨
                      fs_nodes (w_fs w2) !! p = None).
  { intros p. destruct Hnodes as [->| ->]; [by left|].
    destruct (decide (PyPath.child (PyPath.parent dst) ".write_test" = p))
      as [<-|Hne].
    - right. apply lookup_delete_eq.
    - left. by apply lookup_delete_ne. }
  assert (Hsrc : ∀ data, fs_nodes (w_fs w2) !! src = Some (File data) →
                         fs_nodes (w_fs w) !! src = Some (File data)).
  { intros data Hdata. destruct (Hold src) as [Heq|Heq]; congruence. }
  destruct (move_files config).
  - destruct (OS.move (w_fs w2) src dst) as [fs'|] eqn:Hmove;
      injection Hrun as <- <-; cbn [w_fs].
    2:{ split_and!; [done|auto|done]. }
    apply move_fresh in Hmove as (data & Hdata & Hne & ->); [|done].
    split_and!; [done| |].
    + intros p Hp. destruct (decide (src = p)) as [<-|Hsp].
      * right. apply lookup_delete_eq.
      * rewrite lookup_delete_ne, lookup_insert_ne by done. apply Hold.
    + intros _ _. exists data. split; [by apply Hsrc|].
      by rewrite lookup_delete_ne, lookup_insert_eq.
  - destruct (OS.copy2 (w_fs w2) src dst) as [fs'|] eqn:Hcopy;
      injection Hrun as <- <-; cbn [w_fs].
    2:{ split_and!; [done|auto|done]. }
    apply copy2_fresh in Hcopy as (data & Hdata & ->); [|done].
    split_and!; [done| |].
    + intros p Hp. rewrite lookup_insert_ne by done. apply Hold.
    + intros _ _. exists data. split; [by apply Hsrc|].
      by rewrite lookup_insert_eq.
Qed.

Lemma exists_false (fs : FS) (p : Path) :
  OS.exists_ fs p = false ↔ fs_nodes fs !! p = None.
Proof. unfold OS.exists_. by destruct (fs_nodes fs !! p). Qed.

Lemma exists_true (fs : FS) (p : Path) :
  OS.exists_ fs p = true ↔ is_Some (fs_nodes fs !! p).
Proof.
  unfold OS.exists_. destruct (fs_nodes fs !! p) as [x|]; split;
    [eauto|done|done|by intros [? ?]].
Qed.

Lemma find_dest_spec (date_folder image_file : Path) (w : world) :
  ∃ dest_file,
    find_dest date_folder image_file w = (Done dest_file, w) ∧
    fs_nodes (w_fs w) !! dest_file = None ∧
    (dest_file = PyPath.child date_folder (new_filename date_folder image_file)
     ∨ is_Some (fs_nodes (w_fs w)
                  !! PyPath.child date_folder
                       (new_filename date_folder image_file))
       ∧ ∃ k, (1 ≤ k)%nat ∧ dest_file = numbered date_folder image_file k ∧
              ∀ j, (1 ≤ j < k)%nat →
                   is_Some (fs_nodes (w_fs w)
                              !! numbered date_folder image_file j)).
Proof.
  unfold find_dest.
  destruct (find_dest_terminates (w_fs w) date_folder image_file
              (PyPath.child date_folder (new_filename date_folder image_file))
              1) as [dest_file Hloop].
  rewrite Hloop. exists dest_file. split; [done|].
  apply dest_loop_Some in Hloop as [Hfree Hwhich].
  split; [by apply exists_false|].
  destruct Hwhich as [->|(Hfirst & k & Hk & -> & Hbelow)]; [by left|].
  right. split; [by apply exists_true|].
  exists k. split_and!; [done..|].
  intros j Hj. apply exists_true. by apply Hbelow.
Qed.

Section Placement.

Variables (config : Config) (dest_path image_file : Path).
Variables (image_date : datetime) (project_name : json).
Hypothesis Hwet : dry_run config = false.

Lemma place_file_effect (w w' : world) (r : outcome ()) :
  place_file config dest_path image_file image_date project_name w = (r, w') →
  let date_folder := date_folder_path dest_path image_date project_name in
  r ≠ OutOfFuel ∧
  (∀ p data,
     fs_nodes (w_fs w) !! p = Some (File data) →
     fs_nodes (w_fs w') !! p = Some (File data) ∨
     fs_nodes (w_fs w') !! p = None) ∧
  (r = Done () →
     ∃ dest_file data,
       fs_nodes (w_fs w) !! dest_file = None ∧
       fs_nodes (w_fs w) !! image_file = Some (File data) ∧
       fs_nodes (w_fs w') !! dest_file = Some (File data) ∧
       (dest_file
          = PyPath.child date_folder (new_filename date_folder image_file)
        ∨ is_Some (fs_nodes (w_fs w)
                     !! PyPath.child date_folder
                          (new_filename date_folder image_file))
          ∧ ∃ k, (1 ≤ k)%nat ∧
                 dest_file = numbered date_folder image_file k ∧
                 ∀ j, (1 ≤ j < k)%nat →
                      is_Some (fs_nodes (w_fs w)
                                 !! numbered date_folder image_file j))).
Proof.
  intros Hrun date_folder.
  unfold place_file in Hrun. unfold mbind at 1, M_bind in Hrun.
  rewrite (create_date_folder_wet _ _ _ _ _ Hwet) in Hrun.
  fold date_folder in Hrun.
  destruct (OS.mkdir (w_fs w) date_folder) as [fs1|] eqn:Hmk.
  2:{ injection Hrun as <- <-. split_and!; [done|auto|done]. }
  (* the entries of [w] are those of [fs1], but for the folder *)
  assert (Hkeep : ∀ p x, fs_nodes (w_fs w) !! p = Some x →
                         fs_nodes fs1 !! p = Some x).
  { intros p x Hp.
    apply mkdir_effect in Hmk as [->|[Hnew ->]]; [done|]. simpl.
    rewrite lookup_insert_ne; [done|]. congruence. }
  assert (Hback : ∀ p, p ≠ date_folder →
                       fs_nodes fs1 !! p = fs_nodes (w_fs w) !! p).
  { intros p Hp.
    apply mkdir_effect in Hmk as [->|[Hnew ->]]; [done|]. simpl.
    by rewrite lookup_insert_ne. }
  unfold mbind at 1, M_bind in Hrun.
  match type of Hrun with
  | context [find_dest date_folder image_file ?w1] =>
      destruct (find_dest_spec date_folder image_file w1)
        as (dest_file & Hfind & Hfree & Hwhich)
  end.
  rewrite Hfind in Hrun. cbn [w_fs] in Hfree, Hwhich.
  apply safe_copy_file_effect in Hrun as (Hfuel & Hother & Hdone);
    [|done].
  cbn [w_fs] in Hother, Hdone.
  assert (Hdst : dest_file ≠ date_folder).
  { destruct Hwhich as [->|(_ & k & _ & -> & _)]; apply child_ne. }
  split_and!; [done| |].
  - intros p data Hp. apply Hkeep in Hp as Hp1.
    destruct (Hother p) as [Hsame|Hgone]; [congruence| |by right].
    left. by rewrite Hsame.
  - intros Hr. destruct (Hdone Hr Hwet) as (data & Hsrc & Hwritten).
    exists dest_file, data. split_and!.
    + by rewrite <- Hback.
    + destruct (decide (image_file = date_folder)) as [->|Hne].
      * apply mkdir_effect in Hmk as [->|[Hnew ->]]; [done|].
        simpl in Hsrc. by rewrite lookup_insert_eq in Hsrc.
      * by rewrite <- Hback.
    + done.
    + destruct Hwhich as [->|(Hfirst & k & Hk & -> & Hbelow)]; [by left|].
      right. split.
      * rewrite <- Hback; [done|apply child_ne].
      * exists k. split_and!; [done..|].
        intros j Hj. rewrite <- Hback; [by apply Hbelow|apply child_ne].
Qed.

End Placement.

(** The answer of the probe and the exact state it leaves. *)
Lemma can_write_to_directory_exact (directory : Path) (w : world) :
  let probe := PyPath.child directory ".write_test" in
  match fs_nodes (w_fs w) !! probe with
  | Some Dir => can_write_to_directory directory w = (Done false, w)
  | Some (File _) =>
      if OS.writable_dir (w_fs w) directory then
        can_write_to_directory directory w
        = (Done true,
           {| w_fs := OS.set_nodes (w_fs w) (delete probe (fs_nodes (w_fs w)));
              w_log := w_log w |})
      else can_write_to_directory directory w = (Done false, w)
  | None =>
      can_write_to_directory directory w
      = (Done (OS.writable_dir (w_fs w) directory), w)
  end.
Proof.
  intros probe. unfold can_write_to_directory. fold probe.
  assert (Hne : directory ≠ probe) by (symmetry; apply child_ne).
  assert (Hpar : PyPath.parent probe = directory) by apply parent_child.
  unfold OS.touch, OS.unlink. rewrite Hpar.
  destruct (fs_nodes (w_fs w) !! probe) as [[data|]|] eqn:Hprobe.
  - rewrite Hprobe.
    destruct (OS.writable_dir (w_fs w) directory); [done|].
    by rewrite world_eta.
  - rewrite Hprobe. by rewrite world_eta.
  - destruct (OS.writable_dir (w_fs w) directory) eqn:Hw; [|done].
    simpl. rewrite lookup_insert_eq.
    assert (Hw' : OS.writable_dir
              (OS.set_nodes (w_fs w) (<[probe:=File ""]> (fs_nodes (w_fs w))))
              directory = true).
    { unfold OS.writable_dir, OS.is_dir in *. simpl.
      by rewrite lookup_insert_ne. }
    rewrite Hw'. simpl. rewrite delete_insert_eq, delete_id by done.
    by destruct w as [[] ?].
Qed.

(** [mkdir(exist_ok=True)] succeeds on a directory that exists and on a free
    path in a directory where entries can be created. *)
Lemma mkdir_ready (fs : FS) (p : Path) :
  OS.is_dir fs p = true
  ∨ fs_nodes fs !! p = None ∧ OS.writable_dir fs (PyPath.parent p) = true →
  ∃ fs1, OS.mkdir fs p = Some fs1
         ∧ fs_nodes fs1 = <[p := Dir]> (fs_nodes fs)
         ∧ fs_free fs1 = fs_free fs
         ∧ fs_readonly fs1 = fs_readonly fs.
Proof.
  unfold OS.mkdir, OS.is_dir. intros [Hdir|[Hfree Hparent]].
  - destruct (fs_nodes fs !! p) as [[data|]|] eqn:Hp; [done| |done].
    exists fs. split_and!; [done| |done..]. by rewrite insert_id.
  - rewrite Hfree, Hparent. eexists. split_and!; reflexivity.
Qed.

(** The probe answers yes in a writable directory that holds no directory
    named [.write_test], and leaves no probe file. *)
Lemma probe_ready (fs : FS) (directory : Path) (log : list log_entry) :
  OS.writable_dir fs directory = true →
  fs_nodes fs !! PyPath.child directory ".write_test" ≠ Some Dir →
  ∃ fs2,
    can_write_to_directory directory {| w_fs := fs; w_log := log |}
    = (Done true, {| w_fs := fs2; w_log := log |})
    ∧ fs_nodes fs2
      = delete (PyPath.child directory ".write_test") (fs_nodes fs)
    ∧ fs_free fs2 = fs_free fs
    ∧ fs_readonly fs2 = fs_readonly fs.
Proof.
  intros Hwritable Hprobe.
  pose proof (can_write_to_directory_exact directory
                {| w_fs := fs; w_log := log |}) as Hexact.
  cbn [w_fs w_log] in Hexact. cbv zeta in Hexact.
  destruct (fs_nodes fs !! PyPath.child directory ".write_test")
    as [[old|]|] eqn:Hlook; [|done|].
  - rewrite Hwritable in Hexact. rewrite Hexact.
    eexists. split_and!; reflexivity.
  - rewrite Hwritable in Hexact. rewrite Hexact.
    exists fs. split_and!; [done| |done..].
    symmetry. by apply delete_id.
Qed.

Section PlacementCompletes.

Variables (config : Config) (dest_path image_file : Path).
Variables (image_date : datetime) (project_name : json).
Hypothesis Hwet : dry_run config = false.

(** A placement completes whenever the source is a file smaller than the
    free space, the date folder exists or can be made, and entries can be
    created in it; which candidate names are taken plays no part. *)
Lemma place_file_completes (w : world) (data : string) :
  let date_folder := date_folder_path dest_path image_date project_name in
  let probe := PyPath.child date_folder ".write_test" in
  fs_nodes (w_fs w) !! image_file = Some (File data) →
  (OS.size_of data < fs_free (w_fs w))%Z →
  OS.is_dir (w_fs w) date_folder = true
  ∨ fs_nodes (w_fs w) !! date_folder = None
    ∧ OS.writable_dir (w_fs w) (PyPath.parent date_folder) = true →
  date_folder ∉ fs_readonly (w_fs w) →
  fs_nodes (w_fs w) !! probe ≠ Some Dir →
  image_file ≠ probe →
  (move_files config = true →
   OS.writable_dir (w_fs w) (PyPath.parent image_file) = true) →
  ∃ w', place_file config dest_path image_file image_date project_name w
        = (Done (), w').
Proof.
  intros date_folder probe Hsrc Hsize Hfolder Hrw Hprobe Hnotprobe Hmove.
  assert (Hsrc_ne : image_file ≠ date_folder).
  { intros ->. unfold OS.is_dir in Hfolder. rewrite Hsrc in Hfolder.
    by destruct Hfolder as [?|[? _]]. }
  assert (Hprobe_ne : probe ≠ date_folder) by apply child_ne.
  destruct (mkdir_ready _ _ Hfolder) as (fs1 & Hmk & Hnodes1 & Hfree1 & Hro1).
  unfold place_file. unfold mbind at 1, M_bind.
  rewrite (create_date_folder_wet _ _ _ _ _ Hwet). fold date_folder.
  rewrite Hmk. unfold mbind at 1, M_bind.
  match goal with
  | |- context [find_dest date_folder image_file ?w1] =>
      destruct (find_dest_spec date_folder image_file w1)
        as (dest_file & Hfind & Hfree & Hwhich); set (w1' := w1) in *
  end.
  rewrite Hfind. cbn [w_fs] in Hfree.
  assert (Hparent : PyPath.parent dest_file = date_folder).
  { destruct Hwhich as [->|(_ & k & _ & -> & _)]; apply parent_child. }
  assert (Hdir1 : fs_nodes fs1 !! date_folder = Some Dir).
  { by rewrite Hnodes1, lookup_insert_eq. }
  assert (Hsrc1 : fs_nodes fs1 !! image_file = Some (File data)).
  { by rewrite Hnodes1, lookup_insert_ne. }
  assert (Hwritable1 : OS.writable_dir fs1 date_folder = true).
  { unfold OS.writable_dir, OS.is_dir. rewrite Hdir1, Hro1.
    by rewrite bool_decide_eq_true_2. }
  (* the check of the free space *)
  assert (Hspace : has_enough_disk_space image_file dest_file w1'
                   = (Done true, w1')).
  { unfold has_enough_disk_space, OS.st_size, OS.disk_free, OS.exists_.
    subst w1'. cbn [w_fs]. rewrite Hsrc1, Hparent, Hdir1, Hfree1.
    by rewrite bool_decide_eq_true_2. }
  (* the probe *)
  assert (Hprobe1 : fs_nodes fs1 !! probe ≠ Some Dir).
  { by rewrite Hnodes1, lookup_insert_ne. }
  destruct (probe_ready fs1 date_folder (w_log w1') Hwritable1 Hprobe1)
    as (fs2 & Hcan & Hnodes2 & Hfree2 & Hro2).
  fold probe in Hnodes2.
  assert (Hcan' : can_write_to_directory (PyPath.parent dest_file) w1'
                  = (Done true, {| w_fs := fs2; w_log := w_log w1' |})).
  { rewrite Hparent. subst w1'. exact Hcan. }
  rewrite (safe_copy_file_transfer _ _ _ Hwet _ _ Hspace Hcan').
  cbn [w_fs w_log].
  (* the transfer *)
  assert (Hsrc2 : fs_nodes fs2 !! image_file = Some (File data)).
  { by rewrite Hnodes2, lookup_delete_ne. }
  assert (Hfree_dst : fs_nodes fs2 !! dest_file = None).
  { rewrite Hnodes2. apply lookup_delete_None. by right. }
  assert (Hdir2 : ∀ d, OS.writable_dir fs1 d = true →
                       OS.writable_dir fs2 d = true).
  { intros d. unfold OS.writable_dir, OS.is_dir. rewrite Hro2, Hnodes2.
    destruct (fs_nodes fs1 !! d) as [[?|]|] eqn:Hd; try done.
    rewrite lookup_delete_ne; [by rewrite Hd|].
    intros Heq. apply Hprobe1. by rewrite Heq. }
  assert (Hnotdir : OS.is_dir fs2 dest_file = false).
  { unfold OS.is_dir. by rewrite Hfree_dst. }
  assert (Hop : is_Some (if move_files config
                         then OS.move fs2 image_file dest_file
                         else OS.copy2 fs2 image_file dest_file)).
  { destruct (move_files config) eqn:Hmode.
    - unfold OS.move, OS.rename. rewrite Hsrc2, Hnotdir.
      rewrite bool_decide_eq_false_2 by congruence.
      rewrite Hparent, (Hdir2 _ Hwritable1), andb_true_r.
      assert (Hps : OS.writable_dir fs2 (PyPath.parent image_file) = true).
      { apply Hdir2. specialize (Hmove eq_refl).
        unfold OS.writable_dir, OS.is_dir in Hmove |- *.
        rewrite Hro1, Hnodes1.
        destruct (decide (PyPath.parent image_file = date_folder)) as [Heq|Hne].
        - rewrite Heq, lookup_insert_eq. by rewrite bool_decide_eq_true_2.
        - by rewrite lookup_insert_ne. }
      rewrite Hps. eauto.
    - unfold OS.copy2, OS.target, OS.write_file. rewrite Hsrc2, Hnotdir.
      rewrite Hfree_dst, Hparent, (Hdir2 _ Hwritable1).
      destruct (_ <? _)%Z eqn:Hneg; [|eauto].
      apply Z.ltb_lt in Hneg. rewrite Hfree2, Hfree1 in Hneg. lia. }
  destruct Hop as [fs' ->]. eauto.
Qed.

End PlacementCompletes.



(** ** The loop of the group operation *)

Lemma group_loop_app (config : Config) (project_names : gmap string json)
    (dest_path : Path) (before after : list (Path * datetime)) (w : world) :
  group_loop config project_names dest_path (before ++ after) w =
    match group_loop config project_names dest_path before w with
    | (Done _, w1) => group_loop config project_names dest_path after w1
    | (Raised e, w1) => (Raised e, w1)
    | (OutOfFuel, w1) => (OutOfFuel, w1)
    end.
Proof.
  revert w. induction before as [|item before IH]; intros w; simpl.
  - done.
  - unfold mbind, M_bind.
    destruct (group_step config project_names dest_path item w) as [[[]|e|] w0];
      [apply IH|done..].
Qed.

(** C10.  An entry of the mapping whose label is falsy, the empty string or
    [null] for instance, has the effect of no entry at all: the round of the
    loop ends normally and leaves the file system and the log as they were,
    so no folder is made and nothing is placed. *)
Theorem falsy_label_is_skipped (config : Config)
    (project_names : gmap string json) (dest_path : Path)
    (item : Path * datetime) (project_name : json) (w : world) :
  project_names !! strftime_Ymd (replace_midnight item.2) = Some project_name →
  json_truthy project_name = false →
  group_step config project_names dest_path item w = (Done (), w)
  ∧ group_step config
      (delete (strftime_Ymd (replace_midnight item.2)) project_names)
      dest_path item w = (Done (), w)
  ∧ json_truthy (JStr "") = false
  ∧ json_truthy JNull = false.
Proof.
  intros Hentry Hfalsy. unfold group_step.
  rewrite Hentry, Hfalsy, lookup_delete_eq. done.
Qed.

Lemma falsy_label_is_skipped_witness :
  Sample.empty_label !! strftime_Ymd (replace_midnight Sample.may1)
    = Some (JStr "")
  ∧ json_truthy (JStr "") = false
  ∧ group_step Config_default Sample.empty_label ["dest"]
      (["src"; "a.jpg"], Sample.may1) (Sample.start 100)
    = (Done (), Sample.start 100).
Proof.
  split; [vm_compute; reflexivity|]. split; [reflexivity|].
  apply (falsy_label_is_skipped Config_default Sample.empty_label ["dest"]
           (["src"; "a.jpg"], Sample.may1) (JStr "") (Sample.start 100)).
  - vm_compute; reflexivity.
  - reflexivity.
Defined.

(** A placement that raises has logged the error as its last line. *)
Lemma place_file_raises (config : Config) (dest_path image_file : Path)
    (image_date : datetime) (project_name : json) (w w' : world) (e : exn) :
  place_file config dest_path image_file image_date project_name w
    = (Raised e, w') →
  (∀ msg, e ≠ OSError msg) →
  last (w_log w') = Some (error_line image_file e).
Proof.
  intros Hrun Htyped.
  destruct (dry_run config) eqn:Hmode.
  { destruct (place_file_dry config Hmode dest_path image_file image_date
                project_name w) as [dest_file Hdry].
    congruence. }
  unfold place_file in Hrun. unfold mbind at 1, M_bind in Hrun.
  rewrite (create_date_folder_wet _ _ _ _ _ Hmode) in Hrun.
  destruct (OS.mkdir _ _) as [fs1|].
  2:{ injection Hrun as <- <-. by destruct (Htyped _ eq_refl). }
  unfold mbind at 1, M_bind in Hrun.
  match type of Hrun with
  | context [find_dest ?d image_file ?w1] =>
      destruct (find_dest_spec d image_file w1) as (dest_file & Hfind & _)
  end.
  rewrite Hfind in Hrun.
  by eapply safe_copy_file_logs_error.
Qed.

(** C1 (as amended).  A placement that fails for want of space or of a
    writable directory logs the error and raises it again, and nothing in
    the loop of the group operation catches it: the run ends there with that
    exception, in the state in which the failed placement left it, whatever
    files come after, and the completion message is not printed. *)
Theorem placement_failure_stops_run
    (parse : string → parse_result) (TAGS : Z → option string) (now : datetime)
    (image_files : list MediaFile) (destination_folder : Path) (move : bool)
    (project_names : gmap string json)
    (before after : list (Path * datetime)) (item : Path * datetime)
    (w w1 w2 : world) (e : exn) :
  let config_obj := set_move_files Config_default move in
  file_dates parse TAGS now image_files = before ++ item :: after →
  group_loop config_obj project_names destination_folder before w
    = (Done (), w1) →
  group_step config_obj project_names destination_folder item w1
    = (Raised e, w2) →
  (∃ msg, e = DiskSpaceError msg ∨ e = PermissionError msg) →
  group_files parse TAGS now image_files destination_folder move project_names w
    = (Raised e, w2)
  ∧ last (w_log w2) = Some (error_line item.1 e).
Proof.
  intros config_obj Hitems Hbefore Hstep Htyped.
  split.
  - unfold group_files. rewrite Hitems. unfold mbind at 1, M_bind.
    fold config_obj. rewrite group_loop_app, Hbefore. simpl.
    unfold mbind at 1, M_bind. by rewrite Hstep.
  - unfold group_step in Hstep.
    destruct (project_names !! _) as [project_name|]; [|done].
    destruct (json_truthy project_name); [|done]. cbn [negb] in Hstep.
    eapply place_file_raises; [done|].
    intros msg Heq. destruct Htyped as [msg' [?|?]]; congruence.
Qed.

Lemma placement_failure_stops_run_witness :
  ∃ w2,
    group_files Sample.parse Sample.TAGS Sample.now Sample.photos ["dest"]
      false Sample.wedding (Sample.start 5)
    = (Raised (DiskSpaceError "Not enough disk space to copy /src/a.jpg"), w2)
    ∧ last (w_log w2)
      = Some (LogError "Error processing /src/a.jpg: Not enough disk space to copy /src/a.jpg").
Proof.
  destruct (group_step (set_move_files Config_default false) Sample.wedding
              ["dest"] (["src"; "a.jpg"], Sample.may1) (Sample.start 5))
    as [r w2] eqn:Hstep.
  assert (Hr : r = Raised (DiskSpaceError
                             "Not enough disk space to copy /src/a.jpg")).
  { vm_compute in Hstep. congruence. }
  subst r. exists w2.
  destruct (placement_failure_stops_run Sample.parse Sample.TAGS Sample.now
              Sample.photos ["dest"] false Sample.wedding
              [] [(["src"; "b.jpg"], Sample.may1)]
              (["src"; "a.jpg"], Sample.may1)
              (Sample.start 5) (Sample.start 5) w2
              (DiskSpaceError "Not enough disk space to copy /src/a.jpg"))
    as [Hrun Hlog].
  - vm_compute; reflexivity.
  - reflexivity.
  - exact Hstep.
  - eexists. left. reflexivity.
  - split; [exact Hrun|]. rewrite Hlog. reflexivity.
Defined.

(** C1 (as stated, refuted).  Five bytes are free.  The placement of
    [a.jpg], of ten bytes, fails; the run ends with the [DiskSpaceError]:
    [b.jpg], of one byte, has not been placed and no completion message was
    printed. *)
Lemma disk_full_aborts_group :
  let run := group_files Sample.parse Sample.TAGS Sample.now Sample.photos
               ["dest"] false Sample.wedding (Sample.start 5) in
  run.1 = Raised (DiskSpaceError "Not enough disk space to copy /src/a.jpg")
  ∧ OS.st_size (Sample.fs 5) ["src"; "b.jpg"] = Some 1%Z
  ∧ fs_nodes (w_fs run.2)
      !! ["dest"; "20230501_Wedding"; "20230501_Wedding_b.jpg"] = None
  ∧ Echo "Processing completed" ∉ w_log run.2.
Proof.
  vm_compute. split_and!; [reflexivity..|].
  intros Hin. repeat (apply elem_of_cons in Hin as [Hin|Hin]; [discriminate|]).
  by apply elem_of_nil in Hin.
Qed.

(** The loop of the group operation never runs out of the rounds that the
    model allows. *)
Lemma group_loop_fuel (config : Config) (project_names : gmap string json)
    (dest_path : Path) (items : list (Path * datetime)) (w : world) :
  dry_run config = false →
  (group_loop config project_names dest_path items w).1 ≠ OutOfFuel.
Proof.
  intros Hwet. revert w.
  induction items as [|item rest IH]; intros w; simpl; [done|].
  unfold mbind, M_bind.
  destruct (group_step config project_names dest_path item w)
    as [[[]|e|] w1] eqn:Hstep; [apply IH|done|].
  unfold group_step in Hstep.
  destruct (project_names !! _) as [project_name|]; [|done].
  destruct (json_truthy project_name); [|done]. cbn [negb] in Hstep.
  by apply place_file_effect in Hstep as [? _].
Qed.

(** The loop of the source completes exactly when the files with a label
    are placed in turn and the others skipped. *)
Lemma group_loop_places_all (config : Config)
    (project_names : gmap string json) (dest_path : Path)
    (items : list (Path * datetime)) (w w' : world) :
  group_loop config project_names dest_path items w = (Done (), w') ↔
  places_all config project_names dest_path items w w'.
Proof.
  split.
  - revert w. induction items as [|item rest IH]; intros w; simpl.
    + intros [= <-]. constructor.
    + unfold mbind, M_bind.
      destruct (group_step config project_names dest_path item w)
        as [[[]|e|] w1] eqn:Hstep; [|done..].
      intros Hrest%IH. unfold group_step in Hstep. fold (date_key item) in Hstep.
      destruct (project_names !! date_key item) as [project_name|] eqn:Hentry.
      * destruct (json_truthy project_name) eqn:Htruthy; cbn [negb] in Hstep.
        -- by eapply places_file.
        -- injection Hstep as <-. apply places_skip; [|done]. right. eauto.
      * injection Hstep as <-. apply places_skip; [|done]. by left.
  - induction 1 as [w|item rest w w' Hskip _ IH
                    |item project_name rest w w1 w' Hentry Htruthy Hplace _ IH];
      simpl.
    + done.
    + unfold mbind, M_bind, group_step. fold (date_key item).
      destruct Hskip as [->|(project_name & -> & ->)]; exact IH.
    + unfold mbind, M_bind, group_step. fold (date_key item).
      rewrite Hentry, Htruthy. cbn [negb]. by rewrite Hplace.
Qed.

(** C8 (as amended).  In the group operation a file whose DateKey has no
    entry in the mapping, or a falsy one, is skipped without any effect, and
    a file whose DateKey has a truthy label goes to the placement engine.
    The run completes exactly when every such placement completes in turn;
    the completion message is then the last line.  When a placement raises,
    the run ends with that exception and without the message. *)
Theorem group_places_labelled_files
    (parse : string → parse_result) (TAGS : Z → option string) (now : datetime)
    (image_files : list MediaFile) (destination_folder : Path) (move : bool)
    (project_names : gmap string json) (w w' : world) (r : outcome ()) :
  let config_obj := set_move_files Config_default move in
  let items := file_dates parse TAGS now image_files in
  group_files parse TAGS now image_files destination_folder move project_names w
    = (r, w') →
  r ≠ OutOfFuel
  ∧ (∀ item w0,
       project_names !! date_key item = None ∨
       (∃ project_name, project_names !! date_key item = Some project_name ∧
                        json_truthy project_name = false) →
       group_step config_obj project_names destination_folder item w0
         = (Done (), w0))
  ∧ (∀ item project_name w0,
       project_names !! date_key item = Some project_name →
       json_truthy project_name = true →
       group_step config_obj project_names destination_folder item w0
         = place_file config_obj destination_folder item.1 item.2
             project_name w0)
  ∧ (r = Done () ↔
     ∃ w1, places_all config_obj project_names destination_folder items w w1
           ∧ w' = {| w_fs := w_fs w1;
                     w_log := w_log w1 ++ [Echo "Processing completed"] |})
  ∧ (∀ e, r = Raised e →
       group_loop config_obj project_names destination_folder items w
         = (Raised e, w')).
Proof.
  intros config_obj items Hrun.
  unfold group_files in Hrun. fold config_obj items in Hrun.
  unfold mbind, M_bind in Hrun.
  pose proof (group_loop_fuel config_obj project_names destination_folder
                items w eq_refl) as Hfuel.
  split_and!.
  - destruct (group_loop _ _ _ _ _) as [[[]|e|] w1];
      [|by injection Hrun as <- <-|done].
    unfold click_echo, emit in Hrun. by injection Hrun as <- <-.
  - intros item w0 Hskip. unfold group_step. fold (date_key item).
    by destruct Hskip as [->|(project_name & -> & ->)].
  - intros item project_name w0 Hentry Htruthy.
    unfold group_step. fold (date_key item). by rewrite Hentry, Htruthy.
  - destruct (group_loop _ _ _ _ _) as [[[]|e|] w1] eqn:Hloop.
    + unfold click_echo, emit in Hrun. injection Hrun as <- <-.
      split; [|done]. intros _. exists w1. split; [|done].
      by apply group_loop_places_all.
    + injection Hrun as <- <-. split; [done|].
      intros (w1' & Hall%group_loop_places_all & _). congruence.
    + done.
  - intros e ->.
    destruct (group_loop _ _ _ _ _) as [[[]|e'|] w1] eqn:Hloop.
    + unfold click_echo, emit in Hrun. by injection Hrun.
    + by injection Hrun as <- <-.
    + done.
Qed.

Lemma group_places_labelled_files_witness :
  ∃ w',
    group_files Sample.parse Sample.TAGS Sample.now Sample.photos ["dest"]
      false Sample.wedding (Sample.start 100) = (Done (), w')
    ∧ ∃ w1,
        places_all (set_move_files Config_default false) Sample.wedding
          ["dest"] Sample.items (Sample.start 100) w1
        ∧ last (w_log w') = Some (Echo "Processing completed").
Proof.
  destruct (group_files Sample.parse Sample.TAGS Sample.now Sample.photos
              ["dest"] false Sample.wedding (Sample.start 100))
    as [r w'] eqn:Hrun.
  destruct (group_places_labelled_files Sample.parse Sample.TAGS Sample.now
              Sample.photos ["dest"] false Sample.wedding (Sample.start 100)
              w' r Hrun) as (_ & _ & _ & Hdone & _).
  assert (Hr : r = Done ()) by (vm_compute in Hrun; congruence).
  destruct (proj1 Hdone Hr) as (w1 & Hall & Hw').
  exists w'. split; [by rewrite Hr|]. exists w1. split; [exact Hall|].
  rewrite Hw'. apply last_snoc.
Defined.

(** C8 (as stated, refuted).  The date of the two photographs has an entry
    in the mapping, the empty string: the run completes and nothing was
    placed, the file system is as it was.  And with a destination root that
    does not exist the first placement raises: no completion message. *)
Lemma labelled_file_is_not_placed :
  let run := group_files Sample.parse Sample.TAGS Sample.now Sample.photos
               ["dest"] false Sample.empty_label (Sample.start 100) in
  let lost := group_files Sample.parse Sample.TAGS Sample.now Sample.photos
                ["nowhere"] false Sample.wedding (Sample.start 100) in
  is_Some (Sample.empty_label !! "20230501")
  ∧ date_key (["src"; "a.jpg"], Sample.may1) = "20230501"
  ∧ run = (Done (), {| w_fs := Sample.fs 100;
                       w_log := [Echo "Processing completed"] |})
  ∧ lost.1 = Raised (OSError "/nowhere/20230501_Wedding")
  ∧ w_fs lost.2 = Sample.fs 100
  ∧ Echo "Processing completed" ∉ w_log lost.2.
Proof.
  split_and!; [by eexists|vm_compute; reflexivity..|].
  vm_compute. intros Hin.
  repeat (apply elem_of_cons in Hin as [Hin|Hin]; [discriminate|]).
  by apply elem_of_nil in Hin.
Qed.

(** ** Project names *)

(** What the prompt accepts is within the length bound and not blank. *)
Lemma prompt_loop_valid (config : Config) (input rest : list string)
    (project_name : string) :
  prompt_loop config input = Some (project_name, rest) →
  (String.length project_name ≤ max_project_name_length config)%nat
  ∧ PyStr.truthy (PyStr.strip project_name) = true
  ∧ project_name ∈ input.
Proof.
  induction input as [|line input IH]; simpl; [done|].
  destruct (Nat.ltb _ _) eqn:Hlong.
  { intros (? & ? & ?)%IH. split_and!; [done..|by right]. }
  destruct (PyStr.truthy (PyStr.strip line)) eqn:Hblank; cbn [negb].
  2:{ intros (? & ? & ?)%IH. split_and!; [done..|by right]. }
  intros [= <- <-]. apply Nat.ltb_ge in Hlong. split_and!; [done..|by left].
Qed.

Lemma prompt_loop_rest (config : Config) (input rest : list string)
    (project_name : string) :
  prompt_loop config input = Some (project_name, rest) →
  ∀ line, line ∈ rest → line ∈ input.
Proof.
  induction input as [|first input IH]; simpl; [done|].
  destruct (Nat.ltb _ _).
  { intros Hloop line Hin. right. by eapply IH. }
  destruct (PyStr.truthy (PyStr.strip first)); cbn [negb].
  2:{ intros Hloop line Hin. right. by eapply IH. }
  intros [= <- <-] line Hin. by right.
Qed.

Lemma names_loop_valid (config : Config) (dates : list datetime)
    (project_names names : gmap string string) (input rest : list string) :
  names_loop config dates project_names input = Some (names, rest) →
  (∀ date, date ∈ dates → is_Some (names !! strftime_Ymd date))
  ∧ (∀ key, is_Some (project_names !! key) → is_Some (names !! key))
  ∧ ∀ key project_name,
      names !! key = Some project_name →
      project_names !! key = Some project_name ∨
      (String.length project_name ≤ max_project_name_length config)%nat
      ∧ PyStr.truthy (PyStr.strip project_name) = true
      ∧ project_name ∈ input.
Proof.
  revert project_names input.
  induction dates as [|date dates IH]; intros project_names input; simpl.
  - intros [= <- <-]. split_and!; [|done|auto].
    intros date Hin. by apply elem_of_nil in Hin.
  - destruct (prompt_loop config input) as [[answer input']|] eqn:Hprompt;
      [|done].
    intros (Hdates & Hmono & Hvalid)%IH.
    pose proof (prompt_loop_valid _ _ _ _ Hprompt) as (Hlen & Hstrip & Hin).
    pose proof (prompt_loop_rest _ _ _ _ Hprompt) as Hrest.
    split_and!.
    + intros d [->|Hd]%elem_of_cons; [|by apply Hdates].
      apply Hmono. rewrite lookup_insert_eq. eauto.
    + intros key Hkey. apply Hmono.
      destruct (decide (strftime_Ymd date = key)) as [<-|Hne].
      * rewrite lookup_insert_eq. eauto.
      * by rewrite lookup_insert_ne.
    + intros key project_name Hname.
      destruct (Hvalid key project_name Hname)
        as [Hold|(Hlen' & Hstrip' & Hin')].
      * destruct (decide (strftime_Ymd date = key)) as [<-|Hne].
        -- rewrite lookup_insert_eq in Hold. injection Hold as <-.
           right. done.
        -- rewrite lookup_insert_ne in Hold by done. by left.
      * right. split_and!; [done..|]. by apply Hrest.
Qed.

Lemma uniform_names (nm : string) (dates : list datetime)
    (start : gmap string string) :
  let names := foldl (λ m date, <[strftime_Ymd date := nm]> m) start dates in
  (∀ date, date ∈ dates → names !! strftime_Ymd date = Some nm)
  ∧ (∀ key, start !! key = Some nm → names !! key = Some nm)
  ∧ ∀ key project_name,
      names !! key = Some project_name →
      start !! key = Some project_name ∨ project_name = nm.
Proof.
  revert start. induction dates as [|date dates IH]; intros start; simpl.
  - split_and!; [|done|auto]. intros date Hin. by apply elem_of_nil in Hin.
  - destruct (IH (<[strftime_Ymd date := nm]> start)) as (Hdates & Hmono & Hval).
    split_and!.
    + intros d [->|Hd]%elem_of_cons; [|by apply Hdates].
      apply Hmono. by rewrite lookup_insert_eq.
    + intros key Hkey. apply Hmono.
      destruct (decide (strftime_Ymd date = key)) as [<-|Hne].
      * by rewrite lookup_insert_eq.
      * by rewrite lookup_insert_ne.
    + intros key project_name Hname.
      destruct (Hval key project_name Hname) as [Hold| ->]; [|by right].
      destruct (decide (strftime_Ymd date = key)) as [<-|Hne].
      * rewrite lookup_insert_eq in Hold. right. congruence.
      * rewrite lookup_insert_ne in Hold by done. by left.
Qed.

(** C9 (as amended).  A label that comes from the console is no longer than
    the configured maximum and not blank: the prompt is repeated until it
    is.  A uniform name of the configuration is used as it is given, with
    no check but that it is not empty.  Every date receives a label.  The
    labels of a mapping file meet no check but the test for truthiness in
    [group_step]. *)
Theorem project_names_checked (dates : list datetime) (config : Config)
    (input rest : list string) (project_names : gmap string string) :
  get_project_names_for_all_dates dates config input
    = Some (project_names, rest) →
  (∀ date, date ∈ dates → is_Some (project_names !! strftime_Ymd date))
  ∧ ∀ key project_name,
      project_names !! key = Some project_name →
      (name config = Some project_name ∧ PyStr.truthy project_name = true)
      ∨ ((String.length project_name ≤ max_project_name_length config)%nat
         ∧ PyStr.truthy (PyStr.strip project_name) = true
         ∧ project_name ∈ input).
Proof.
  unfold get_project_names_for_all_dates.
  assert (Hinteractive :
    (sorted ← sorted_dates dates; names_loop config sorted ∅ input)
      = Some (project_names, rest) →
    (∀ date, date ∈ dates → is_Some (project_names !! strftime_Ymd date))
    ∧ ∀ key project_name,
        project_names !! key = Some project_name →
        (name config = Some project_name ∧ PyStr.truthy project_name = true)
        ∨ ((String.length project_name ≤ max_project_name_length config)%nat
           ∧ PyStr.truthy (PyStr.strip project_name) = true
           ∧ project_name ∈ input)).
  { unfold sorted_dates. destruct (mixed dates); [done|]. cbn [mbind option_bind].
    intros (Hdates & _ & Hvalid)%names_loop_valid. split.
    - intros date Hin. apply Hdates.
      by rewrite merge_sort_Permutation.
    - intros key project_name Hname.
      destruct (Hvalid key project_name Hname) as [Hold|?]; [|by right].
      by rewrite lookup_empty in Hold. }
  destruct (name config) as [nm|]; [|done].
  destruct (PyStr.truthy nm) eqn:Htruthy; [|done].
  intros [= <- <-].
  destruct (uniform_names nm dates ∅) as (Hdates & _ & Hvalid). split.
  - intros date Hin. rewrite (Hdates date Hin). eauto.
  - intros key project_name Hname.
    destruct (Hvalid key project_name Hname) as [Hold| ->].
    + by rewrite lookup_empty in Hold.
    + by left.
Qed.

Lemma project_names_checked_witness :
  get_project_names_for_all_dates [Sample.may1] Config_default
    ["   "; "Wedding"; "later"]
  = Some ({[ "20230501" := "Wedding" ]}, ["later"])
  ∧ ∀ key project_name,
      ({[ "20230501" := "Wedding" ]} : gmap string string) !! key
        = Some project_name →
      (String.length project_name ≤ 50)%nat
      ∧ PyStr.truthy (PyStr.strip project_name) = true.
Proof.
  assert (Hrun : get_project_names_for_all_dates [Sample.may1] Config_default
                   ["   "; "Wedding"; "later"]
                 = Some ({[ "20230501" := "Wedding" ]}, ["later"])).
  { vm_compute. reflexivity. }
  split; [exact Hrun|].
  intros key project_name Hname.
  destruct (project_names_checked _ _ _ _ _ Hrun) as [_ Hvalid].
  destruct (Hvalid key project_name Hname) as [[Huniform _]|(? & ? & _)];
    [discriminate Huniform|done].
Defined.

(** C9 (as stated, refuted).  A label of three spaces and a label of
    fifty-one characters, read from a mapping file, both reach the placement
    engine and name a folder; a uniform name of three spaces is handed out
    for every date. *)
Lemma unchecked_label_reaches_placement :
  let blank := group_files Sample.parse Sample.TAGS Sample.now Sample.photos
                 ["dest"] false Sample.blank_label (Sample.start 100) in
  let long := group_files Sample.parse Sample.TAGS Sample.now Sample.photos
                ["dest"] false Sample.long_label (Sample.start 100) in
  PyStr.truthy (PyStr.strip "   ") = false
  ∧ blank.1 = Done ()
  ∧ fs_nodes (w_fs blank.2) !! ["dest"; "20230501_   "] = Some Dir
  ∧ fs_nodes (w_fs blank.2) !! ["dest"; "20230501_   "; "20230501_   _a.jpg"]
    = Some (File "0123456789")
  ∧ (max_project_name_length Config_default
     < String.length "xxxxxxxxxxxxxxxxxxxxxxxxxxxxxxxxxxxxxxxxxxxxxxxxxxx")%nat
  ∧ long.1 = Done ()
  ∧ fs_nodes (w_fs long.2)
      !! ["dest"; "20230501_xxxxxxxxxxxxxxxxxxxxxxxxxxxxxxxxxxxxxxxxxxxxxxxxxxx"]
    = Some Dir
  ∧ get_project_names_for_all_dates [Sample.may1] Sample.blank_name_config []
    = Some ({[ "20230501" := "   " ]}, []).
Proof.
  split_and!; vm_compute; reflexivity.
Qed.

(** * Further properties of the code *)

(** ** The probe of the destination directory *)

(** When the probe answers yes, the entry [.write_test] is gone and the
    rest of the file system is as before. *)
Lemma can_write_to_directory_yes (directory : Path) (w w2 : world) :
  can_write_to_directory directory w = (Done true, w2) →
  w2 = {| w_fs := OS.set_nodes (w_fs w)
                    (delete (PyPath.child directory ".write_test")
                       (fs_nodes (w_fs w)));
          w_log := w_log w |}
  ∧ OS.writable_dir (w_fs w) directory = true.
Proof.
  pose proof (can_write_to_directory_exact directory w) as Hexact.
  cbv zeta in Hexact.
  destruct (fs_nodes (w_fs w) !! PyPath.child directory ".write_test")
    as [[data|]|] eqn:Hprobe.
  - destruct (OS.writable_dir (w_fs w) directory); rewrite Hexact;
      intros [= <-]; done.
  - rewrite Hexact. done.
  - rewrite Hexact. intros [= Hw <-]. split; [|done].
    rewrite delete_id by done. by destruct w as [[] ?].
Qed.

(** X1.  In a directory that holds no entry [.write_test], the probe leaves
    the world exactly as it found it, whatever it answers, and it answers
    yes exactly when the directory exists and entries can be created in it;
    it never raises. *)
Theorem probe_leaves_no_trace (directory : Path) (w : world) :
  fs_nodes (w_fs w) !! PyPath.child directory ".write_test" = None →
  can_write_to_directory directory w
    = (Done (OS.writable_dir (w_fs w) directory), w).
Proof.
  intros Hprobe.
  pose proof (can_write_to_directory_exact directory w) as Hexact.
  cbv zeta in Hexact. by rewrite Hprobe in Hexact.
Qed.

Lemma probe_leaves_no_trace_witness :
  can_write_to_directory ["dest"] (Sample.start 100)
    = (Done true, Sample.start 100)
  ∧ can_write_to_directory ["nowhere"] (Sample.start 100)
    = (Done false, Sample.start 100).
Proof.
  split.
  - apply (probe_leaves_no_trace ["dest"] (Sample.start 100)).
    vm_compute. reflexivity.
  - apply (probe_leaves_no_trace ["nowhere"] (Sample.start 100)).
    vm_compute. reflexivity.
Defined.

(** ** The transfer *)

(** A transfer that completes went through both checks; the file system it
    leaves is the one after the probe, changed by the copy or the move. *)
Lemma safe_copy_file_done (src dst : Path) (config : Config) (w w' : world) :
  dry_run config = false →
  safe_copy_file src dst config w = (Done (), w') →
  let fs2 := OS.set_nodes (w_fs w)
               (delete (PyPath.child (PyPath.parent dst) ".write_test")
                  (fs_nodes (w_fs w))) in
  (if move_files config then OS.move fs2 src dst else OS.copy2 fs2 src dst)
    = Some (w_fs w')
  ∧ OS.writable_dir (w_fs w) (PyPath.parent dst) = true
  ∧ (∃ src_size, OS.st_size (w_fs w) src = Some src_size
                 ∧ (src_size < fs_free (w_fs w))%Z)
  ∧ w_log w'
    = w_log w ++ [LogInfo ((if move_files config then "Moved " else "Copied ")
                           +:+ PyPath.to_string src
                           +:+ " to " +:+ PyPath.to_string dst)].
Proof.
  intros Hwet Hrun fs2.
  destruct (has_enough_disk_space_spec src dst w)
    as (enough & w1 & Hspace & _ & Hpass).
  destruct enough.
  2:{ by rewrite (safe_copy_file_no_space _ _ _ Hwet _ _ Hspace) in Hrun. }
  destruct (Hpass eq_refl) as [-> (src_size & Hsize & _ & Hlt)].
  destruct (can_write_to_directory_spec (PyPath.parent dst) w)
    as (writable & w2 & Hprobe & _).
  destruct writable.
  2:{ by rewrite (safe_copy_file_not_writable _ _ _ Hwet _ _ Hspace Hprobe)
        in Hrun. }
  rewrite (safe_copy_file_transfer _ _ _ Hwet _ _ Hspace Hprobe) in Hrun.
  apply can_write_to_directory_yes in Hprobe as [-> Hwritable].
  cbn [w_fs w_log] in Hrun. fold fs2 in Hrun.
  destruct (if move_files config then _ else _) as [fs'|]; [|done].
  injection Hrun as <-. split_and!; [done..|eauto|done].
Qed.

(** A transfer that raises leaves the file system as it was, but for an old
    probe file. *)
Lemma safe_copy_file_raised (src dst : Path) (config : Config) (w w' : world)
    (e : exn) :
  safe_copy_file src dst config w = (Raised e, w') →
  fs_nodes (w_fs w') = fs_nodes (w_fs w)
  ∨ fs_nodes (w_fs w')
    = delete (PyPath.child (PyPath.parent dst) ".write_test")
        (fs_nodes (w_fs w)).
Proof.
  intros Hrun.
  destruct (dry_run config) eqn:Hmode.
  { by rewrite (safe_copy_file_dry _ Hmode) in Hrun. }
  destruct (has_enough_disk_space_spec src dst w)
    as (enough & w1 & Hspace & Hfs1 & Hpass).
  destruct enough.
  2:{ rewrite (safe_copy_file_no_space _ _ _ Hmode _ _ Hspace) in Hrun.
      injection Hrun as _ <-. left. cbn [w_fs]. by rewrite Hfs1. }
  destruct (Hpass eq_refl) as [-> _].
  destruct (can_write_to_directory_spec (PyPath.parent dst) w)
    as (writable & w2 & Hprobe & _ & _ & _ & Hnodes & Hsame & _).
  destruct writable.
  - rewrite (safe_copy_file_transfer _ _ _ Hmode _ _ Hspace Hprobe) in Hrun.
    destruct (if move_files config then _ else _); [done|].
    injection Hrun as _ <-. done.
  - rewrite (safe_copy_file_not_writable _ _ _ Hmode _ _ Hspace Hprobe) in Hrun.
    injection Hrun as _ <-. left. cbn [w_fs]. by rewrite (Hsame eq_refl).
Qed.

Lemma copy2_nodes (fs fs' : FS) (src dst : Path) :
  OS.is_dir fs dst = false →
  OS.copy2 fs src dst = Some fs' →
  ∃ data, fs_nodes fs !! src = Some (File data) ∧
          fs_nodes fs' = <[dst := File data]> (fs_nodes fs).
Proof.
  unfold OS.copy2, OS.target. intros Hdir Hcopy. rewrite Hdir in Hcopy.
  destruct (fs_nodes fs !! src) as [[data|]|]; [|done..].
  exists data. split; [done|].
  unfold OS.write_file, OS.is_dir in *.
  destruct (fs_nodes fs !! dst) as [[old|]|]; [|done|].
  - destruct (_ <? _)%Z; [done|]. by injection Hcopy as <-.
  - destruct (OS.writable_dir fs (PyPath.parent dst)); [|done].
    destruct (_ <? _)%Z; [done|]. by injection Hcopy as <-.
Qed.

(** X2.  After a transfer to a free path that completes, the destination
    holds the data of the source; a copy leaves the source where it was, a
    move removes it. *)
Theorem copy_keeps_move_removes (src dst : Path) (config : Config)
    (w w' : world) :
  dry_run config = false →
  fs_nodes (w_fs w) !! dst = None →
  safe_copy_file src dst config w = (Done (), w') →
  ∃ data,
    fs_nodes (w_fs w) !! src = Some (File data)
    ∧ fs_nodes (w_fs w') !! dst = Some (File data)
    ∧ fs_nodes (w_fs w') !! src
      = if move_files config then None else Some (File data).
Proof.
  intros Hwet Hfree Hrun.
  destruct (safe_copy_file_done _ _ _ _ _ Hwet Hrun) as (Hop & _).
  set (probe := PyPath.child (PyPath.parent dst) ".write_test") in *.
  assert (Hfree2 : delete probe (fs_nodes (w_fs w)) !! dst = None).
  { by apply lookup_delete_None; right. }
  destruct (move_files config).
  - apply move_fresh in Hop as (data & Hdata & Hne & ->); [|done].
    simpl in Hdata. apply lookup_delete_Some in Hdata as [_ Hdata].
    exists data. split_and!; [done| |apply lookup_delete_eq].
    by rewrite lookup_delete_ne, lookup_insert_eq.
  - apply copy2_fresh in Hop as (data & Hdata & ->); [|done].
    simpl in Hdata. assert (src ≠ dst) by congruence.
    exists data. split_and!.
    + by apply lookup_delete_Some in Hdata as [_ Hdata].
    + apply lookup_insert_eq.
    + by rewrite lookup_insert_ne.
Qed.

Lemma copy_keeps_move_removes_witness :
  ∃ w',
    safe_copy_file ["src"; "a.jpg"] ["dest"; "a.jpg"]
      (set_move_files Config_default true) (Sample.start 100) = (Done (), w')
    ∧ fs_nodes (w_fs w') !! ["dest"; "a.jpg"] = Some (File "0123456789")
    ∧ fs_nodes (w_fs w') !! ["src"; "a.jpg"] = None.
Proof.
  destruct (safe_copy_file ["src"; "a.jpg"] ["dest"; "a.jpg"]
              (set_move_files Config_default true) (Sample.start 100))
    as [r w'] eqn:Hrun.
  assert (Hr : r = Done ()) by (vm_compute in Hrun; congruence).
  subst r. exists w'. split; [done|].
  destruct (copy_keeps_move_removes ["src"; "a.jpg"] ["dest"; "a.jpg"]
              (set_move_files Config_default true) (Sample.start 100) w'
              eq_refl eq_refl Hrun) as (data & Hsrc & Hdst & Hgone).
  vm_compute in Hsrc. injection Hsrc as <-. done.
Defined.

(** X3.  [safe_copy_file] has no guard of its own against an existing
    destination: a copy onto a path that holds another file, when it
    completes, has replaced the content of that file by the data of the
    source.  (The loop of [group_files] never calls it with such a path.) *)
Theorem copy_replaces_existing_destination (src dst : Path) (config : Config)
    (old : string) (w w' : world) :
  dry_run config = false →
  move_files config = false →
  src ≠ dst →
  fs_nodes (w_fs w) !! dst = Some (File old) →
  safe_copy_file src dst config w = (Done (), w') →
  ∃ data,
    fs_nodes (w_fs w) !! src = Some (File data)
    ∧ fs_nodes (w_fs w') !! dst = Some (File data)
    ∧ fs_nodes (w_fs w') !! src = Some (File data).
Proof.
  intros Hwet Hcopy Hne Hold Hrun.
  destruct (safe_copy_file_done _ _ _ _ _ Hwet Hrun) as (Hop & _).
  rewrite Hcopy in Hop.
  set (probe := PyPath.child (PyPath.parent dst) ".write_test") in *.
  apply copy2_nodes in Hop as (data & Hdata & ->).
  - simpl in Hdata. exists data. split_and!.
    + by apply lookup_delete_Some in Hdata as [_ Hdata].
    + apply lookup_insert_eq.
    + by rewrite lookup_insert_ne.
  - unfold OS.is_dir. simpl.
    destruct (decide (probe = dst)) as [->|Hp].
    + by rewrite lookup_delete_eq.
    + by rewrite lookup_delete_ne, Hold.
Qed.

Lemma copy_replaces_existing_destination_witness :
  ∃ w',
    safe_copy_file ["src"; "a.jpg"] ["src"; "b.jpg"] Config_default
      (Sample.start 100) = (Done (), w')
    ∧ fs_nodes (Sample.fs 100) !! ["src"; "b.jpg"] = Some (File "x")
    ∧ fs_nodes (w_fs w') !! ["src"; "b.jpg"] = Some (File "0123456789").
Proof.
  destruct (safe_copy_file ["src"; "a.jpg"] ["src"; "b.jpg"] Config_default
              (Sample.start 100)) as [r w'] eqn:Hrun.
  assert (Hr : r = Done ()) by (vm_compute in Hrun; congruence).
  subst r. exists w'. split; [done|]. split; [vm_compute; reflexivity|].
  destruct (copy_replaces_existing_destination ["src"; "a.jpg"]
              ["src"; "b.jpg"] Config_default "x" (Sample.start 100) w'
              eq_refl eq_refl) as (data & Hsrc & Hdst & _).
  - discriminate.
  - vm_compute. reflexivity.
  - exact Hrun.
  - vm_compute in Hsrc. injection Hsrc as <-. done.
Defined.

(** ** What a placement changes *)

Section PlacementFrame.

Variables (config : Config) (dest_path image_file : Path).
Variables (image_date : datetime) (project_name : json).
Hypothesis Hwet : dry_run config = false.

Let date_folder : Path := date_folder_path dest_path image_date project_name.
Let probe : Path := PyPath.child date_folder ".write_test".

(** The stages of a placement: the file system after [create_date_folder],
    and after [safe_copy_file]. *)
Lemma place_file_stages (w w' : world) (r : outcome ()) :
  place_file config dest_path image_file image_date project_name w = (r, w') →
  (fs_nodes (w_fs w') = fs_nodes (w_fs w) ∧ ∃ e, r = Raised e)
  ∨ ∃ nodes1 : gmap Path node,
      (nodes1 = fs_nodes (w_fs w)
       ∨ fs_nodes (w_fs w) !! date_folder = None
         ∧ nodes1 = <[date_folder := Dir]> (fs_nodes (w_fs w)))
      ∧ nodes1 !! date_folder = Some Dir
      ∧ (((fs_nodes (w_fs w') = nodes1
           ∨ fs_nodes (w_fs w') = delete probe nodes1) ∧ ∃ e, r = Raised e)
         ∨ ∃ dest_file data,
             r = Done ()
             ∧ PyPath.parent dest_file = date_folder
             ∧ nodes1 !! dest_file = None
             ∧ delete probe nodes1 !! image_file = Some (File data)
             ∧ image_file ≠ dest_file
             ∧ fs_nodes (w_fs w')
               = (if move_files config then delete image_file else id)
                   (<[dest_file := File data]> (delete probe nodes1))).
Proof.
  intros Hrun.
  unfold place_file in Hrun. unfold mbind at 1, M_bind in Hrun.
  rewrite (create_date_folder_wet _ _ _ _ _ Hwet) in Hrun.
  fold date_folder in Hrun.
  destruct (OS.mkdir (w_fs w) date_folder) as [fs1|] eqn:Hmk.
  2:{ injection Hrun as <- <-. left. eauto. }
  right. exists (fs_nodes fs1).
  assert (Hfolder : fs_nodes fs1 !! date_folder = Some Dir).
  { unfold OS.mkdir in Hmk.
    destruct (fs_nodes (w_fs w) !! date_folder) as [[]|] eqn:Hold; [done| |].
    - by injection Hmk as <-.
    - destruct (OS.writable_dir _ _); [|done]. injection Hmk as <-.
      apply lookup_insert_eq. }
  split.
  { apply mkdir_effect in Hmk as [->|[Hnew ->]]; [by left|by right]. }
  split; [done|].
  unfold mbind at 1, M_bind in Hrun.
  match type of Hrun with
  | context [find_dest date_folder image_file ?w1] =>
      destruct (find_dest_spec date_folder image_file w1)
        as (dest_file & Hfind & Hfree & Hwhich)
  end.
  rewrite Hfind in Hrun. cbn [w_fs] in Hfree.
  assert (Hparent : PyPath.parent dest_file = date_folder).
  { destruct Hwhich as [->|(_ & k & _ & -> & _)]; apply parent_child. }
  destruct r as [[]|e|].
  - right. apply safe_copy_file_done in Hrun as (Hop & _); [|done].
    cbn [w_fs] in Hop. rewrite Hparent in Hop. fold probe in Hop.
    assert (Hfree2 : delete probe (fs_nodes fs1) !! dest_file = None).
    { by apply lookup_delete_None; right. }
    destruct (move_files config).
    + apply move_fresh in Hop as (data & Hdata & Hne & Hnodes); [|done].
      exists dest_file, data. by split_and!.
    + apply copy2_fresh in Hop as (data & Hdata & Hnodes); [|done].
      exists dest_file, data. simpl in Hdata.
      split_and!; [done..|congruence|done].
  - left. apply safe_copy_file_raised in Hrun. cbn [w_fs] in Hrun.
    rewrite Hparent in Hrun. fold probe in Hrun. eauto.
  - by apply safe_copy_file_effect in Hrun as [? _].
Qed.

(** An entry that exists stays as it is, unless it is an old probe file of
    the date folder or the source of a move that completes. *)
Lemma place_file_existing (w w' : world) (r : outcome ()) (p : Path)
    (x : node) :
  place_file config dest_path image_file image_date project_name w = (r, w') →
  fs_nodes (w_fs w) !! p = Some x →
  fs_nodes (w_fs w') !! p = Some x
  ∨ (p = probe ∧ fs_nodes (w_fs w') !! p = None)
  ∨ (r = Done () ∧ move_files config = true ∧ p = image_file
     ∧ fs_nodes (w_fs w') !! p = None).
Proof.
  intros Hrun Hp.
  destruct (place_file_stages _ _ _ Hrun)
    as [[-> _]|(nodes1 & Hmk & Hfolder & Hcopy)]; [by left|].
  assert (Hp1 : nodes1 !! p = Some x).
  { destruct Hmk as [->|[Hnew ->]]; [done|].
    rewrite lookup_insert_ne; [done|congruence]. }
  destruct Hcopy as [[[->| ->] _]
    |(dest_file & data & -> & _ & Hfree & Hsrc & Hne & ->)].
  - by left.
  - destruct (decide (probe = p)) as [<-|Hprobe].
    + right. left. split; [done|apply lookup_delete_eq].
    + left. by rewrite lookup_delete_ne.
  - assert (Hpd : dest_file ≠ p) by congruence.
    destruct (decide (probe = p)) as [<-|Hprobe].
    { right. left. split; [done|].
      destruct (move_files config); simpl.
      - destruct (decide (image_file = probe)) as [->|?].
        + apply lookup_delete_eq.
        + by rewrite lookup_delete_ne, lookup_insert_ne, lookup_delete_eq.
      - by rewrite lookup_insert_ne, lookup_delete_eq. }
    destruct (move_files config) eqn:Hmove; simpl.
    + destruct (decide (image_file = p)) as [<-|Hsp].
      * right. right. split_and!; [done..|apply lookup_delete_eq].
      * left. by rewrite lookup_delete_ne, lookup_insert_ne, lookup_delete_ne.
    + left. by rewrite lookup_insert_ne, lookup_delete_ne.
Qed.

(** A path that is free stays free, unless it is the date folder or, in a
    placement that completes, the destination in the date folder. *)
Lemma place_file_new (w w' : world) (r : outcome ()) (p : Path) :
  place_file config dest_path image_file image_date project_name w = (r, w') →
  fs_nodes (w_fs w) !! p = None →
  fs_nodes (w_fs w') !! p = None
  ∨ (p = date_folder ∧ fs_nodes (w_fs w') !! p = Some Dir)
  ∨ (r = Done () ∧ PyPath.parent p = date_folder
     ∧ ∃ data, fs_nodes (w_fs w') !! p = Some (File data)).
Proof.
  intros Hrun Hp.
  destruct (place_file_stages _ _ _ Hrun)
    as [[-> _]|(nodes1 & Hmk & Hfolder & Hcopy)]; [by left|].
  assert (Hprobe : probe ≠ date_folder) by apply child_ne.
  destruct (decide (p = date_folder)) as [->|Hpf].
  { right. left. split; [done|].
    destruct Hcopy as [[[->| ->] _]
      |(dest_file & data & -> & Hparent & Hfree & Hsrc & Hne & ->)].
    - done.
    - by rewrite lookup_delete_ne.
    - assert (dest_file ≠ date_folder) by congruence.
      assert (image_file ≠ date_folder).
      { intros ->. apply lookup_delete_Some in Hsrc as [_ Hsrc]. congruence. }
      destruct (move_files config); simpl.
      + by rewrite lookup_delete_ne, lookup_insert_ne, lookup_delete_ne.
      + by rewrite lookup_insert_ne, lookup_delete_ne. }
  assert (Hp1 : nodes1 !! p = None).
  { destruct Hmk as [->|[Hnew ->]]; [done|]. by rewrite lookup_insert_ne. }
  destruct Hcopy as [[[->| ->] _]
    |(dest_file & data & -> & Hparent & Hfree & Hsrc & Hne & ->)].
  - by left.
  - left. by apply lookup_delete_None; right.
  - destruct (decide (dest_file = p)) as [<-|Hpd].
    + right. right. split_and!; [done..|]. exists data.
      destruct (move_files config); simpl.
      * by rewrite lookup_delete_ne, lookup_insert_eq.
      * apply lookup_insert_eq.
    + left. destruct (move_files config); simpl.
      * apply lookup_delete_None. right. rewrite lookup_insert_ne by done.
        by apply lookup_delete_None; right.
      * rewrite lookup_insert_ne by done. by apply lookup_delete_None; right.
Qed.

(** X9.  A file named [.write_test] that the user keeps in a date folder
    is lost in every placement into that folder that completes: the probe
    of the directory removes it. *)
Theorem place_file_probe_gone (w w' : world) (old : string) :
  place_file config dest_path image_file image_date project_name w
    = (Done (), w') →
  fs_nodes (w_fs w) !! probe = Some (File old) →
  fs_nodes (w_fs w') !! probe = None.
Proof.
  intros Hrun Hold.
  destruct (place_file_stages _ _ _ Hrun)
    as [[_ [e ?]]|(nodes1 & Hmk & Hfolder & Hcopy)]; [done|].
  assert (Hp1 : nodes1 !! probe = Some (File old)).
  { destruct Hmk as [->|[Hnew ->]]; [done|].
    rewrite lookup_insert_ne; [done|]. symmetry. apply child_ne. }
  destruct Hcopy as [[_ [e ?]]
    |(dest_file & data & _ & _ & Hfree & Hsrc & Hne & ->)]; [done|].
  assert (dest_file ≠ probe) by congruence.
  destruct (move_files config); simpl.
  - apply lookup_delete_None. right.
    by rewrite lookup_insert_ne, lookup_delete_eq.
  - by rewrite lookup_insert_ne, lookup_delete_eq.
Qed.

End PlacementFrame.

Lemma place_file_probe_gone_witness :
  fs_nodes (w_fs world_with_probe)
    !! ["dest"; "20230501_Wedding"; ".write_test"] = Some (File "mine")
  ∧ ∃ w',
      place_file Config_default ["dest"] ["src"; "a.jpg"] Sample.may1
        (JStr "Wedding") world_with_probe = (Done (), w')
      ∧ fs_nodes (w_fs w') !! ["dest"; "20230501_Wedding"; ".write_test"]
        = None.
Proof.
  split; [vm_compute; reflexivity|].
  destruct (place_file Config_default ["dest"] ["src"; "a.jpg"] Sample.may1
              (JStr "Wedding") world_with_probe) as [r w'] eqn:Hrun.
  assert (Hr : r = Done ()) by (vm_compute in Hrun; congruence).
  subst r. exists w'. split; [done|].
  apply (place_file_probe_gone Config_default ["dest"] ["src"; "a.jpg"]
           Sample.may1 (JStr "Wedding") eq_refl world_with_probe w' "mine" Hrun).
  vm_compute. reflexivity.
Defined.

(** ** The name of the date folder *)

Lemma string_app_nil_r (s : string) : s +:+ "" = s.
Proof.
  induction s as [|c s IH]; [done|].
  change (String c s +:+ "") with (String c (s +:+ "")). by rewrite IH.
Qed.

Lemma string_rev_app_rev_app (s t u : string) :
  String.rev_app (String.rev_app s t) u = String.rev_app t (s +:+ u).
Proof.
  revert t u. induction s as [|c s IH]; intros t u; [done|].
  simpl. by rewrite IH.
Qed.

Lemma string_rev_involutive (s : string) : String.rev (String.rev s) = s.
Proof.
  unfold String.rev. rewrite string_rev_app_rev_app. simpl.
  apply string_app_nil_r.
Qed.

Lemma no_separator_app (a b : string) :
  no_separator (a +:+ b) = no_separator a && no_separator b.
Proof.
  induction a as [|c a IH]; [done|].
  change (String c a +:+ b) with (String c (a +:+ b)). simpl.
  rewrite IH. by destruct (negb _).
Qed.

Lemma no_separator_pretty_N_go (x : N) (s : string) :
  no_separator s = true → no_separator (pretty_N_go x s) = true.
Proof.
  revert s. induction (N.lt_wf_0 x) as [x _ IH]; intros s Hs.
  assert (x = 0 ∨ 0 < x)%N as [->|?] by lia.
  - by rewrite pretty_N_go_0.
  - rewrite pretty_N_go_step by done. apply IH.
    { by apply N.div_lt. }
    simpl. rewrite Hs. unfold pretty_N_char. by repeat case_match.
Qed.

Lemma no_separator_pretty_N (x : N) : no_separator (pretty x) = true.
Proof.
  unfold pretty, pretty_N. case_decide; [done|].
  by apply no_separator_pretty_N_go.
Qed.

Lemma no_separator_zeros (n : nat) : no_separator (zeros n) = true.
Proof. induction n as [|n IH]; [done|]. simpl. by rewrite IH. Qed.

Lemma no_separator_strftime (d : datetime) :
  no_separator (strftime_Ymd d) = true.
Proof.
  unfold strftime_Ymd, zpad.
  by rewrite !no_separator_app, !no_separator_zeros, !no_separator_pretty_N.
Qed.

Lemma parts_go_no_separator (cur s : string) :
  no_separator s = true →
  PyPath.parts_go cur s
  = let c := String.rev (String.rev_app s cur) in
    if String.eqb c "" || String.eqb c "." then [] else [c].
Proof.
  revert cur. induction s as [|a s IH]; intros cur Hs; [done|].
  simpl in Hs. apply andb_true_iff in Hs as [Ha Hs].
  simpl. destruct (Ascii.eqb a "/"); [done|]. by apply IH.
Qed.

(** A string without separator, neither empty nor a single dot, is one
    component. *)
Lemma parts_single (s : string) :
  no_separator s = true → s ≠ "" → s ≠ "." → PyPath.parts s = [s].
Proof.
  intros Hs Hempty Hdot. unfold PyPath.parts.
  rewrite parts_go_no_separator by done. cbv zeta.
  change (String.rev_app s "") with (String.rev s).
  rewrite string_rev_involutive.
  apply String.eqb_neq in Hempty, Hdot. by rewrite Hempty, Hdot.
Qed.

Lemma folder_name_single (date : datetime) (label : string) :
  no_separator label = true →
  PyPath.parts (strftime_Ymd date +:+ "_" +:+ label)
  = [strftime_Ymd date +:+ "_" +:+ label].
Proof.
  intros Hlabel. apply parts_single.
  - by rewrite !no_separator_app, no_separator_strftime, Hlabel.
  - destruct (strftime_Ymd date); done.
  - destruct (strftime_Ymd date) as [|c [|c' s]]; [done| |done].
    change (String c "" +:+ "_" +:+ label)
      with (String c (String "_" label)). done.
Qed.

Lemma plain_label_folder (base_dir : Path) (date : datetime)
    (project_name : json) :
  no_separator (json_str project_name) = true →
  date_folder_path base_dir date project_name
  = PyPath.child base_dir
      (strftime_Ymd date +:+ "_" +:+ json_str project_name).
Proof.
  intros Hlabel. unfold date_folder_path, PyPath.div.
  by rewrite folder_name_single.
Qed.

Lemma plain_label_parent (base_dir : Path) (date : datetime)
    (project_name : json) :
  no_separator (json_str project_name) = true →
  PyPath.parent (date_folder_path base_dir date project_name) = base_dir.
Proof.
  intros Hlabel. rewrite plain_label_folder by done. apply parent_child.
Qed.

(** X4.  For a label that holds no path separator, the date folder is the
    child [{DateKey}_{label}] of the destination root, and a placed file is
    named [{DateKey}_{label}_{original name}], or with [_k] before the
    extension when numbered. *)
Theorem plain_label_naming (base_dir image_file : Path) (date : datetime)
    (project_name : json) (counter : nat) :
  no_separator (json_str project_name) = true →
  let folder_name := strftime_Ymd (replace_midnight date) +:+ "_"
                     +:+ json_str project_name in
  let date_folder := date_folder_path base_dir date project_name in
  date_folder = PyPath.child base_dir folder_name
  ∧ PyPath.name date_folder = folder_name
  ∧ PyPath.parent date_folder = base_dir
  ∧ new_filename date_folder image_file
    = folder_name +:+ "_" +:+ PyPath.name image_file
  ∧ numbered_filename date_folder image_file counter
    = folder_name +:+ "_" +:+ PyPath.stem image_file +:+ "_"
      +:+ pretty counter +:+ PyPath.suffix image_file.
Proof.
  intros Hlabel folder_name date_folder.
  assert (Hfolder : date_folder = PyPath.child base_dir folder_name).
  { unfold date_folder, date_folder_path, PyPath.div.
    by rewrite folder_name_single. }
  assert (Hname : PyPath.name date_folder = folder_name).
  { rewrite Hfolder. apply last_last. }
  split_and!; [done..| | |].
  - rewrite Hfolder. apply parent_child.
  - unfold new_filename. by rewrite Hname.
  - unfold numbered_filename. by rewrite Hname.
Qed.

Lemma plain_label_naming_witness :
  date_folder_path ["dest"] Sample.may1 (JStr "Wedding")
    = ["dest"; "20230501_Wedding"]
  ∧ new_filename (date_folder_path ["dest"] Sample.may1 (JStr "Wedding"))
      ["src"; "a.jpg"] = "20230501_Wedding_a.jpg".
Proof.
  destruct (plain_label_naming ["dest"] ["src"; "a.jpg"] Sample.may1
              (JStr "Wedding") 1 eq_refl) as (Hfolder & _ & _ & Hnew & _).
  split.
  - rewrite Hfolder. vm_compute. reflexivity.
  - rewrite Hnew. vm_compute. reflexivity.
Defined.

(** ** [create_date_folder] *)

(** X5.  A call of [create_date_folder] that completes leaves the date
    folder in place as a directory and every other entry as it was; a second
    call with the same arguments returns the same path and changes nothing in
    the file system. *)
Theorem create_date_folder_idempotent (base_dir : Path) (date : datetime)
    (project_name : json) (config : Config) (w w1 : world) (folder : Path) :
  dry_run config = false →
  create_date_folder base_dir date project_name config w = (Done folder, w1) →
  folder = date_folder_path base_dir date project_name
  ∧ fs_nodes (w_fs w1) !! folder = Some Dir
  ∧ (∀ p, p ≠ folder → fs_nodes (w_fs w1) !! p = fs_nodes (w_fs w) !! p)
  ∧ ∃ w2, create_date_folder base_dir date project_name config w1
          = (Done folder, w2)
          ∧ w_fs w2 = w_fs w1.
Proof.
  intros Hwet Hrun.
  rewrite (create_date_folder_wet _ _ _ _ _ Hwet) in Hrun. cbv zeta in Hrun.
  destruct (OS.mkdir (w_fs w) _) as [fs1|] eqn:Hmk; [|done].
  injection Hrun as <- <-. cbn [w_fs].
  assert (Hdir : fs_nodes fs1 !! date_folder_path base_dir date project_name
                 = Some Dir).
  { unfold OS.mkdir in Hmk.
    destruct (fs_nodes (w_fs w) !! _) as [[]|] eqn:Hold; [done| |].
    - by injection Hmk as <-.
    - destruct (OS.writable_dir _ _); [|done]. injection Hmk as <-.
      apply lookup_insert_eq. }
  split_and!; [done..| |].
  - intros p Hp. apply mkdir_effect in Hmk as [->|[_ ->]]; [done|].
    simpl. by rewrite lookup_insert_ne.
  - rewrite (create_date_folder_wet _ _ _ _ _ Hwet). cbv zeta. cbn [w_fs].
    unfold OS.mkdir. rewrite Hdir. eauto.
Qed.

Lemma create_date_folder_idempotent_witness :
  ∃ w1 w2,
    create_date_folder ["dest"] Sample.may1 (JStr "Wedding") Config_default
      (Sample.start 100) = (Done ["dest"; "20230501_Wedding"], w1)
    ∧ create_date_folder ["dest"] Sample.may1 (JStr "Wedding") Config_default
        w1 = (Done ["dest"; "20230501_Wedding"], w2)
    ∧ w_fs w2 = w_fs w1.
Proof.
  destruct (create_date_folder ["dest"] Sample.may1 (JStr "Wedding")
              Config_default (Sample.start 100)) as [r w1] eqn:Hrun.
  assert (Hr : r = Done ["dest"; "20230501_Wedding"])
    by (vm_compute in Hrun; congruence).
  subst r.
  destruct (create_date_folder_idempotent ["dest"] Sample.may1 (JStr "Wedding")
              Config_default (Sample.start 100) w1
              ["dest"; "20230501_Wedding"] eq_refl Hrun)
    as (_ & _ & _ & w2 & Hagain & Hsame).
  by exists w1, w2.
Defined.

(** X6.  [create_date_folder] does not make the destination root: when the
    root is no directory and the label holds no separator, the call logs the
    error and raises, and the file system is as before.  A run of the group
    operation ends there, at the first file with a label. *)
Theorem destination_root_must_exist (config : Config)
    (project_names : gmap string json) (dest_path : Path)
    (item : Path * datetime) (rest : list (Path * datetime))
    (project_name : json) (w : world) :
  dry_run config = false →
  project_names !! date_key item = Some project_name →
  json_truthy project_name = true →
  no_separator (json_str project_name) = true →
  OS.is_dir (w_fs w) dest_path = false →
  fs_nodes (w_fs w) !! date_folder_path dest_path item.2 project_name = None →
  ∃ msg line,
    group_loop config project_names dest_path (item :: rest) w
    = (Raised (OSError msg),
       {| w_fs := w_fs w; w_log := w_log w ++ [LogError line] |}).
Proof.
  intros Hwet Hentry Htruthy Hlabel Hroot Hfree.
  simpl. unfold mbind at 1, M_bind. unfold group_step.
  fold (date_key item). rewrite Hentry, Htruthy. cbn [negb].
  unfold place_file. unfold mbind at 1, M_bind.
  rewrite (create_date_folder_wet _ _ _ _ _ Hwet). cbv zeta.
  unfold OS.mkdir. rewrite Hfree.
  rewrite (plain_label_parent dest_path item.2 project_name Hlabel).
  unfold OS.writable_dir. rewrite Hroot. simpl. eauto.
Qed.

Lemma destination_root_must_exist_witness :
  ∃ msg line,
    group_loop Config_default Sample.wedding ["nowhere"] Sample.items
      (Sample.start 100)
    = (Raised (OSError msg),
       {| w_fs := Sample.fs 100; w_log := [LogError line] |}).
Proof.
  apply (destination_root_must_exist Config_default Sample.wedding ["nowhere"]
           (["src"; "a.jpg"], Sample.may1) [(["src"; "b.jpg"], Sample.may1)]
           (JStr "Wedding") (Sample.start 100));
    vm_compute; reflexivity.
Defined.

(** ** What a run of the group operation changes *)

Lemma name_child (p : Path) (s : string) : PyPath.name (PyPath.child p s) = s.
Proof. apply last_last. Qed.

Lemma dict_set_elem {K V : Type} `{EqDecision K} (k q : K) (v d : V)
    (acc : list (K * V)) :
  (q, d) ∈ dict_set k v acc → (q = k ∧ d = v) ∨ (q, d) ∈ acc.
Proof.
  induction acc as [|[k' v'] acc IH]; simpl.
  - intros [[= -> ->]|Hin%elem_of_nil]%elem_of_cons; [by left|done].
  - destruct (decide (k = k')) as [->|Hne].
    + intros [[= -> ->]|Hin]%elem_of_cons; [by left|].
      right. by right.
    + intros [[= -> ->]|Hin]%elem_of_cons; [right; by left|].
      destruct (IH Hin) as [?|?]; [by left|]. right. by right.
Qed.

(** Every pair that the second loop of [group_files] visits is the path of
    a discovered file with the date that the resolver gave for it. *)
Lemma file_dates_elem (parse : string → parse_result)
    (TAGS : Z → option string) (now : datetime) (image_files : list MediaFile)
    (q : Path) (d : datetime) :
  (q, d) ∈ file_dates parse TAGS now image_files →
  ∃ f, f ∈ image_files ∧ mf_path f = q
       ∧ get_image_date parse TAGS now f = Returns d.
Proof.
  unfold file_dates.
  cut (∀ acc,
    (q, d) ∈ foldl (λ file_date_mapping image_file,
                      match get_image_date parse TAGS now image_file with
                      | Returns image_date =>
                          dict_set (mf_path image_file) image_date
                            file_date_mapping
                      | Raises => file_date_mapping
                      end) acc image_files →
    (q, d) ∈ acc
    ∨ ∃ f, f ∈ image_files ∧ mf_path f = q
           ∧ get_image_date parse TAGS now f = Returns d).
  { intros Hcut Hin. destruct (Hcut [] Hin) as [Hnil|?]; [|done].
    by apply elem_of_nil in Hnil. }
  induction image_files as [|f files IH]; intros acc; simpl; [by left|].
  intros Hin. apply IH in Hin as [Hin|(f' & Hf' & ? & ?)].
  - destruct (get_image_date parse TAGS now f) as [d'|] eqn:Hdate; [|by left].
    apply dict_set_elem in Hin as [[-> ->]|?]; [|by left].
    right. exists f. split_and!; [by left|done..].
  - right. exists f'. split_and!; [by right|done..].
Qed.

Section RunFrame.

Variables (config : Config) (project_names : gmap string json).
Variable dest_path : Path.
Hypothesis Hwet : dry_run config = false.

Lemma group_step_existing (item : Path * datetime) (w w' : world)
    (r : outcome ()) (p : Path) (x : node) :
  group_step config project_names dest_path item w = (r, w') →
  fs_nodes (w_fs w) !! p = Some x →
  PyPath.name p ≠ ".write_test" →
  (move_files config = true → p ≠ item.1) →
  fs_nodes (w_fs w') !! p = Some x.
Proof.
  intros Hstep Hp Hname Hsrc. unfold group_step in Hstep.
  destruct (project_names !! _) as [project_name|];
    [|by injection Hstep as <- <-].
  destruct (json_truthy project_name); cbn [negb] in Hstep;
    [|by injection Hstep as <- <-].
  destruct (place_file_existing _ _ _ _ _ Hwet _ _ _ _ _ Hstep Hp)
    as [?|[[-> _]|(_ & Hmove & -> & _)]]; [done| |].
  - by rewrite name_child in Hname.
  - by destruct (Hsrc Hmove).
Qed.

Lemma group_loop_existing (items : list (Path * datetime)) (w w' : world)
    (r : outcome ()) (p : Path) (x : node) :
  group_loop config project_names dest_path items w = (r, w') →
  fs_nodes (w_fs w) !! p = Some x →
  PyPath.name p ≠ ".write_test" →
  (move_files config = true → p ∉ items.*1) →
  fs_nodes (w_fs w') !! p = Some x.
Proof.
  revert w. induction items as [|item rest IH]; intros w; simpl.
  - by intros [= <- <-].
  - unfold mbind, M_bind. intros Hrun Hp Hname Hsrc.
    destruct (group_step config project_names dest_path item w)
      as [r1 w1] eqn:Hstep.
    assert (Hp1 : fs_nodes (w_fs w1) !! p = Some x).
    { eapply group_step_existing; [done..|].
      intros Hmove ->. apply (Hsrc Hmove). by left. }
    destruct r1 as [[]|e|]; [|by injection Hrun as <- <-..].
    eapply IH; [done..|]. intros Hmove Hin. apply (Hsrc Hmove). by right.
Qed.

Lemma group_loop_new (items : list (Path * datetime)) (w w' : world)
    (r : outcome ()) (p : Path) :
  group_loop config project_names dest_path items w = (r, w') →
  fs_nodes (w_fs w) !! p = None →
  is_Some (fs_nodes (w_fs w') !! p) →
  ∃ item project_name,
    item ∈ items
    ∧ project_names !! date_key item = Some project_name
    ∧ json_truthy project_name = true
    ∧ (p = date_folder_path dest_path item.2 project_name
       ∨ PyPath.parent p = date_folder_path dest_path item.2 project_name).
Proof.
  revert w. induction items as [|item rest IH]; intros w; simpl.
  - intros [= <- <-] Hp [x Hx]. congruence.
  - unfold mbind, M_bind. intros Hrun Hp Hnew.
    destruct (group_step config project_names dest_path item w)
      as [r1 w1] eqn:Hstep.
    assert (Hstep1 :
      fs_nodes (w_fs w1) !! p = None
      ∨ ∃ project_name,
          project_names !! date_key item = Some project_name
          ∧ json_truthy project_name = true
          ∧ (p = date_folder_path dest_path item.2 project_name
             ∨ PyPath.parent p
               = date_folder_path dest_path item.2 project_name)).
    { unfold group_step in Hstep. fold (date_key item) in Hstep.
      destruct (project_names !! date_key item) as [project_name|];
        [|injection Hstep as <- <-; by left].
      destruct (json_truthy project_name) eqn:Htruthy; cbn [negb] in Hstep;
        [|injection Hstep as <- <-; by left].
      destruct (place_file_new _ _ _ _ _ Hwet _ _ _ _ Hstep Hp)
        as [?|[[-> _]|(_ & Hparent & _)]]; [by left|right..]; eauto. }
    destruct Hstep1 as [Hp1|(project_name & ? & ? & ?)].
    2:{ exists item, project_name. split_and!; [by left|done..]. }
    destruct r1 as [[]|e|].
    + destruct (IH _ Hrun Hp1 Hnew) as (item' & l & ? & ? & ? & ?).
      exists item', l. split_and!; [by right|done..].
    + injection Hrun as <- <-. destruct Hnew as [x Hx]. congruence.
    + injection Hrun as <- <-. destruct Hnew as [x Hx]. congruence.
Qed.

End RunFrame.

(** X7.  A run of the group operation, however it ends, leaves every entry
    of the file system as it was, directories and files alike, except old
    files named [.write_test] and, when moving, the discovered files: a copy
    run never changes or removes a source file. *)
Theorem group_keeps_entries
    (parse : string → parse_result) (TAGS : Z → option string) (now : datetime)
    (image_files : list MediaFile) (destination_folder : Path) (move : bool)
    (project_names : gmap string json) (w w' : world) (r : outcome ())
    (p : Path) (x : node) :
  group_files parse TAGS now image_files destination_folder move project_names w
    = (r, w') →
  fs_nodes (w_fs w) !! p = Some x →
  PyPath.name p ≠ ".write_test" →
  (move = true → p ∉ mf_path <$> image_files) →
  fs_nodes (w_fs w') !! p = Some x.
Proof.
  intros Hrun Hp Hname Hsrc. unfold group_files in Hrun.
  unfold mbind, M_bind in Hrun.
  destruct (group_loop _ _ _ _ _) as [r1 w1] eqn:Hloop.
  assert (Hp1 : fs_nodes (w_fs w1) !! p = Some x).
  { eapply (group_loop_existing (set_move_files Config_default move)
              project_names destination_folder eq_refl); [done..|].
    intros Hmove Hin. apply (Hsrc Hmove).
    apply list_elem_of_fmap in Hin as ([q d] & -> & Hin).
    apply file_dates_elem in Hin as (f & Hf & <- & _).
    apply list_elem_of_fmap. eauto. }
  destruct r1 as [[]|e|]; [|by injection Hrun as <- <-..].
  unfold click_echo, emit in Hrun. by injection Hrun as <- <-.
Qed.

Lemma group_keeps_entries_witness :
  ∃ w',
    group_files Sample.parse Sample.TAGS Sample.now Sample.photos ["dest"]
      false Sample.wedding (Sample.start 100) = (Done (), w')
    ∧ fs_nodes (w_fs w') !! ["src"; "b.jpg"] = Some (File "x").
Proof.
  destruct (group_files Sample.parse Sample.TAGS Sample.now Sample.photos
              ["dest"] false Sample.wedding (Sample.start 100))
    as [r w'] eqn:Hrun.
  assert (Hr : r = Done ()) by (vm_compute in Hrun; congruence).
  exists w'. split; [by rewrite Hr|].
  apply (group_keeps_entries Sample.parse Sample.TAGS Sample.now Sample.photos
           ["dest"] false Sample.wedding (Sample.start 100) w' r
           ["src"; "b.jpg"] (File "x") Hrun).
  - vm_compute. reflexivity.
  - vm_compute. discriminate.
  - discriminate.
Defined.

(** X8.  Whatever a run of the group operation adds to the file system is a
    date folder of a discovered file that has a label, or lies directly in
    such a folder: nothing is created anywhere else. *)
Theorem group_creates_only_in_date_folders
    (parse : string → parse_result) (TAGS : Z → option string) (now : datetime)
    (image_files : list MediaFile) (destination_folder : Path) (move : bool)
    (project_names : gmap string json) (w w' : world) (r : outcome ())
    (p : Path) :
  group_files parse TAGS now image_files destination_folder move project_names w
    = (r, w') →
  fs_nodes (w_fs w) !! p = None →
  is_Some (fs_nodes (w_fs w') !! p) →
  ∃ f image_date project_name,
    f ∈ image_files
    ∧ get_image_date parse TAGS now f = Returns image_date
    ∧ project_names !! strftime_Ymd (replace_midnight image_date)
      = Some project_name
    ∧ json_truthy project_name = true
    ∧ (p = date_folder_path destination_folder image_date project_name
       ∨ PyPath.parent p
         = date_folder_path destination_folder image_date project_name).
Proof.
  intros Hrun Hp Hnew. unfold group_files in Hrun.
  unfold mbind, M_bind in Hrun.
  destruct (group_loop _ _ _ _ _) as [r1 w1] eqn:Hloop.
  assert (Hnew1 : is_Some (fs_nodes (w_fs w1) !! p)).
  { destruct r1 as [[]|e|]; [|by injection Hrun as <- <-..].
    unfold click_echo, emit in Hrun. by injection Hrun as <- <-. }
  destruct (group_loop_new (set_move_files Config_default move) project_names
              destination_folder eq_refl _ _ _ _ _ Hloop Hp Hnew1)
    as ([q d] & project_name & Hin & Hentry & Htruthy & Hwhere).
  apply file_dates_elem in Hin as (f & Hf & _ & Hdate).
  exists f, d, project_name. by split_and!.
Qed.

Lemma group_creates_only_in_date_folders_witness :
  ∃ w',
    group_files Sample.parse Sample.TAGS Sample.now Sample.photos ["dest"]
      false Sample.wedding (Sample.start 100) = (Done (), w')
    ∧ ∃ f image_date project_name,
        f ∈ Sample.photos
        ∧ get_image_date Sample.parse Sample.TAGS Sample.now f
          = Returns image_date
        ∧ Sample.wedding !! strftime_Ymd (replace_midnight image_date)
          = Some project_name
        ∧ json_truthy project_name = true
        ∧ (["dest"; "20230501_Wedding"; "20230501_Wedding_a.jpg"]
           = date_folder_path ["dest"] image_date project_name
           ∨ PyPath.parent
               ["dest"; "20230501_Wedding"; "20230501_Wedding_a.jpg"]
             = date_folder_path ["dest"] image_date project_name).
Proof.
  destruct (group_files Sample.parse Sample.TAGS Sample.now Sample.photos
              ["dest"] false Sample.wedding (Sample.start 100))
    as [r w'] eqn:Hrun.
  assert (Hr : r = Done ()) by (vm_compute in Hrun; congruence).
  exists w'. split; [by rewrite Hr|].
  apply (group_creates_only_in_date_folders Sample.parse Sample.TAGS
           Sample.now Sample.photos ["dest"] false Sample.wedding
           (Sample.start 100) w' r
           ["dest"; "20230501_Wedding"; "20230501_Wedding_a.jpg"] Hrun).
  - vm_compute. reflexivity.
  - vm_compute in Hrun. injection Hrun as _ <-. vm_compute. eauto.
Defined.

(** ** The date resolver, whatever the parser raises *)

Section ResolverMore.

Variable parse : string → parse_result.
Variable TAGS : Z → option string.

(** The EXIF loop for any parser: it returns a date exactly when some field
    parses and every field before it is absent, unusable or rejected with
    a [ValueError] or [TypeError]; a field on which the parser raises
    anything else ends the loop without a date. *)
Lemma exif_fields_loop_decides (exif_tags : gmap (string + Z) exif_value)
    (fields : list string) (d : datetime) :
  exif_fields_loop parse exif_tags fields = Some d ↔
  ∃ (i : nat) (field : string),
    fields !! i = Some field ∧
    exif_field_date parse exif_tags field = Some (Parsed d) ∧
    ∀ (j : nat) (g : string),
      (j < i)%nat → fields !! j = Some g →
      exif_field_date parse exif_tags g = None ∨
      exif_field_date parse exif_tags g = Some ParseValueError.
Proof.
  induction fields as [|field rest IH]; simpl.
  - split; [done|]. intros (i & g & Hi & _). by destruct i.
  - assert (Hskip : ∀ o : option parse_result,
      exif_field_date parse exif_tags field = o →
      o = None ∨ o = Some ParseValueError →
      (exif_fields_loop parse exif_tags rest = Some d ↔
       ∃ (i : nat) (field0 : string),
         (field :: rest) !! i = Some field0 ∧
         exif_field_date parse exif_tags field0 = Some (Parsed d) ∧
         ∀ (j : nat) (g : string),
           (j < i)%nat → (field :: rest) !! j = Some g →
           exif_field_date parse exif_tags g = None ∨
           exif_field_date parse exif_tags g = Some ParseValueError)).
    { intros o Ho Ho'. rewrite IH. split.
      - intros (i & g & Hi & Hg & Hbefore). exists (S i), g.
        split_and!; [done..|].
        intros [|j] g' Hj Hg'; simpl in Hg'.
        + injection Hg' as <-. rewrite Ho. done.
        + apply (Hbefore j); [lia|done].
      - intros (i & g & Hi & Hg & Hbefore). destruct i as [|i].
        + simpl in Hi. injection Hi as <-. rewrite Ho in Hg.
          destruct Ho'; congruence.
        + exists i, g. split_and!; [done..|].
          intros j g' Hj Hg'. apply (Hbefore (S j)); [lia|done]. }
    assert (Hstop : ∀ r : parse_result,
      exif_field_date parse exif_tags field = Some r →
      r ≠ ParseValueError →
      ((match r with Parsed d' => Some d' | _ => None end) = Some d ↔
       ∃ (i : nat) (field0 : string),
         (field :: rest) !! i = Some field0 ∧
         exif_field_date parse exif_tags field0 = Some (Parsed d) ∧
         ∀ (j : nat) (g : string),
           (j < i)%nat → (field :: rest) !! j = Some g →
           exif_field_date parse exif_tags g = None ∨
           exif_field_date parse exif_tags g = Some ParseValueError)).
    { intros r Hr Hne. split.
      - destruct r as [d'| |]; [|done..]. intros [= ->].
        exists 0%nat, field. split_and!; [done..|intros; lia].
      - intros (i & g & Hi & Hg & Hbefore). destruct i as [|i].
        + simpl in Hi. injection Hi as <-. rewrite Hr in Hg.
          by injection Hg as ->.
        + destruct (Hbefore 0%nat field) as [Hn|Hn]; [lia|done|..];
            rewrite Hr in Hn; [done|congruence]. }
    unfold exif_field_date in Hskip, Hstop.
    destruct (exif_tags !! inl field) as [value|].
    2:{ apply (Hskip None); auto. }
    destruct (exif_usable value).
    2:{ apply (Hskip None); auto. }
    destruct (parse (exif_date_str value)) as [d'| |] eqn:Hp.
    + apply (Hstop (Parsed d')); [by rewrite <-Hp|done].
    + apply (Hskip (Some ParseValueError)); auto.
    + apply (Hstop ParseOtherError); [by rewrite <-Hp|done].
Qed.

(** X10.  The date that [get_exif_date] returns, for any parser and any
    image: the EXIF data can be read, and the date is the parsed value of
    a field of the order original capture, digitization, modification such
    that every field before it is absent, unusable (falsy or blank) or
    rejected by the parser with a [ValueError] or [TypeError].  In
    particular no date is returned when the field that stops the loop
    raised another exception, when the EXIF data is empty and when it
    cannot be read. *)
Theorem exif_date_is_first_parsed_field (img : image) (d : datetime) :
  get_exif_date parse TAGS img = Some d ↔
  ∃ (items : list (Z * exif_value)) (i : nat) (field : string),
    getexif img = Some items ∧
    date_fields !! i = Some field ∧
    exif_field_date parse (exif_tags_of TAGS items) field = Some (Parsed d) ∧
    ∀ (j : nat) (g : string),
      (j < i)%nat → date_fields !! j = Some g →
      exif_field_date parse (exif_tags_of TAGS items) g = None ∨
      exif_field_date parse (exif_tags_of TAGS items) g
        = Some ParseValueError.
Proof.
  unfold get_exif_date. destruct (getexif img) as [items|].
  2:{ split; [done|]. by intros (? & ? & ? & ? & _). }
  destruct items as [|item items].
  - split; [done|]. intros (items & i & field & [= <-] & _ & Hfield & _).
    unfold exif_field_date, exif_tags_of in Hfield. simpl in Hfield.
    by rewrite lookup_empty in Hfield.
  - rewrite exif_fields_loop_decides. split.
    + intros (i & field & ?). by exists (item :: items), i, field.
    + intros (items' & i & field & [= <-] & ?). by exists i, field.
Qed.

(** The loop over the tracks is the search for the first general track
    whose fields yield a date. *)
Lemma video_tracks_loop_first (tracks : list track) (d : datetime) :
  video_tracks_loop parse tracks = Some d ↔
  ∃ (i : nat) (t : track),
    tracks !! i = Some t ∧ track_type t = "General" ∧
    video_fields_loop parse t video_fields = Some d ∧
    ∀ (j : nat) (t' : track),
      (j < i)%nat → tracks !! j = Some t' →
      track_type t' ≠ "General" ∨
      video_fields_loop parse t' video_fields = None.
Proof.
  induction tracks as [|t rest IH].
  - simpl. split; [done|]. intros (i & t & Hi & _). by destruct i.
  - cbn [video_tracks_loop].
    assert (Hskip :
      track_type t ≠ "General" ∨
      video_fields_loop parse t video_fields = None →
      (video_tracks_loop parse rest = Some d ↔
       ∃ (i : nat) (t0 : track),
         (t :: rest) !! i = Some t0 ∧ track_type t0 = "General" ∧
         video_fields_loop parse t0 video_fields = Some d ∧
         ∀ (j : nat) (t' : track),
           (j < i)%nat → (t :: rest) !! j = Some t' →
           track_type t' ≠ "General" ∨
           video_fields_loop parse t' video_fields = None)).
    { intros Ht. rewrite IH. split.
      - intros (i & t0 & Hi & Hty & Hd & Hbefore). exists (S i), t0.
        split_and!; [done..|].
        intros [|j] t' Hj Ht'; simpl in Ht'.
        + by injection Ht' as <-.
        + apply (Hbefore j); [lia|done].
      - intros (i & t0 & Hi & Hty & Hd & Hbefore). destruct i as [|i].
        + simpl in Hi. injection Hi as <-. destruct Ht; congruence.
        + exists i, t0. split_and!; [done..|].
          intros j t' Hj Ht'. apply (Hbefore (S j)); [lia|done]. }
    destruct (String.eqb (track_type t) "General") eqn:Hty.
    2:{ apply Hskip. left. by apply String.eqb_neq. }
    apply String.eqb_eq in Hty.
    destruct (video_fields_loop parse t video_fields) as [d'|] eqn:Hd.
    2:{ apply Hskip. by right. }
    split.
    + intros [= ->]. exists 0%nat, t. split_and!; [done..|intros; lia].
    + intros (i & t0 & Hi & Hty0 & Hd0 & Hbefore). destruct i as [|i].
      * simpl in Hi. injection Hi as <-. congruence.
      * destruct (Hbefore 0%nat t) as [?|?]; [lia|done|done|congruence].
Qed.

(** X11.  A video file may hold several general tracks: the date of the
    video branch is the date of the first general track, in the order of
    the container, whose fields yield one; tracks of another type are
    never consulted, and a general track without a usable date passes the
    turn to the next one.  No date results when the container cannot be
    parsed. *)
Theorem video_date_is_first_dated_general_track (f : MediaFile)
    (d : datetime) :
  video_date parse f = Some d ↔
  ∃ (tracks : list track) (i : nat) (t : track),
    mf_video f = Some tracks ∧
    tracks !! i = Some t ∧ track_type t = "General" ∧
    video_fields_loop parse t video_fields = Some d ∧
    ∀ (j : nat) (t' : track),
      (j < i)%nat → tracks !! j = Some t' →
      track_type t' ≠ "General" ∨
      video_fields_loop parse t' video_fields = None.
Proof.
  unfold video_date. destruct (mf_video f) as [tracks|].
  - rewrite video_tracks_loop_first. split.
    + intros (i & t & ?). by exists tracks, i, t.
    + intros (tracks' & i & t & [= <-] & ?). by exists i, t.
  - split; [done|]. by intros (? & ? & ? & ? & _).
Qed.

End ResolverMore.

(** ** The lines that the prompt consumes *)

(** The prompt fails exactly when no line of the input is acceptable. *)
Lemma prompt_loop_None (config : Config) (input : list string) :
  prompt_loop config input = None →
  List.filter (valid_project_name config) input = [].
Proof.
  induction input as [|line input IH]; simpl; [done|].
  unfold valid_project_name at 1.
  destruct (Nat.ltb _ _); cbn [negb andb]; [done|].
  by destruct (PyStr.truthy (PyStr.strip line)).
Qed.

(** The prompt returns the first acceptable line and leaves the lines after
    it. *)
Lemma prompt_loop_Some (config : Config) (input rest : list string)
    (project_name : string) :
  prompt_loop config input = Some (project_name, rest) →
  List.filter (valid_project_name config) input
    = project_name :: List.filter (valid_project_name config) rest.
Proof.
  induction input as [|line input IH]; simpl; [done|].
  unfold valid_project_name at 1.
  destruct (Nat.ltb _ _); cbn [negb andb]; [done|].
  destruct (PyStr.truthy (PyStr.strip line)); cbn [negb]; [|done].
  by intros [= -> ->].
Qed.

Lemma names_loop_filter (config : Config) (dates : list datetime)
    (project_names : gmap string string) (input : list string) :
  fst <$> names_loop config dates project_names input =
    if decide (length dates
               ≤ length (List.filter (valid_project_name config) input))%nat
    then Some (foldl (λ m dl, <[strftime_Ymd dl.1 := dl.2]> m) project_names
                 (zip dates (List.filter (valid_project_name config) input)))
    else None.
Proof.
  revert project_names input.
  induction dates as [|date dates IH]; intros project_names input.
  - cbn [names_loop fmap option_fmap option_map fst length zip zip_with foldl].
    destruct (decide _); [done|lia].
  - cbn [names_loop].
    destruct (prompt_loop config input) as [[answer input']|] eqn:Hprompt.
    + rewrite IH, (prompt_loop_Some _ _ _ _ Hprompt).
      cbn [length zip zip_with foldl fst snd].
      repeat destruct (decide _); first [done|lia].
    + rewrite (prompt_loop_None _ _ Hprompt).
      cbn [fmap option_fmap option_map length].
      destruct (decide _); [lia|done].
Qed.

Lemma lex_leb_total (l1 l2 : list N) :
  length l1 = length l2 → lex_leb l1 l2 = true ∨ lex_leb l2 l1 = true.
Proof.
  revert l2. induction l1 as [|a l1 IH]; intros [|b l2] Hlen; simpl;
    [by left|done..|].
  destruct (N.ltb_spec a b); [by left|].
  destruct (N.ltb_spec b a); [by right|].
  apply IH. by injection Hlen.
Qed.

(** Any two values compare one way or the other. *)
Lemma date_le_total : Total date_le.
Proof.
  intros d1 d2. unfold date_le, date_leb.
  pose proof (lex_leb_total (date_fields_of d1) (date_fields_of d2) eq_refl)
    as Hlex.
  destruct (tzinfo d1) as [o1|], (tzinfo d2) as [o2|].
  - rewrite (Z.eqb_sym o2 o1). destruct (o1 =? o2)%Z.
    + destruct Hlex as [-> | ->]; [by left|by right].
    + destruct (Z.leb_spec (utc_seconds d1 o1) (utc_seconds d2 o2));
        [by left|].
      right. apply Is_true_true, Z.leb_le. lia.
  - by right.
  - by left.
  - destruct Hlex as [-> | ->]; [by left|by right].
Qed.

(** The comparison by fields, written out. *)
Lemma lex_leb_fields (d1 d2 : datetime) :
  lex_leb (date_fields_of d1) (date_fields_of d2) = true ↔
  year d1 < year d2 ∨ year d1 = year d2 ∧
  (month d1 < month d2 ∨ month d1 = month d2 ∧
   (day d1 < day d2 ∨ day d1 = day d2 ∧
    (hour d1 < hour d2 ∨ hour d1 = hour d2 ∧
     (minute d1 < minute d2 ∨ minute d1 = minute d2 ∧
      second d1 ≤ second d2)))).
Proof.
  unfold date_fields_of. cbn [lex_leb].
  repeat match goal with
         | |- context [N.ltb ?a ?b] => destruct (N.ltb_spec a b)
         end; split; first [done | lia | intros _; lia].
Qed.

(** X12.  Without a uniform name, [get_project_names_for_all_dates] first
    sorts the dates.  On a set that holds a naive and an aware date the
    sort raises [TypeError] and no mapping is built.  On any other set the
    dates are taken in ascending order, and the mapping is a function of
    the acceptable lines alone (no longer than the maximum, not blank): the
    dates in order receive the acceptable lines in the order typed, a later
    date of the same DateKey replacing the label of an earlier one, and a
    refused line changes nothing; the prompt fails, at the end of the
    input, exactly when there are fewer acceptable lines than dates.  The
    order is the one of Python: by the fields from year to second for two
    dates with the same offset or none, by the instant for two aware dates
    with different offsets. *)
Theorem prompt_assigns_acceptable_lines (dates : list datetime)
    (config : Config) (input : list string) :
  name config = None ∨ name config = Some "" →
  let valid := List.filter (valid_project_name config) input in
  (mixed dates = true →
   get_project_names_for_all_dates dates config input = None)
  ∧ (mixed dates = false →
     ∃ sorted : list datetime,
       sorted ≡ₚ dates ∧ Sorted date_le sorted ∧
       fst <$> get_project_names_for_all_dates dates config input =
         if decide (length dates ≤ length valid)%nat
         then Some (foldl (λ m dl, <[strftime_Ymd dl.1 := dl.2]> m) ∅
                      (zip sorted valid))
         else None)
  ∧ (mixed dates = true ↔
     ∃ d1 d2 : datetime,
       d1 ∈ dates ∧ d2 ∈ dates ∧ tzinfo d1 = None ∧ is_Some (tzinfo d2))
  ∧ (∀ d1 d2 : datetime,
       tzinfo d1 = tzinfo d2 →
       date_le d1 d2 ↔
       year d1 < year d2 ∨ year d1 = year d2 ∧
       (month d1 < month d2 ∨ month d1 = month d2 ∧
        (day d1 < day d2 ∨ day d1 = day d2 ∧
         (hour d1 < hour d2 ∨ hour d1 = hour d2 ∧
          (minute d1 < minute d2 ∨ minute d1 = minute d2 ∧
           second d1 ≤ second d2)))))
  ∧ (∀ (d1 d2 : datetime) (o1 o2 : Z),
       tzinfo d1 = Some o1 → tzinfo d2 = Some o2 → o1 ≠ o2 →
       date_le d1 d2 ↔ (utc_seconds d1 o1 ≤ utc_seconds d2 o2)%Z).
Proof.
  intros Hname valid.
  assert (Hrun : get_project_names_for_all_dates dates config input
                 = (sorted ← sorted_dates dates;
                    names_loop config sorted ∅ input)).
  { unfold get_project_names_for_all_dates. by destruct Hname as [-> | ->]. }
  rewrite Hrun. unfold sorted_dates. split_and!.
  - by intros ->.
  - intros ->. exists (merge_sort date_le dates). split_and!.
    + apply merge_sort_Permutation.
    + apply (Sorted_merge_sort date_le (Total0 := date_le_total)).
    + assert (Hlen : length (merge_sort date_le dates) = length dates).
      { by rewrite merge_sort_Permutation. }
      cbn [mbind option_bind]. by rewrite names_loop_filter, Hlen.
  - unfold mixed. rewrite andb_true_iff, !existsb_exists. split.
    + intros [(d2 & Hd2 & Haware) (d1 & Hd1 & Hnaive)].
      exists d1, d2. apply list_elem_of_In in Hd1, Hd2. unfold aware in *.
      destruct (tzinfo d1), (tzinfo d2); try done; split_and!; eauto.
    + intros (d1 & d2 & Hd1 & Hd2 & Hnaive & [o Haware]).
      apply list_elem_of_In in Hd1, Hd2. unfold aware. split.
      * exists d2. by rewrite Haware.
      * exists d1. by rewrite Hnaive.
  - intros d1 d2 Htz. rewrite <-lex_leb_fields.
    unfold date_le, date_leb. rewrite Htz.
    destruct (tzinfo d2) as [o|]; [rewrite Z.eqb_refl|]; apply Is_true_true.
  - intros d1 d2 o1 o2 Ho1 Ho2 Hne. unfold date_le, date_leb.
    rewrite Ho1, Ho2. apply Z.eqb_neq in Hne as ->.
    rewrite Is_true_true. apply Z.leb_le.
Qed.

Lemma prompt_assigns_acceptable_lines_witness :
  (∃ sorted : list datetime,
     sorted ≡ₚ [mkDate 2023 6 15 8 0 0; Sample.may1] ∧
     Sorted date_le sorted ∧
     fst <$> get_project_names_for_all_dates
               [mkDate 2023 6 15 8 0 0; Sample.may1] Config_default
               ["   "; "Wedding"; ""; "Holiday"; "unused"]
     = Some (foldl (λ m dl, <[strftime_Ymd dl.1 := dl.2]> m) ∅
               (zip sorted ["Wedding"; "Holiday"; "unused"])))
  ∧ fst <$> get_project_names_for_all_dates
              [mkDate 2023 6 15 8 0 0; Sample.may1] Config_default
              ["   "; "Wedding"; ""; "Holiday"; "unused"]
    = Some (<[ "20230615" := "Holiday" ]> (<[ "20230501" := "Wedding" ]> ∅))
  ∧ get_project_names_for_all_dates
      [mkDatetime 2023 6 15 8 0 0 (Some 0%Z); Sample.may1] Config_default
      ["Wedding"; "Holiday"]
    = None.
Proof.
  split_and!.
  - destruct (prompt_assigns_acceptable_lines
                [mkDate 2023 6 15 8 0 0; Sample.may1] Config_default
                ["   "; "Wedding"; ""; "Holiday"; "unused"])
      as (_ & Hsorted & _); [left; reflexivity|].
    destruct (Hsorted eq_refl) as (sorted & Hperm & Hord & Hrun).
    exists sorted. split_and!; [done..|]. exact Hrun.
  - vm_compute. reflexivity.
  - apply (prompt_assigns_acceptable_lines
             [mkDatetime 2023 6 15 8 0 0 (Some 0%Z); Sample.may1]
             Config_default ["Wedding"; "Holiday"]);
      [left; reflexivity|reflexivity].
Defined.

(** ** Discovery *)

(** X13.  The extensions of the default configuration are those of the
    three families of the resolver, no more and no fewer: a file that the
    two commands discover is dispatched to the RAW, the still-image or the
    video branch, never to the branch for unrecognised extensions, and
    every extension that the resolver knows is discovered. *)
Theorem default_extensions_are_the_families (ext : string) :
  PyStr.mem ext (image_extensions Config_default)
  = PyStr.mem ext raw_extensions || PyStr.mem ext jpeg_extensions
    || PyStr.mem ext video_extensions.
Proof.
  unfold PyStr.mem, Config_default, raw_extensions, jpeg_extensions,
    video_extensions.
  cbn [image_extensions existsb].
  repeat match goal with
         | |- context [String.eqb ext ?s] =>
             destruct (String.eqb ext s);
             cbn [orb]; rewrite ?orb_true_r; try reflexivity
         end.
Qed.

Lemma strip_prefix_Some (pre p rest : Path) :
  strip_prefix pre p = Some rest ↔ p = pre ++ rest.
Proof.
  revert p. induction pre as [|a pre IH]; intros p; simpl.
  - split; [by intros [= ->]|by intros ->].
  - destruct p as [|b p]; [done|].
    destruct (String.eqb a b) eqn:Hab.
    + apply String.eqb_eq in Hab as ->. rewrite IH.
      split; [by intros ->|by intros [= ->]].
    + apply String.eqb_neq in Hab. split; [done|]. by intros [= <- _].
Qed.

Lemma reaches_spec (fs : FS) (rest : list string) (dir : Path) :
  reaches fs dir rest = true ↔
  rest ≠ [] ∧
  ∀ k : nat, (k < length rest)%nat → OS.is_dir fs (dir ++ take k rest) = true.
Proof.
  revert dir. induction rest as [|c rest IH]; intros dir.
  - simpl. split; [done|]. by intros [? _].
  - cbn [reaches]. rewrite andb_true_iff. destruct rest as [|c' rest].
    + split.
      * intros [Hdir _]. split; [done|]. intros k Hk. simpl in Hk.
        assert (k = 0%nat) as -> by lia. simpl. by rewrite app_nil_r.
      * intros [_ Hall]. split; [|done].
        specialize (Hall 0%nat). simpl in Hall. rewrite app_nil_r in Hall.
        apply Hall. lia.
    + rewrite IH. split.
      * intros [Hdir [_ Hall]]. split; [done|]. intros [|k] Hk.
        -- simpl. by rewrite app_nil_r.
        -- cbn [take]. rewrite (cons_middle c), app_assoc. apply Hall.
           simpl in Hk |- *. lia.
      * intros [_ Hall]. split_and!; [|done|].
        -- specialize (Hall 0%nat). simpl in Hall.
           rewrite app_nil_r in Hall. apply Hall. lia.
        -- intros k Hk. specialize (Hall (S k)). cbn [take] in Hall.
           rewrite (cons_middle c), app_assoc in Hall. apply Hall.
           simpl in Hk |- *. lia.
Qed.

(** The files that discovery returns. *)
Lemma get_image_files_spec (fs : FS) (source_dir : Path) (config : Config)
    (f : Path) :
  f ∈ get_image_files fs source_dir config ↔
  ∃ rest : list string,
    f = source_dir ++ rest ∧ rest ≠ [] ∧
    (∀ k : nat, (k < length rest)%nat →
       OS.is_dir fs (source_dir ++ take k rest) = true) ∧
    is_file fs f = true ∧
    PyStr.mem (PyStr.lower (PyPath.suffix f)) (image_extensions config) = true.
Proof.
  unfold get_image_files. rewrite elem_of_dom. unfold is_Some.
  setoid_rewrite map_lookup_filter_Some. cbn [fst].
  unfold in_rglob, is_image_file. split.
  - intros (x & Hx & Hcond).
    apply andb_true_iff in Hcond as [Hwalk Himg].
    apply andb_true_iff in Himg as [Hfile Hext].
    destruct (strip_prefix source_dir f) as [rest|] eqn:Hpre; [|done].
    apply strip_prefix_Some in Hpre. apply reaches_spec in Hwalk as [? ?].
    by exists rest.
  - intros (rest & Hf & Hne & Hall & Hfile & Hext).
    assert (Hx : ∃ x, fs_nodes fs !! f = Some x).
    { unfold is_file in Hfile. destruct (fs_nodes fs !! f); [eauto|done]. }
    destruct Hx as [x Hx]. exists x. split; [done|].
    apply strip_prefix_Some in Hf. rewrite Hf, Hfile, Hext.
    rewrite andb_true_r. by apply reaches_spec.
Qed.

(** X14.  What discovery returns: the paths strictly below the source
    root, every directory from the root down to the parent existing as a
    directory, that are regular files and whose suffix, lower-cased, is in
    the configured set.  The root itself is never returned, and a root
    that is not a directory gives the empty set, without an error. *)
Theorem discovery_finds_files_below_root (fs : FS) (source_dir : Path)
    (config : Config) :
  (∀ f : Path,
     f ∈ get_image_files fs source_dir config ↔
     ∃ rest : list string,
       f = source_dir ++ rest ∧ rest ≠ [] ∧
       (∀ k : nat, (k < length rest)%nat →
          OS.is_dir fs (source_dir ++ take k rest) = true) ∧
       (∃ data, fs_nodes fs !! f = Some (File data)) ∧
       PyStr.mem (PyStr.lower (PyPath.suffix f)) (image_extensions config)
         = true)
  ∧ (source_dir ∉ get_image_files fs source_dir config)
  ∧ (OS.is_dir fs source_dir = false →
     get_image_files fs source_dir config = ∅).
Proof.
  split_and!.
  - intros f. rewrite get_image_files_spec. unfold is_file.
    split; intros (rest & ? & ? & ? & Hfile & ?); exists rest;
      (split_and!; [done..| |done]).
    + destruct (fs_nodes fs !! f) as [[data|]|]; [eauto|done..].
    + by destruct Hfile as [data ->].
  - rewrite get_image_files_spec. intros (rest & Hf & Hne & _).
    apply Hne. rewrite <-(app_nil_r source_dir) in Hf at 1.
    by apply app_inv_head in Hf.
  - intros Hdir. apply set_eq. intros f. rewrite get_image_files_spec.
    split; [|set_solver]. intros (rest & _ & Hne & Hall & _).
    destruct rest as [|c rest]; [done|].
    specialize (Hall 0%nat). simpl in Hall. rewrite app_nil_r in Hall.
    rewrite Hall in Hdir; [done|lia].
Qed.

(** X15.  Discovery reads nothing outside the tree of the source root: two
    file systems with the same entries at and below the root give the same
    set of files. *)
Theorem discovery_reads_below_root_only (fs1 fs2 : FS) (source_dir : Path)
    (config : Config) :
  (∀ rest : list string,
     fs_nodes fs1 !! (source_dir ++ rest)
     = fs_nodes fs2 !! (source_dir ++ rest)) →
  get_image_files fs1 source_dir config
  = get_image_files fs2 source_dir config.
Proof.
  intros Hsame. apply set_eq. intros f. rewrite !get_image_files_spec.
  assert (Hhalf : ∀ fsa fsb : FS,
    (∀ rest : list string,
       fs_nodes fsa !! (source_dir ++ rest)
       = fs_nodes fsb !! (source_dir ++ rest)) →
    (∃ rest : list string,
       f = source_dir ++ rest ∧ rest ≠ [] ∧
       (∀ k : nat, (k < length rest)%nat →
          OS.is_dir fsa (source_dir ++ take k rest) = true) ∧
       is_file fsa f = true ∧
       PyStr.mem (PyStr.lower (PyPath.suffix f)) (image_extensions config)
         = true) →
    ∃ rest : list string,
       f = source_dir ++ rest ∧ rest ≠ [] ∧
       (∀ k : nat, (k < length rest)%nat →
          OS.is_dir fsb (source_dir ++ take k rest) = true) ∧
       is_file fsb f = true ∧
       PyStr.mem (PyStr.lower (PyPath.suffix f)) (image_extensions config)
         = true).
  { intros fsa fsb Hab (rest & -> & Hne & Hall & Hfile & Hext).
    exists rest. split_and!; [done..| | |done].
    - intros k Hk. unfold OS.is_dir. rewrite <-Hab. by apply Hall.
    - unfold is_file. by rewrite <-Hab. }
  split; apply Hhalf; [done|]. intros rest. by rewrite Hsame.
Qed.

Lemma discovery_reads_below_root_only_witness :
  get_image_files (Sample.fs 100) ["src"] Config_default
  = get_image_files (w_fs world_with_probe) ["src"] Config_default.
Proof.
  apply (discovery_reads_below_root_only
           (Sample.fs 100) (w_fs world_with_probe) ["src"] Config_default).
  intros rest. cbn [w_fs world_with_probe fs_nodes Sample.fs].
  rewrite !lookup_insert_ne by (simpl; congruence). reflexivity.
Defined.

(** ** The [extract-dates] command and the two-step workflow *)

Section ExtractFacts.

Variable parse : string → parse_result.
Variable TAGS : Z → option string.
Variable now : datetime.
Variable json_dumps : list string → string.

(** The set that the loop of [extract_dates] builds holds the DateKeys of
    the files, and nothing else. *)
Lemma unique_dates_elem (image_files : list MediaFile) (s : string) :
  s ∈ unique_dates parse TAGS now image_files ↔
  ∃ (f : MediaFile) (d : datetime),
    f ∈ image_files ∧ get_image_date parse TAGS now f = Returns d ∧
    s = strftime_Ymd (replace_midnight d).
Proof.
  unfold unique_dates.
  cut (∀ acc : gset string,
    s ∈ foldl (λ (dates : gset string) image_file,
                 match get_image_date parse TAGS now image_file with
                 | Returns image_date =>
                     let date_only := replace_midnight image_date in
                     {[ strftime_Ymd date_only ]} ∪ dates
                 | Raises => dates
                 end) acc image_files ↔
    s ∈ acc ∨
    ∃ (f : MediaFile) (d : datetime),
      f ∈ image_files ∧ get_image_date parse TAGS now f = Returns d ∧
      s = strftime_Ymd (replace_midnight d)).
  { intros Hcut. rewrite Hcut. split; [|by right].
    intros [Hin|?]; [|done]. by apply elem_of_empty in Hin. }
  induction image_files as [|f files IH]; intros acc; simpl.
  - split; [by left|]. intros [?|(f & d & Hin & _)]; [done|].
    by apply elem_of_nil in Hin.
  - rewrite IH. split.
    + intros [Hacc|(f' & d & Hin & Hd & Hs)].
      * destruct (get_image_date parse TAGS now f) as [d|] eqn:Hd;
          [|by left].
        apply elem_of_union in Hacc as [->%elem_of_singleton|?]; [|by left].
        right. exists f, d. split_and!; [by left|done..].
      * right. exists f', d. split_and!; [by right|done..].
    + intros [Hacc|(f' & d & Hin & Hd & Hs)].
      * left. destruct (get_image_date parse TAGS now f); [|done].
        apply elem_of_union. by right.
      * apply elem_of_cons in Hin as [->|Hin].
        -- left. rewrite Hd. apply elem_of_union. left.
           by apply elem_of_singleton.
        -- right. exists f', d. done.
Qed.

Lemma sorted_unique_dates_elem (image_files : list MediaFile) (s : string) :
  s ∈ sorted_unique_dates parse TAGS now image_files ↔
  ∃ (f : MediaFile) (d : datetime),
    f ∈ image_files ∧ get_image_date parse TAGS now f = Returns d ∧
    s = strftime_Ymd (replace_midnight d).
Proof.
  unfold sorted_unique_dates.
  rewrite merge_sort_Permutation, elem_of_elements.
  apply unique_dates_elem.
Qed.

(** X16.  The [extract-dates] command completes on every list of files,
    leaves the file system as it is and prints one line: the DateKeys of
    the files in ascending order of their characters, each once, a key
    being listed exactly when some file resolves to it. *)
Theorem extract_dates_prints_sorted_keys (image_files : list MediaFile)
    (w : world) :
  let keys := sorted_unique_dates parse TAGS now image_files in
  extract_dates parse TAGS now json_dumps image_files w
    = (Done (), {| w_fs := w_fs w;
                   w_log := w_log w ++ [Echo (json_dumps keys)] |})
  ∧ StronglySorted String.le keys
  ∧ NoDup keys
  ∧ ∀ s : string,
      s ∈ keys ↔
      ∃ (f : MediaFile) (d : datetime),
        f ∈ image_files ∧ get_image_date parse TAGS now f = Returns d ∧
        s = strftime_Ymd (replace_midnight d).
Proof.
  intros keys. split_and!.
  - reflexivity.
  - unfold keys, sorted_unique_dates. apply StronglySorted_merge_sort; apply _.
  - unfold keys, sorted_unique_dates. rewrite merge_sort_Permutation.
    apply NoDup_elements.
  - apply sorted_unique_dates_elem.
Qed.

Lemma dict_set_same {K V : Type} `{EqDecision K} (k : K) (v : V)
    (acc : list (K * V)) :
  (k, v) ∈ dict_set k v acc.
Proof.
  induction acc as [|[k' v'] acc IH]; simpl.
  - by left.
  - destruct (decide (k = k')); [by left|by right].
Qed.

Lemma dict_set_other {K V : Type} `{EqDecision K} (k q : K) (v d : V)
    (acc : list (K * V)) :
  q ≠ k → (q, d) ∈ acc → (q, d) ∈ dict_set k v acc.
Proof.
  intros Hne. induction acc as [|[k' v'] acc IH]; simpl.
  - by intros ?%elem_of_nil.
  - destruct (decide (k = k')) as [->|Hk].
    + intros [[= -> ->]|Hin]%elem_of_cons; [done|by right].
    + intros [[= -> ->]|Hin]%elem_of_cons; [by left|]. right. by apply IH.
Qed.

(** The first loop of [group_files] keeps the date of every file, when no
    two files share a path. *)
Lemma file_dates_complete (image_files : list MediaFile) (f : MediaFile)
    (d : datetime) :
  NoDup (mf_path <$> image_files) →
  f ∈ image_files →
  get_image_date parse TAGS now f = Returns d →
  (mf_path f, d) ∈ file_dates parse TAGS now image_files.
Proof.
  unfold file_dates. generalize (@nil (Path * datetime)) as acc.
  assert (Hkeep : ∀ (files : list MediaFile) (acc : list (Path * datetime))
                    (q : Path),
    q ∉ mf_path <$> files → (q, d) ∈ acc →
    (q, d) ∈ foldl (λ file_date_mapping image_file,
                      match get_image_date parse TAGS now image_file with
                      | Returns image_date =>
                          dict_set (mf_path image_file) image_date
                            file_date_mapping
                      | Raises => file_date_mapping
                      end) acc files).
  { induction files as [|g files IH]; intros acc q Hq Hin; simpl; [done|].
    rewrite fmap_cons, not_elem_of_cons in Hq. destruct Hq as [Hne Hq].
    apply IH; [done|].
    destruct (get_image_date parse TAGS now g); [|done].
    by apply dict_set_other. }
  induction image_files as [|g files IH]; intros acc Hnodup Hin Hd.
  - by apply elem_of_nil in Hin.
  - rewrite fmap_cons in Hnodup. apply NoDup_cons in Hnodup as [Hfresh Hnodup].
    simpl. apply elem_of_cons in Hin as [<-|Hin].
    + apply Hkeep; [done|]. rewrite Hd. apply dict_set_same.
    + by apply IH.
Qed.

(** X17.  The two commands agree on the keys, for one reading of the
    clock: when no two discovered files share a path, the keys that
    [extract-dates] prints are exactly the keys under which [group]
    consults the mapping.  So a mapping with a truthy label for every
    printed key leaves no discovered file out: each goes to the placement
    engine. *)
Theorem printed_keys_are_the_keys_of_group (image_files : list MediaFile) :
  NoDup (mf_path <$> image_files) →
  (∀ s : string,
     s ∈ sorted_unique_dates parse TAGS now image_files ↔
     ∃ item : Path * datetime,
       item ∈ file_dates parse TAGS now image_files ∧ date_key item = s)
  ∧ ∀ (project_names : gmap string json) (config : Config)
      (dest_path : Path),
      (∀ s : string,
         s ∈ sorted_unique_dates parse TAGS now image_files →
         ∃ project_name : json,
           project_names !! s = Some project_name ∧
           json_truthy project_name = true) →
      ∀ item : Path * datetime,
        item ∈ file_dates parse TAGS now image_files →
        ∃ project_name : json,
          project_names !! date_key item = Some project_name ∧
          group_step config project_names dest_path item
          = place_file config dest_path item.1 item.2 project_name.
Proof.
  intros Hnodup.
  assert (Hkeys : ∀ item : Path * datetime,
    item ∈ file_dates parse TAGS now image_files →
    date_key item ∈ sorted_unique_dates parse TAGS now image_files).
  { intros [q d] Hin. apply sorted_unique_dates_elem.
    apply file_dates_elem in Hin as (f & Hf & _ & Hd). by exists f, d. }
  split.
  - intros s. split.
    + intros (f & d & Hf & Hd & ->)%sorted_unique_dates_elem.
      exists (mf_path f, d). split; [|done]. by apply file_dates_complete.
    + intros (item & Hin & <-). by apply Hkeys.
  - intros project_names config dest_path Hall item Hin.
    destruct (Hall _ (Hkeys item Hin)) as (project_name & Hname & Htruthy).
    exists project_name. split; [done|].
    unfold group_step. fold (date_key item). by rewrite Hname, Htruthy.
Qed.

End ExtractFacts.

Lemma printed_keys_are_the_keys_of_group_witness :
  NoDup (mf_path <$> Sample.photos)
  ∧ ("20230501" ∈ sorted_unique_dates Sample.parse Sample.TAGS Sample.now
                    Sample.photos ↔
     ∃ item : Path * datetime,
       item ∈ file_dates Sample.parse Sample.TAGS Sample.now Sample.photos
       ∧ date_key item = "20230501").
Proof.
  assert (Hnodup : NoDup (mf_path <$> Sample.photos)).
  { apply (bool_decide_unpack _). vm_compute. exact I. }
  split; [exact Hnodup|].
  apply (printed_keys_are_the_keys_of_group Sample.parse Sample.TAGS
           Sample.now Sample.photos Hnodup).
Defined.

(** ** The extension of a placed file *)

Lemma string_app_assoc (s t u : string) : (s +:+ t) +:+ u = s +:+ (t +:+ u).
Proof.
  induction s as [|c s IH]; [done|].
  change (String c s +:+ t) with (String c (s +:+ t)).
  change (String c (s +:+ t) +:+ u) with (String c ((s +:+ t) +:+ u)).
  change (String c s +:+ (t +:+ u)) with (String c (s +:+ (t +:+ u))).
  by rewrite IH.
Qed.

Lemma rfind_dot_app (pre nm : string) (i : nat) :
  PyStr.rfind_dot nm = Some i →
  PyStr.rfind_dot (pre +:+ nm) = Some (String.length pre + i)%nat.
Proof.
  intros Hnm. induction pre as [|c pre IH]; [done|].
  change (String c pre +:+ nm) with (String c (pre +:+ nm)).
  cbn [PyStr.rfind_dot String.length]. by rewrite IH.
Qed.

Lemma substring_app_skip (pre nm : string) (n : nat) :
  String.substring (String.length pre) n (pre +:+ nm)
  = String.substring 0 n nm.
Proof.
  induction pre as [|c pre IH]; [done|].
  change (String c pre +:+ nm) with (String c (pre +:+ nm)).
  cbn [String.length String.substring]. exact IH.
Qed.

Lemma substring_prefix (pre nm : string) :
  String.substring 0 (String.length pre) (pre +:+ nm) = pre.
Proof.
  induction pre as [|c pre IH].
  - simpl. by destruct nm.
  - change (String c pre +:+ nm) with (String c (pre +:+ nm)).
    cbn [String.length String.substring]. by rewrite IH.
Qed.

Lemma substring_all (s : string) :
  String.substring 0 (String.length s) s = s.
Proof. induction s as [|c s IH]; simpl; [done|]. by rewrite IH. Qed.

(** A name with its last dot at [i] splits there, and the part after the
    dot holds no dot. *)
Lemma rfind_dot_split (nm : string) (i : nat) :
  PyStr.rfind_dot nm = Some i →
  ∃ pre tail : string,
    nm = pre +:+ String "."%char tail ∧ String.length pre = i ∧
    PyStr.rfind_dot tail = None.
Proof.
  revert i. induction nm as [|c nm IH]; intros i; cbn [PyStr.rfind_dot];
    [done|].
  destruct (PyStr.rfind_dot nm) as [j|] eqn:Hnm.
  - intros [= <-]. destruct (IH j eq_refl) as (pre & tail & -> & <- & Htail).
    by exists (String c pre), tail.
  - destruct (Ascii.eqb c ".") eqn:Hc; [|done]. intros [= <-].
    apply Ascii.eqb_eq in Hc as ->. by exists "", nm.
Qed.

(** The suffix and the stem of a name made of a non-empty part, a dot and a
    non-empty part without dots. *)
Lemma suffix_of_build (pre tail : string) :
  pre ≠ "" → tail ≠ "" → PyStr.rfind_dot tail = None →
  PyPath.suffix_of (pre +:+ String "."%char tail) = String "."%char tail
  ∧ PyPath.stem_of (pre +:+ String "."%char tail) = pre.
Proof.
  intros Hpre Htail Hdot.
  assert (Hfind : PyStr.rfind_dot (pre +:+ String "."%char tail)
                  = Some (String.length pre + 0)%nat).
  { apply rfind_dot_app. cbn [PyStr.rfind_dot]. by rewrite Hdot. }
  rewrite Nat.add_0_r in Hfind.
  assert (Hinside : PyPath.dot_inside (pre +:+ String "."%char tail)
                      (String.length pre) = true).
  { unfold PyPath.dot_inside. rewrite string_length_app.
    cbn [String.length].
    destruct pre as [|c pre]; [done|]. destruct tail as [|c' tail]; [done|].
    cbn [String.length]. apply andb_true_iff.
    split; apply Nat.ltb_lt; lia. }
  unfold PyPath.suffix_of, PyPath.stem_of. rewrite Hfind, Hinside. split.
  - rewrite substring_app_skip, string_length_app.
    replace (String.length pre + String.length (String "."%char tail)
             - String.length pre)%nat
      with (String.length (String "."%char tail)) by lia.
    apply substring_all.
  - apply substring_prefix.
Qed.

(** A name with a suffix is its stem followed by its suffix, and the suffix
    is a dot and a non-empty part without dots. *)
Lemma suffix_of_split (nm : string) :
  PyPath.suffix_of nm ≠ "" →
  ∃ pre tail : string,
    nm = pre +:+ String "."%char tail ∧ pre ≠ "" ∧ tail ≠ "" ∧
    PyStr.rfind_dot tail = None ∧
    PyPath.suffix_of nm = String "."%char tail ∧ PyPath.stem_of nm = pre.
Proof.
  intros Hsuffix.
  assert (Hshape : ∃ i, PyStr.rfind_dot nm = Some i
                        ∧ PyPath.dot_inside nm i = true).
  { unfold PyPath.suffix_of in Hsuffix.
    destruct (PyStr.rfind_dot nm) as [i|]; [|done].
    destruct (PyPath.dot_inside nm i) eqn:Hin; [eauto|done]. }
  destruct Hshape as (i & Hfind & Hinside).
  destruct (rfind_dot_split nm i Hfind) as (pre & tail & -> & <- & Htail).
  unfold PyPath.dot_inside in Hinside. rewrite string_length_app in Hinside.
  cbn [String.length] in Hinside.
  apply andb_true_iff in Hinside as [Hpos%Nat.ltb_lt Hlast%Nat.ltb_lt].
  assert (Hpre : pre ≠ "") by (intros ->; simpl in Hpos; lia).
  assert (Htl : tail ≠ "") by (intros ->; simpl in Hlast; lia).
  destruct (suffix_of_build pre tail Hpre Htl Htail) as [Hs Hst].
  by exists pre, tail.
Qed.

Lemma string_app_ne_nil (s t : string) : t ≠ "" → s +:+ t ≠ "".
Proof.
  intros Ht Heq. apply (f_equal String.length) in Heq.
  rewrite string_length_app in Heq. destruct t; [done|]. simpl in Heq. lia.
Qed.

(** X18.  A placed file keeps the extension of its source, whatever the
    label and the counter: for a source whose name has a suffix, the first
    candidate and every numbered candidate have that same suffix, also when
    the label holds dots; the counter goes before the suffix, the stem of
    a numbered candidate being folder name, stem of the source and
    counter. *)
Theorem placed_file_keeps_extension (date_folder image_file : Path) :
  PyPath.suffix image_file ≠ "" →
  PyPath.suffix (PyPath.child date_folder
                   (new_filename date_folder image_file))
  = PyPath.suffix image_file
  ∧ ∀ counter : nat,
      PyPath.suffix (numbered date_folder image_file counter)
      = PyPath.suffix image_file
      ∧ PyPath.stem (numbered date_folder image_file counter)
        = PyPath.name date_folder +:+ "_" +:+ PyPath.stem image_file
          +:+ "_" +:+ pretty counter.
Proof.
  unfold numbered, new_filename, numbered_filename, PyPath.suffix,
    PyPath.stem.
  intros Hsuffix. rewrite name_child. setoid_rewrite name_child.
  destruct (suffix_of_split _ Hsuffix)
    as (pre & tail & Hname & Hpre & Htail & Hdot & Hs & Hst).
  rewrite Hs, Hst. split.
  - rewrite Hname, <-!string_app_assoc.
    apply suffix_of_build; [|done..]. by apply string_app_ne_nil.
  - intros counter.
    assert (Hfront : PyPath.name date_folder +:+ "_" +:+ pre +:+ "_"
                     +:+ pretty counter ≠ "").
    { do 3 apply string_app_ne_nil. done. }
    destruct (suffix_of_build _ tail Hfront Htail Hdot) as [Hs' Hst'].
    rewrite !string_app_assoc in Hs', Hst'. done.
Qed.

Lemma placed_file_keeps_extension_witness :
  PyPath.suffix ["src"; "a.jpg"] ≠ ""
  ∧ PyPath.suffix (numbered ["dest"; "20230501_v1.2"] ["src"; "a.jpg"] 3)
    = ".jpg".
Proof.
  assert (Hsuffix : PyPath.suffix ["src"; "a.jpg"] ≠ "").
  { vm_compute. discriminate. }
  split; [exact Hsuffix|].
  apply (placed_file_keeps_extension ["dest"; "20230501_v1.2"]
           ["src"; "a.jpg"] Hsuffix).
Defined.

(** ** The parent of the destination *)

(** X19.  The transfer never creates the parent directory of the
    destination, although it calls [mkdir(parents=True)]: the two checks
    come first, and both need the parent.  A destination whose parent does
    not exist is refused as a lack of disk space, however much is free,
    with the file system as it was; and whenever the transfer completes,
    the parent was a directory before the call. *)
Theorem transfer_never_creates_parent (src dst : Path) (config : Config)
    (w : world) :
  dry_run config = false →
  (OS.exists_ (w_fs w) (PyPath.parent dst) = false →
   ∃ w' : world,
     safe_copy_file src dst config w
     = (Raised (DiskSpaceError ("Not enough disk space to copy "
                                +:+ PyPath.to_string src)), w')
     ∧ w_fs w' = w_fs w)
  ∧ (∀ w' : world,
       safe_copy_file src dst config w = (Done (), w') →
       OS.is_dir (w_fs w) (PyPath.parent dst) = true).
Proof.
  intros Hwet. split.
  - intros Hmissing.
    assert (Hcheck : ∃ w1, has_enough_disk_space src dst w = (Done false, w1)
                           ∧ w_fs w1 = w_fs w).
    { unfold has_enough_disk_space, OS.disk_free. rewrite Hmissing.
      destruct (OS.st_size (w_fs w) src); unfold_M; eauto. }
    destruct Hcheck as (w1 & Hcheck & Hfs).
    rewrite (safe_copy_file_no_space _ _ _ Hwet _ _ Hcheck). eauto.
  - intros w' Hrun.
    destruct (safe_copy_file_done _ _ _ _ _ Hwet Hrun) as (_ & Hdir & _).
    unfold OS.writable_dir in Hdir. by apply andb_true_iff in Hdir as [? _].
Qed.

Lemma transfer_never_creates_parent_witness :
  ∃ w' : world,
    safe_copy_file ["src"; "a.jpg"] ["dest"; "20230501_Wedding"; "a.jpg"]
      Config_default (Sample.start 1000000)
    = (Raised (DiskSpaceError ("Not enough disk space to copy "
                               +:+ PyPath.to_string ["src"; "a.jpg"])), w')
    ∧ w_fs w' = w_fs (Sample.start 1000000).
Proof.
  apply (transfer_never_creates_parent ["src"; "a.jpg"]
           ["dest"; "20230501_Wedding"; "a.jpg"] Config_default
           (Sample.start 1000000)).
  - reflexivity.
  - vm_compute. reflexivity.
Defined.
